(** * Authentication and session core of the Next.js / FastAPI template

    A shallow embedding of the session client of [apps/web] (server
    actions, route handlers, the React auth providers) together with a
    model of the backend token core, and the properties of the
    specification stated and settled against it.

    Conventions.
    - A JavaScript string is a Rocq [string]: user input one character per
      code unit, message literals as the bytes of the source file.
    - A server-side computation is a function of the [World] it runs in
      (cookie jar, backend, console) returning a [Result]: a value or a
      thrown JavaScript value.  [try]/[catch]/[finally] are combinators.
    - The generated OpenAPI SDK and the Zod e-mail pattern are not part of
      the repository sources; they are taken as parameters. *)

From stdpp Require Import gmap strings list fin_maps.
From Stdlib Require Import String Ascii ZArith Bool Lia.

Local Open Scope string_scope.

(** ** JavaScript values the code relies on *)

Module Js.

(** What a [throw] can carry: an [Error] with its message, any other
    value, or the control signal of next/navigation's [redirect]. *)
Inductive Thrown :=
| ErrorObj (message : string)
| NonError
| NextRedirect (url : string).

(** [error instanceof Error] *)
Definition instanceofError (e : Thrown) : bool :=
  match e with
  | ErrorObj _ => true
  | NonError => false
  | NextRedirect _ => true
  end.

(** [error.message] *)
Definition message (e : Thrown) : string :=
  match e with
  | ErrorObj m => m
  | NonError => ""
  | NextRedirect _ => "NEXT_REDIRECT"
  end.

Inductive Result (A : Type) :=
| Ok (a : A)
| Throw (e : Thrown).
Arguments Ok {A} a.
Arguments Throw {A} e.

(** [!!s] for a string. *)
Definition truthy (s : string) : bool := negb (String.eqb s "").

(** [!!x] for [x : string | undefined]. *)
Definition truthyOpt (o : option string) : bool :=
  match o with
  | Some s => truthy s
  | None => false
  end.

(** [a || b] on strings. *)
Definition orElse (a b : string) : string := if truthy a then a else b.

(** [s.startsWith(p)] *)
Definition startsWith (s p : string) : bool := String.prefix p s.

(** [s.includes(p)] *)
Fixpoint includes (s p : string) : bool :=
  String.prefix p s ||
  match s with
  | EmptyString => false
  | String _ s' => includes s' p
  end.

(** [xs.includes(x)] on an array of strings. *)
Definition arrayIncludes (xs : list string) (x : string) : bool :=
  existsb (String.eqb x) xs.

(** [xs.some(f)] *)
Definition some {A} (f : A -> bool) (xs : list A) : bool := existsb f xs.

End Js.

(** ** The fragment of Zod (v3) the schemas use *)

Module Zod.

(** A value read from a [FormData]: [formData.get] yields a string, a
    [File], or [null]; a missing object key reads as [undefined]. *)
Inductive FormValue :=
| FString (s : string)
| FNull
| FFile
| FUndefined.

Record Issue := mkIssue { path : list string; message : string }.

Inductive ParseStatus := valid | dirty | aborted.

Inductive StringCheck :=
| min (n : nat) (msg : string)
| max (n : nat) (msg : string)
| email (msg : string)
| regex (re : string -> bool) (msg : string).

(** [/^[a-zA-Z0-9_]+$/] *)
Definition isWordChar (c : ascii) : bool :=
  let n := nat_of_ascii c in
  ((48 <=? n)%nat && (n <=? 57)%nat)
  || ((65 <=? n)%nat && (n <=? 90)%nat)
  || ((97 <=? n)%nat && (n <=? 122)%nat)
  || (n =? 95)%nat.

Definition wordRegex (s : string) : bool :=
  negb (String.eqb s "") && forallb isWordChar (list_ascii_of_string s).

Section Parse.
(** Zod's e-mail pattern. *)
Variable emailRegex : string -> bool.

(** One check of [ZodString._parse]: the message of the issue it adds. *)
Definition runCheck (s : string) (c : StringCheck) : option string :=
  match c with
  | min n msg => if (String.length s <? n)%nat then Some msg else None
  | max n msg => if (n <? String.length s)%nat then Some msg else None
  | email msg => if emailRegex s then None else Some msg
  | regex re msg => if re s then None else Some msg
  end.

(** [ZodString._parse]: a non-string aborts with [invalid_type]; on a
    string every check runs and each failing one adds an issue. *)
Definition parseString (checks : list StringCheck) (key : string)
           (v : FormValue) : ParseStatus * list Issue * option string :=
  match v with
  | FString s =>
      let issues := omap (fun c => mkIssue [key] <$> runCheck s c) checks in
      (match issues with [] => valid | _ => dirty end, issues, Some s)
  | FNull => (aborted, [mkIssue [key] "Expected string, received null"], None)
  | FFile => (aborted, [mkIssue [key] "Expected string, received object"], None)
  | FUndefined => (aborted, [mkIssue [key] "Required"], None)
  end.

(** [ParseStatus.mergeObjectSync] on two statuses. *)
Definition merge (a b : ParseStatus) : ParseStatus :=
  match a, b with
  | aborted, _ | _, aborted => aborted
  | dirty, _ | _, dirty => dirty
  | valid, valid => valid
  end.

Definition Shape := list (string * list StringCheck).

(** [ZodObject._parse]: the keys of the shape are parsed in order, the
    issues accumulate, the statuses merge. *)
Fixpoint parseObject (shape : Shape) (data : gmap string FormValue)
  : ParseStatus * list Issue * gmap string string :=
  match shape with
  | [] => (valid, [], ∅)
  | (key, checks) :: rest =>
      let '(st1, is1, out1) :=
        parseString checks key (default FUndefined (data !! key)) in
      let '(st2, is2, out2) := parseObject rest data in
      (merge st1 st2, (is1 ++ is2)%list,
       match out1 with Some s => <[key := s]> out2 | None => out2 end)
  end.

(** A schema: an object, possibly under one [.refine]. *)
Record Schema := mkSchema {
  shape : Shape;
  refinement : option ((gmap string string -> bool) * Issue)
}.

(** [ZodEffects._parse] for a refinement: an aborted inner parse is
    returned as it is, otherwise the predicate runs (also on a dirty
    value) and a failure adds the custom issue after the inner ones. *)
Definition parseSchema (sch : Schema) (data : gmap string FormValue)
  : ParseStatus * list Issue * gmap string string :=
  let '(st, issues, out) := parseObject (shape sch) data in
  match refinement sch with
  | None => (st, issues, out)
  | Some (pred, issue) =>
      match st with
      | aborted => (aborted, issues, out)
      | _ =>
          if pred out then (st, issues, out)
          else (dirty, (issues ++ [issue])%list, out)
      end
  end.

(** [schema.safeParse(data)] *)
Definition safeParse (sch : Schema) (data : gmap string FormValue)
  : gmap string string + list Issue :=
  let '(st, issues, out) := parseSchema sch data in
  match st with
  | valid => inl out
  | _ => inr issues
  end.

(** [issues[0]?.message || "表单验证失败"] *)
Definition firstMessage (issues : list Issue) : string :=
  match issues with
  | [] => "表单验证失败"
  | i :: _ => Js.orElse (message i) "表单验证失败"
  end.

End Parse.

End Zod.

(** ** The server side of the session client: cookies, SDK calls, console *)

Module Server.
Import Js.

Inductive SameSite := lax | strict | none.

(** A cookie as [cookieStore.set(name, value, options)] records it. *)
Record Cookie := mkCookie {
  value : string;
  httpOnly : bool;
  secure : bool;
  sameSite : SameSite;
  maxAge : Z;
  path : string
}.

(** The bodies handed to the SDK are the raw form values. *)
Record LoginBody := mkLoginBody {
  login_username : Zod.FormValue;
  login_password : Zod.FormValue
}.

Record RegisterBody := mkRegisterBody {
  reg_email : Zod.FormValue;
  reg_username : Zod.FormValue;
  reg_password : Zod.FormValue
}.

Record TokenData := mkTokenData { access_token : string; token_type : string }.

(** [response.data] is [undefined] when the backend answered with an error. *)
Record LoginResponse := mkLoginResponse { data : option TokenData }.

(** A request that left for the backend API. *)
Inductive ApiCall :=
| CallLogin (body : LoginBody)
| CallRegister (body : RegisterBody)
| CallLogout (authorization : string).

(** The generated SDK ([loginAccessToken], [registerUser], [logout]):
    each call may change the backend and either resolves or rejects. *)
Class Sdk (B : Type) := {
  loginAccessToken : LoginBody -> B -> Result LoginResponse * B;
  registerUser : RegisterBody -> B -> Result unit * B;
  apiLogout : string -> B -> Result unit * B
}.

Section WithBackend.
Context {B : Type} {sdk : Sdk B}.

Record World := mkWorld {
  jar : gmap string Cookie;      (* the cookies of the request/response *)
  requestScope : bool;           (* [cookies()] rejects outside of one *)
  nodeEnv : string;              (* [process.env.NODE_ENV] *)
  backend : B;
  calls : list ApiCall;          (* requests sent so far, oldest first *)
  console : list string          (* [console.error] labels, oldest first *)
}.

Definition M (A : Type) : Type := World -> Result A * World.

Definition ret {A} (a : A) : M A := fun w => (Ok a, w).

Definition throw {A} (e : Thrown) : M A := fun w => (Throw e, w).

Definition bind {A C} (m : M A) (k : A -> M C) : M C :=
  fun w =>
    match m w with
    | (Ok a, w') => k a w'
    | (Throw e, w') => (Throw e, w')
    end.

(** [try { m } catch (error) { h error }] *)
Definition try_catch {A} (m : M A) (h : Thrown -> M A) : M A :=
  fun w =>
    match m w with
    | (Ok a, w') => (Ok a, w')
    | (Throw e, w') => h e w'
    end.

(** [try { m } finally { f }]: [f] runs on every path, and what it
    throws replaces the completion of [m]. *)
Definition try_finally {A} (m : M A) (f : M unit) : M A :=
  fun w =>
    let '(r, w') := m w in
    match f w' with
    | (Ok _, w'') => (r, w'')
    | (Throw e, w'') => (Throw e, w'')
    end.

Definition setJar (j : gmap string Cookie) (w : World) : World :=
  mkWorld j (requestScope w) (nodeEnv w) (backend w) (calls w) (console w).

(** [console.error(label, ...)] *)
Definition console_error (label : string) : M unit :=
  fun w =>
    (Ok tt,
     mkWorld (jar w) (requestScope w) (nodeEnv w) (backend w) (calls w)
             (console w ++ [label])%list).

(** [await cookies()] *)
Definition cookies : M unit :=
  fun w =>
    if requestScope w then (Ok tt, w)
    else (Throw (ErrorObj "cookies was called outside a request scope"), w).

(** [cookieStore.get(name)?.value] *)
Definition cookie_get (name : string) : M (option string) :=
  fun w => (Ok (value <$> jar w !! name), w).

(** [cookieStore.set(name, value, options)] *)
Definition cookie_set (name : string) (c : Cookie) : M unit :=
  fun w => (Ok tt, setJar (<[name := c]> (jar w)) w).

(** [cookieStore.delete(name)] *)
Definition cookie_delete (name : string) : M unit :=
  fun w => (Ok tt, setJar (delete name (jar w)) w).

(** [redirect(url)] of next/navigation, which never returns. *)
Definition redirect {A} (url : string) : M A := throw (NextRedirect url).

(** [process.env.NODE_ENV === "production"] *)
Definition isProduction : M bool :=
  fun w => (Ok (String.eqb (nodeEnv w) "production"), w).

(** An awaited SDK call: the request is sent, the backend moves. *)
Definition call {A} (c : ApiCall) (f : B -> Result A * B) : M A :=
  fun w =>
    let '(r, b') := f (backend w) in
    (r, mkWorld (jar w) (requestScope w) (nodeEnv w) b'
                (calls w ++ [c])%list (console w)).

End WithBackend.

Arguments World B : clear implicits.
Arguments M B A : clear implicits.

Declare Scope server_scope.
Delimit Scope server_scope with server.
Notation "'let*' x ':=' m 'in' k" := (bind m (fun x => k))
  (at level 10, x name, m at level 100, k at level 200) : server_scope.
Notation "'do*' m 'in' k" := (bind m (fun _ => k))
  (at level 10, m at level 100, k at level 200) : server_scope.

End Server.

(** ** schemas/auth.ts and lib/validation.ts *)

Module Schemas.
Import Zod.

(** [data.password === data.confirmPassword] *)
Definition strictEq (a b : option string) : bool :=
  match a, b with
  | Some x, Some y => String.eqb x y
  | None, None => true
  | _, _ => false
  end.

Definition passwordsMatch (data : gmap string string) : bool :=
  strictEq (data !! "password") (data !! "confirmPassword").

Definition mismatchIssue : Issue :=
  mkIssue ["confirmPassword"] "两次输入的密码不一致".

Definition loginSchema : Schema :=
  mkSchema
    [ ("email", [email "请输入有效的邮箱地址"; min 1 "邮箱不能为空"]);
      ("password", [min 6 "密码长度至少为6个字符";
                    max 100 "密码长度不能超过100个字符"]) ]
    None.

Definition registerSchema : Schema :=
  mkSchema
    [ ("username", [min 3 "用户名长度至少为3个字符";
                    max 50 "用户名长度不能超过50个字符";
                    regex wordRegex "用户名只能包含字母、数字和下划线"]);
      ("email", [email "请输入有效的邮箱地址"; min 1 "邮箱不能为空"]);
      ("password", [min 6 "密码长度至少为6个字符";
                    max 100 "密码长度不能超过100个字符"]);
      ("confirmPassword", [min 1 "请确认密码"]) ]
    (Some (passwordsMatch, mismatchIssue)).

End Schemas.

Module Validation.
Import Zod.

(** [AuthActionState] (and [AuthState] of the older action file). *)
Record AuthActionState := mkState { error : option string; success : bool }.

(** [error.errors[0]?.message || "表单验证失败"] *)
Definition formatZodError (issues : list Issue) : string := firstMessage issues.

Record ValidationResult := mkValidation {
  v_success : bool;
  v_data : option (gmap string string);
  v_error : option string
}.

Definition validateFormData (emailRegex : string -> bool) (schema : Schema)
           (data : gmap string FormValue) : ValidationResult :=
  match safeParse emailRegex schema data with
  | inl d => mkValidation true (Some d) None
  | inr issues => mkValidation false None (Some (formatZodError issues))
  end.

Definition createErrorState (message : string) : AuthActionState :=
  mkState (Some message) false.

Definition createSuccessState : AuthActionState := mkState None true.

End Validation.

(** ** The server actions (actions/auth.ts): what both revisions share *)

Module Actions.
Import Js Zod Server Validation.
Local Open Scope server_scope.

(** [formData.get(name)] *)
Definition formGet (formData : gmap string FormValue) (name : string) : FormValue :=
  default FNull (formData !! name).

(** The cookie written by a successful login. *)
Definition authCookie (token : string) (production : bool) : Cookie :=
  mkCookie token true production lax (60 * 60 * 24 * 7) "/".

Section WithSdk.
Context {B : Type} {sdk : Sdk B}.

(** The [catch] block shared by both revisions of [login]. *)
Definition loginCatch (e : Thrown) : M B AuthActionState :=
  do* console_error "登录失败:" in
  if instanceofError e
  then ret (mkState (Some ("登录失败: " ++ Js.message e)) false)
  else ret (mkState (Some "登录时发生未知错误") false).

(** The part of [login] after validation, shared by both revisions. *)
Definition loginRequest (email password : FormValue) : M B AuthActionState :=
  let body := mkLoginBody email password in
  let* response := call (CallLogin body) (loginAccessToken body) in
  match data response with
  | Some d =>
      let token := access_token d in
      do* cookies in
      let* production := isProduction in
      do* cookie_set "auth-token" (authCookie token production) in
      ret (mkState None true)
  | None => ret (mkState (Some "登录失败，服务器没有返回Token") false)
  end.

(** The world after the login request left for the backend. *)
Definition afterLoginCall (body : LoginBody) (b' : B) (w : World B) : World B :=
  mkWorld (jar w) (requestScope w) (nodeEnv w) b'
          (calls w ++ [CallLogin body])%list (console w).

(** The [catch] block shared by both revisions of [register]. *)
Definition registerCatch (e : Thrown) : M B AuthActionState :=
  do* console_error "注册失败:" in
  if instanceofError e then
    if includes (Js.message e) "email" && includes (Js.message e) "already"
    then ret (mkState (Some "该邮箱已被注册") false)
    else if includes (Js.message e) "username" && includes (Js.message e) "already"
    then ret (mkState (Some "该用户名已被使用") false)
    else ret (mkState (Some ("注册失败: " ++ Js.message e)) false)
  else ret (mkState (Some "注册时发生未知错误") false).

(** The part of [register] after validation, shared by both revisions. *)
Definition registerRequest (username email password : FormValue)
  : M B AuthActionState :=
  let body := mkRegisterBody email username password in
  do* call (CallRegister body) (registerUser body) in
  ret (mkState None true).

(** [{ username, email, password, confirmPassword }] *)
Definition registerData (username email password confirmPassword : FormValue)
  : gmap string FormValue :=
  <["username" := username]>
    (<["email" := email]>
       (<["password" := password]>
          (<["confirmPassword" := confirmPassword]> ∅))).

(** [logout]: the [finally] block removes the cookie and redirects on
    every path. *)
Definition logout : M B unit :=
  try_finally
    (try_catch
       (do* cookies in
        let* token := cookie_get "auth-token" in
        match token with
        | Some t =>
            if truthy t
            then call (CallLogout ("Bearer " ++ t)) (apiLogout ("Bearer " ++ t))
            else ret tt
        | None => ret tt
        end)
       (fun _ => console_error "API登出失败:"))
    (do* cookies in
     do* cookie_delete "auth-token" in
     redirect "/login").

(** [checkAuthStatus()] *)
Definition checkAuthStatus : M B bool :=
  try_catch
    (do* cookies in
     let* token := cookie_get "auth-token" in
     ret (truthyOpt token))
    (fun _ => do* console_error "检查认证状态失败:" in ret false).

End WithSdk.

End Actions.

(** ** actions/auth.ts, first revision: schemas declared in the file *)

Module ActionsV1.
Import Js Zod Server Validation Actions.
Local Open Scope server_scope.

Definition loginSchema : Schema :=
  mkSchema
    [ ("email", [email "请输入有效的邮箱地址"]);
      ("password", [min 6 "密码长度至少为6个字符"]) ]
    None.

Definition registerSchema : Schema :=
  mkSchema
    [ ("username", [min 3 "用户名长度至少为3个字符"]);
      ("email", [email "请输入有效的邮箱地址"]);
      ("password", [min 6 "密码长度至少为6个字符"]);
      ("confirmPassword", []) ]
    (Some (Schemas.passwordsMatch, Schemas.mismatchIssue)).

Section WithSdk.
Context {B : Type} {sdk : Sdk B}.
Variable emailRegex : string -> bool.

(** [login(_prevState, formData)] *)
Definition login (formData : gmap string FormValue) : M B AuthActionState :=
  try_catch
    (let email := formGet formData "email" in
     let password := formGet formData "password" in
     match safeParse emailRegex loginSchema
             (<["email" := email]> (<["password" := password]> ∅)) with
     | inr issues => ret (mkState (Some (firstMessage issues)) false)
     | inl _ => loginRequest email password
     end)
    loginCatch.

(** [register(_prevState, formData)] *)
Definition register (formData : gmap string FormValue) : M B AuthActionState :=
  try_catch
    (let username := formGet formData "username" in
     let email := formGet formData "email" in
     let password := formGet formData "password" in
     let confirmPassword := formGet formData "confirmPassword" in
     match safeParse emailRegex registerSchema
             (registerData username email password confirmPassword) with
     | inr issues => ret (mkState (Some (firstMessage issues)) false)
     | inl _ => registerRequest username email password
     end)
    registerCatch.

End WithSdk.

End ActionsV1.

(** ** actions/auth.ts, second revision: schemas/auth.ts, lib/validation.ts *)

Module ActionsV2.
Import Js Zod Server Validation Actions.
Local Open Scope server_scope.

Section WithSdk.
Context {B : Type} {sdk : Sdk B}.
Variable emailRegex : string -> bool.

(** [login(_prevState, formData)] *)
Definition login (formData : gmap string FormValue) : M B AuthActionState :=
  try_catch
    (let email := formGet formData "email" in
     let password := formGet formData "password" in
     let validation :=
       validateFormData emailRegex Schemas.loginSchema
         (<["email" := email]> (<["password" := password]> ∅)) in
     if negb (v_success validation)
     then ret (createErrorState (default "" (v_error validation)))
     else loginRequest email password)
    loginCatch.

(** [register(_prevState, formData)] *)
Definition register (formData : gmap string FormValue) : M B AuthActionState :=
  try_catch
    (let username := formGet formData "username" in
     let email := formGet formData "email" in
     let password := formGet formData "password" in
     let confirmPassword := formGet formData "confirmPassword" in
     let validation :=
       validateFormData emailRegex Schemas.registerSchema
         (registerData username email password confirmPassword) in
     if negb (v_success validation)
     then ret (createErrorState (default "" (v_error validation)))
     else registerRequest username email password)
    registerCatch.

End WithSdk.

End ActionsV2.

(** ** Either revision of the actions *)

Module Revisions.
Import Js Zod Server Validation Actions.

Section WithSdk.
Context {B : Type} {sdk : Sdk B}.
Variable emailRegex : string -> bool.

(** The revision of [login] to run: [false] for the first, [true] for the
    second.  They differ in the schema only. *)
Definition loginOf (revision : bool) : gmap string FormValue -> M B AuthActionState :=
  if revision then ActionsV2.login emailRegex else ActionsV1.login emailRegex.

(** Likewise for [register]. *)
Definition registerOf (revision : bool) : gmap string FormValue -> M B AuthActionState :=
  if revision then ActionsV2.register emailRegex else ActionsV1.register emailRegex.

(** The issues the field checks of the registration schema raise, in the
    order Zod reports them. *)
Definition fieldIssues (revision : bool) (formData : gmap string FormValue)
  : list Issue :=
  (parseObject emailRegex
     (shape (if revision then Schemas.registerSchema else ActionsV1.registerSchema))
     (registerData (formGet formData "username") (formGet formData "email")
                   (formGet formData "password")
                   (formGet formData "confirmPassword"))).1.2.

End WithSdk.

End Revisions.

(** ** The route handlers of app/api/auth *)

Module Routes.
Import Js Server.
Local Open Scope server_scope.

(** [NextResponse.json(body, { status })] of the logout route. *)
Record LogoutResponse := mkLogoutResponse {
  lo_status : nat;
  lo_success : bool;
  lo_message : option string;
  lo_error : option string
}.

(** [NextResponse.json(body, { status })] of the status route. *)
Record StatusResponse := mkStatusResponse {
  st_status : nat;
  authenticated : bool;
  st_error : option string
}.

(** The answer of a logout that went through. *)
Definition logoutSucceeded : LogoutResponse :=
  mkLogoutResponse 200 true (Some "登出成功") None.

Section WithSdk.
Context {B : Type} {sdk : Sdk B}.

(** [POST /api/auth/logout] *)
Definition POST : M B LogoutResponse :=
  try_catch
    (do* cookies in
     let* token := cookie_get "auth-token" in
     do* (match token with
          | Some t =>
              if truthy t
              then try_catch
                     (call (CallLogout ("Bearer " ++ t)) (apiLogout ("Bearer " ++ t)))
                     (fun _ => console_error "API登出请求失败:")
              else ret tt
          | None => ret tt
          end) in
     do* cookie_delete "auth-token" in
     ret (mkLogoutResponse 200 true (Some "登出成功") None))
    (fun e =>
       do* console_error "登出处理失败:" in
       ret (mkLogoutResponse 500 false None
              (Some (if instanceofError e then Js.message e else "登出失败")))).

(** [GET /api/auth/status] *)
Definition GET : M B StatusResponse :=
  try_catch
    (do* cookies in
     let* token := cookie_get "auth-token" in
     ret (mkStatusResponse 200 (truthyOpt token) None))
    (fun e =>
       do* console_error "认证状态检查失败:" in
       ret (mkStatusResponse 500 false
              (Some (if instanceofError e then Js.message e
                     else "认证状态检查失败")))).

End WithSdk.

End Routes.

(** ** The client side: React state, router and fetch *)

Module React.

(** What the provider component owns, and what it did to the router and
    the console. *)
Record Client := mkClient {
  isAuthenticated : bool;      (* [useState] value / [AuthStore] state *)
  busy : bool;                 (* [loading] / [isPending] *)
  optimistic : option bool;    (* a pending [useOptimistic] value *)
  pathname : string;           (* [usePathname()] *)
  pushed : list string;        (* [router.push] targets, oldest first *)
  errors : list string         (* [console.error] labels, oldest first *)
}.

Definition setIsAuthenticated (v : bool) (c : Client) : Client :=
  mkClient v (busy c) (optimistic c) (pathname c) (pushed c) (errors c).

Definition setBusy (v : bool) (c : Client) : Client :=
  mkClient (isAuthenticated c) v (optimistic c) (pathname c) (pushed c) (errors c).

Definition setOptimistic (v : option bool) (c : Client) : Client :=
  mkClient (isAuthenticated c) (busy c) v (pathname c) (pushed c) (errors c).

Definition setPathname (p : string) (c : Client) : Client :=
  mkClient (isAuthenticated c) (busy c) (optimistic c) p (pushed c) (errors c).

(** [router.push(url)] *)
Definition push (url : string) (c : Client) : Client :=
  mkClient (isAuthenticated c) (busy c) (optimistic c) (pathname c)
           (pushed c ++ [url])%list (errors c).

(** [console.error(label, ...)] *)
Definition console_error (label : string) (c : Client) : Client :=
  mkClient (isAuthenticated c) (busy c) (optimistic c) (pathname c)
           (pushed c) (errors c ++ [label])%list.

(** The flag the context hands to its consumers. *)
Definition visibleAuth (c : Client) : bool :=
  default (isAuthenticated c) (optimistic c).

(** How an awaited [fetch] ends: the promise rejects, or a response with
    a status arrives whose [json()] resolves ([Some]) or rejects. *)
Inductive FetchOutcome (R : Type) :=
| Rejected
| Responded (status : nat) (json : option R).
Arguments Rejected {R}.
Arguments Responded {R} status json.

(** [response.ok] *)
Definition statusOk (status : nat) : bool :=
  (200 <=? status)%nat && (status <=? 299)%nat.

(** The request did not come back with an OK response. *)
Definition fetchFailed {R} (outcome : FetchOutcome R) : bool :=
  match outcome with
  | Rejected => true
  | Responded status _ => negb (statusOk status)
  end.

(** The render a hook closure was created in. *)
Record Closure := mkClosure { c_isAuthenticated : bool; c_pathname : string }.

End React.

(** ** components/auth-provider.tsx, first revision *)

Module AuthProviderV1.
Import Js React.

Definition publicRoutes : list string := ["/login"; "/register"].

Definition isPublicRoute (pathname : string) : bool :=
  arrayIncludes publicRoutes pathname.

(** The route-guard effect, run with the values of the current render. *)
Definition guardEffect (c : Client) : Client :=
  if negb (isAuthenticated c) && negb (isPublicRoute (pathname c))
  then push "/login" c
  else c.

Definition logout {R} (outcome : FetchOutcome R) (c : Client) : Client :=
  let c1 := setBusy true c in
  let c2 :=
    match outcome with
    | Responded status _ =>
        if statusOk status
        then push "/login" (setIsAuthenticated false c1)
        else c1
    | Rejected => console_error "登出失败:" c1
    end in
  setBusy false c2.

End AuthProviderV1.

(** ** components/auth-provider.tsx, second revision *)

Module AuthProviderV2.
Import Js React.

Definition publicRoutes : list string := ["/login"; "/register"; "/"].

Definition isPublicRoute (pathname : string) : bool :=
  some (fun route => String.eqb pathname route
                     || startsWith pathname (route ++ "/"))
       publicRoutes.

Definition guardEffect (c : Client) : Client :=
  if negb (isAuthenticated c) && negb (isPublicRoute (pathname c))
  then push "/login" c
  else c.

(** [checkInitialStatus] once its [fetch("/api/auth/status")] has ended;
    [cl] is the render whose effect started it. *)
Definition checkInitialStatus (cl : Closure) (outcome : FetchOutcome bool)
           (c : Client) : Client :=
  match outcome with
  | Rejected => console_error "检查认证状态失败:" c
  | Responded status json =>
      if statusOk status then
        match json with
        | None => console_error "检查认证状态失败:" c
        | Some authenticated =>
            if negb (Bool.eqb authenticated (c_isAuthenticated cl))
            then setIsAuthenticated authenticated c
            else c
        end
      else c
  end.

(** The [setInterval] callback once its fetch has ended. *)
Definition intervalCallback (cl : Closure) (outcome : FetchOutcome bool)
           (c : Client) : Client :=
  match outcome with
  | Rejected => console_error "检查认证状态失败:" c
  | Responded status json =>
      if statusOk status then
        match json with
        | None => console_error "检查认证状态失败:" c
        | Some authenticated =>
            if negb (Bool.eqb authenticated (c_isAuthenticated cl)) then
              let c1 := setIsAuthenticated authenticated c in
              if negb authenticated then
                if negb (isPublicRoute (c_pathname cl))
                then push "/login" c1
                else c1
              else c1
            else c
        end
      else c
  end.

Definition setAuth (value : bool) (c : Client) : Client :=
  setIsAuthenticated value c.

Definition logout {R} (outcome : FetchOutcome R) (c : Client) : Client :=
  if busy c then c else
  let c1 := setBusy true c in
  let c2 :=
    match outcome with
    | Responded status json =>
        if statusOk status
        then push "/login" (setIsAuthenticated false c1)
        else match json with
             | Some _ => console_error "登出失败:" c1
             | None => console_error "登出请求失败:" c1
             end
    | Rejected => console_error "登出请求失败:" c1
    end in
  setBusy false c2.

End AuthProviderV2.

(** ** contexts/auth.context.tsx *)

Module AuthContext.
Import Js React.

(** [AuthStore.setState]: the store only moves (and only notifies its
    listeners) when the value changes. *)
Definition setState (newState : bool) (c : Client) : Client :=
  if negb (Bool.eqb (isAuthenticated c) newState)
  then setIsAuthenticated newState c
  else c.

Definition setAuth (value : bool) (c : Client) : Client := setState value c.

Definition publicRoutes : list string := ["/login"; "/register"; "/"].

Definition isPublicRoute (pathname : string) : bool :=
  some (fun route => String.eqb pathname route
                     || startsWith pathname (route ++ "/"))
       publicRoutes.

Definition guardEffect (c : Client) : Client :=
  if negb (isAuthenticated c) && negb (isPublicRoute (pathname c))
  then push "/login" c
  else c.

(** The first check of the effect, once [checkAuthStatus()] has ended. *)
Definition initialCheck (cl : Closure) (outcome : Js.Result bool)
           (c : Client) : Client :=
  match outcome with
  | Ok authenticated =>
      if negb (Bool.eqb authenticated (c_isAuthenticated cl))
      then setAuth authenticated c
      else c
  | Throw _ => console_error "检查认证状态失败:" c
  end.

(** The [setInterval] callback once [checkAuthStatus()] has ended. *)
Definition intervalCallback (cl : Closure) (outcome : Js.Result bool)
           (c : Client) : Client :=
  match outcome with
  | Ok authenticated =>
      if negb (Bool.eqb authenticated (c_isAuthenticated cl)) then
        let c1 := setAuth authenticated c in
        if negb authenticated then
          if negb (isPublicRoute (c_pathname cl))
          then push "/login" c1
          else c1
        else c1
      else c
  | Throw _ => console_error "检查认证状态失败:" c
  end.

(** [logout]: the optimistic value lives for the length of the
    transition; a failed request puts the flag back to [true]. *)
Definition logout {R} (outcome : FetchOutcome R) (c : Client) : Client :=
  if busy c then c else
  let c1 := setOptimistic (Some false) (setBusy true c) in
  let c2 :=
    match outcome with
    | Responded status json =>
        if statusOk status
        then push "/login" (setAuth false c1)
        else
          let c' := setAuth true c1 in
          match json with
          | Some _ => console_error "登出失败:" c'
          | None => console_error "登出请求失败:" (setAuth true c')
          end
    | Rejected => console_error "登出请求失败:" (setAuth true c1)
    end in
  setOptimistic None (setBusy false c2).

End AuthContext.

(** ** A mounted provider: effects, their dependencies, checks in flight *)

Module Session.
Import React.

(** A status check that was started and has not ended yet. *)
Record Check := mkCheck {
  seq : nat;               (* position in the order the checks started *)
  periodic : bool;         (* started by the interval, not by the effect *)
  closure : Closure        (* the render whose effect started it *)
}.

Section Provider.
(** How a status check ends ([fetch] outcome or action result). *)
Variable Answer : Type.

(** The hooks of one provider revision. *)
Record Provider := mkProvider {
  guard : Client -> Client;
  setAuth : bool -> Client -> Client;
  statusEffect :
    option ((Closure -> Answer -> Client -> Client)      (* first check *)
            * (Closure -> Answer -> Client -> Client))   (* interval *)
}.

Record State := mkState {
  client : Client;
  deps : Closure;          (* dependencies at the last run of the effects *)
  inflight : list Check;
  next : nat               (* number of checks started so far *)
}.

Variable P : Provider.

Definition current (c : Client) : Closure :=
  mkClosure (isAuthenticated c) (pathname c).

Definition closure_eqb (a b : Closure) : bool :=
  Bool.eqb (c_isAuthenticated a) (c_isAuthenticated b)
  && String.eqb (c_pathname a) (c_pathname b).

(** Start a check from the effect that is mounted now. *)
Definition startCheck (isPeriodic : bool) (s : State) : State :=
  match statusEffect P with
  | Some _ =>
      mkState (client s) (deps s)
              (inflight s ++ [mkCheck (next s) isPeriodic (deps s)])%list
              (S (next s))
  | None => s
  end.

(** Both effects depend on [[isAuthenticated, pathname, router]]: the
    status effect is torn down ([clearInterval], nothing else) and set
    up again, starting its first check; then the guard runs. *)
Definition runEffects (s : State) : State :=
  let s1 := mkState (client s) (current (client s)) (inflight s) (next s) in
  let s2 := startCheck false s1 in
  mkState (guard P (client s2)) (deps s2) (inflight s2) (next s2).

(** After an update React runs the effects whose dependencies changed. *)
Definition settle (s : State) : State :=
  if closure_eqb (deps s) (current (client s)) then s else runEffects s.

Definition mount (initialAuth : bool) (path : string) : State :=
  runEffects
    (mkState (mkClient initialAuth false None path [] [])
             (mkClosure initialAuth path) [] 0).

Inductive Event :=
| Tick                              (* the interval fires *)
| Resolve (n : nat) (a : Answer)    (* check [n] ends with [a] *)
| SetAuth (v : bool)                (* a consumer calls [setAuth] *)
| Navigate (path : string).         (* the pathname changed *)

Definition findCheck (n : nat) (l : list Check) : option Check :=
  List.find (fun k => Nat.eqb (seq k) n) l.

Definition dropCheck (n : nat) (l : list Check) : list Check :=
  List.filter (fun k => negb (Nat.eqb (seq k) n)) l.

Definition step (e : Event) (s : State) : State :=
  match e with
  | Tick => startCheck true s
  | Resolve n a =>
      match findCheck n (inflight s), statusEffect P with
      | Some k, Some (onInitial, onInterval) =>
          let handler := if periodic k then onInterval else onInitial in
          settle (mkState (handler (closure k) a (client s)) (deps s)
                          (dropCheck n (inflight s)) (next s))
      | _, _ => s
      end
  | SetAuth v =>
      settle (mkState (setAuth P v (client s)) (deps s) (inflight s) (next s))
  | Navigate path =>
      settle (mkState (setPathname path (client s)) (deps s) (inflight s) (next s))
  end.

(** Events are handled one after the other, oldest first. *)
Definition run (trace : list Event) (s : State) : State :=
  fold_left (fun acc e => step e acc) trace s.

Definition reachable (s : State) : Prop :=
  exists initialAuth path trace, s = run trace (mount initialAuth path).

End Provider.

Arguments mkProvider {Answer} guard setAuth statusEffect.
Arguments guard {Answer} p c.
Arguments setAuth {Answer} p v c.
Arguments statusEffect {Answer} p.
Arguments Tick {Answer}.
Arguments Resolve {Answer} n a.
Arguments SetAuth {Answer} v.
Arguments Navigate {Answer} path.
Arguments startCheck {Answer} P isPeriodic s.
Arguments runEffects {Answer} P s.
Arguments settle {Answer} P s.
Arguments mount {Answer} P initialAuth path.
Arguments step {Answer} P e s.
Arguments run {Answer} P trace s.
Arguments reachable {Answer} P s.

Definition providerV1 : Provider Empty_set :=
  mkProvider AuthProviderV1.guardEffect setIsAuthenticated None.

Definition providerV2 : Provider (FetchOutcome bool) :=
  mkProvider AuthProviderV2.guardEffect AuthProviderV2.setAuth
             (Some (AuthProviderV2.checkInitialStatus,
                    AuthProviderV2.intervalCallback)).

Definition authContext : Provider (Js.Result bool) :=
  mkProvider AuthContext.guardEffect AuthContext.setAuth
             (Some (AuthContext.initialCheck, AuthContext.intervalCallback)).

(** What a hook may do to the client for the provider to keep redirecting:
    leave the pathname, and only add to the pushes. *)
Definition frames (h : Client -> Client) : Prop :=
  forall c, pathname (h c) = pathname c
            /\ exists extra, pushed (h c) = (pushed c ++ extra)%list.

(** *** What route guarding asks of a provider

    The allow-list read as a set of pathnames: a route of the list itself
    and, where the revision matches nested paths, whatever lies under
    [route/]. *)
Definition onAllowList (routes : list string) (nested : bool) (path : string) : Prop :=
  exists route,
    In route routes /\
    (path = route \/ (nested = true /\ exists rest, path = route ++ "/" ++ rest)).

(** The provider guards exactly the pathnames off the allow-list: rendered
    Unauthenticated, mounted Unauthenticated, or turning Unauthenticated
    through [setAuth], it pushes /login there and nowhere else. *)
Definition GuardsRoutes {Answer} (P : Provider Answer)
           (routes : list string) (nested : bool) : Prop :=
  (forall c,
      isAuthenticated c = false -> ~ onAllowList routes nested (pathname c) ->
      guard P c = push "/login" c) /\
  (forall c, onAllowList routes nested (pathname c) -> guard P c = c) /\
  (forall c, isAuthenticated c = true -> guard P c = c) /\
  (forall path,
      (~ onAllowList routes nested path ->
       pushed (client (mount P false path)) = ["/login"]) /\
      (onAllowList routes nested path ->
       pushed (client (mount P false path)) = [])) /\
  (forall s,
      deps s = current (client s) -> isAuthenticated (client s) = true ->
      (~ onAllowList routes nested (pathname (client s)) ->
       pushed (client (step P (SetAuth false) s))
       = (pushed (client s) ++ ["/login"])%list) /\
      (onAllowList routes nested (pathname (client s)) ->
       pushed (client (step P (SetAuth false) s)) = pushed (client s))).

(** Whatever event clears the flag of a settled provider (a consumer
    calling [setAuth], a status check of any age resolving), off the
    allow-list the last thing the provider does is push /login. *)
Definition RedirectsWhenCleared {Answer} (P : Provider Answer)
           (routes : list string) (nested : bool) : Prop :=
  forall (s : State) (e : Event Answer),
    deps s = current (client s) -> isAuthenticated (client s) = true ->
    isAuthenticated (client (step P e s)) = false ->
    ~ onAllowList routes nested (pathname (client (step P e s))) ->
    exists extra,
      pushed (client (step P e s))
      = (pushed (client s) ++ extra ++ ["/login"])%list.

(** A check started by the current render that comes back with [gone]
    (the answer "not authenticated") while the flag is set: the flag is
    cleared; off the allow-list /login is pushed by the guard, and before
    it by the interval callback if the check was a periodic one; on the
    allow-list nothing is pushed. *)
Definition ReconcilesRoutes {Answer} (P : Provider Answer)
           (routes : list string) (nested : bool) (gone : Answer) : Prop :=
  forall s n k,
    deps s = current (client s) -> isAuthenticated (client s) = true ->
    findCheck n (inflight s) = Some k -> closure k = deps s ->
    isAuthenticated (client (step P (Resolve n gone) s)) = false /\
    (~ onAllowList routes nested (pathname (client s)) ->
     pushed (client (step P (Resolve n gone) s))
     = (pushed (client s)
        ++ (if periodic k then ["/login"; "/login"] else ["/login"]))%list) /\
    (onAllowList routes nested (pathname (client s)) ->
     pushed (client (step P (Resolve n gone) s)) = pushed (client s)).

(** What discarding stale responses would mean: once the check started
    later has resolved, the resolution of the one started earlier leaves
    the flag as it is. *)
Definition DiscardsStale {Answer} (P : Provider Answer) : Prop :=
  forall (s : State) (older newer : Check) (a_old a_new : Answer),
    reachable P s ->
    In older (inflight s) -> In newer (inflight s) ->
    seq older < seq newer ->
    isAuthenticated
      (client (step P (Resolve (seq older) a_old)
                    (step P (Resolve (seq newer) a_new) s)))
    = isAuthenticated (client (step P (Resolve (seq newer) a_new) s)).

(** What the providers do instead: nothing cancels a check in flight, and
    a check of any age that resolves with [answer v] sets the flag to [v]
    when [v] differs from the flag of the render that started it, and
    leaves the flag alone when it does not. *)
Definition AppliesOnArrival {Answer} (P : Provider Answer)
           (answer : bool -> Answer) : Prop :=
  (forall (s : State) (e : Event Answer) (k : Check),
      In k (inflight s) ->
      (forall a, e <> Resolve (seq k) a) ->
      In k (inflight (step P e s))) /\
  (forall (s : State) (n : nat) (k : Check) (v : bool),
      findCheck n (inflight s) = Some k ->
      v <> c_isAuthenticated (closure k) ->
      isAuthenticated (client (step P (Resolve n (answer v)) s)) = v) /\
  (forall (s : State) (n : nat) (k : Check) (v : bool),
      findCheck n (inflight s) = Some k ->
      v = c_isAuthenticated (closure k) ->
      isAuthenticated (client (step P (Resolve n (answer v)) s))
      = isAuthenticated (client s)).

End Session.


(** ** The backend token core

    The FastAPI backend (apps/api) is not among the sources; its Token
    Codec, Revocation Store and Auth Service are modelled from the
    specification.  The clock is an explicit argument. *)

Module Backend.

(** Modelled from the spec: the content of a token, which the backend
    sources would define: subject, issued-at, expiry, token-type marker. *)
Record Payload := mkPayload {
  subject : string;
  issuedAt : Z;
  expiry : Z;
  tokenType : string
}.

(** Modelled from the spec: a token as the backend receives it, either a
    string that does not parse or a payload with a signature. *)
Inductive Token :=
| Unparsable (raw : string)
| Signed (payload : Payload) (signature : Z).

Inductive CodecError := Malformed | InvalidSignature | Expired.

Inductive AuthError := Unauthenticated.

#[global] Instance Payload_eq_dec : EqDecision Payload.
Proof. solve_decision. Defined.

#[global] Instance Token_eq_dec : EqDecision Token.
Proof. solve_decision. Defined.

Definition Token_to_sum (t : Token) : string + (string * Z * Z * string * Z) :=
  match t with
  | Unparsable raw => inl raw
  | Signed p sg => inr (subject p, issuedAt p, expiry p, tokenType p, sg)
  end.

Definition Token_of_sum (x : string + (string * Z * Z * string * Z)) : Token :=
  match x with
  | inl raw => Unparsable raw
  | inr (s, i, e, ty, sg) => Signed (mkPayload s i e ty) sg
  end.

#[global] Instance Token_countable : Countable Token.
Proof.
  apply (inj_countable' Token_to_sum Token_of_sum).
  intros [raw | [s i e ty] sg]; reflexivity.
Defined.

Section Codec.
(** The deterministic signature scheme and the process-wide secret key. *)
Variable sign : string -> Payload -> Z.
Variable key : string.

(** Modelled from the spec: [issue(subject, ttl)] of the Token Codec,
    missing from the sources: the token embeds the subject and the absolute
    expiry now + ttl and is signed with the process-wide key. *)
Definition issue (now : Z) (sub : string) (ttl : Z) : Token :=
  let p := mkPayload sub now (now + ttl) "access" in
  Signed p (sign key p).

(** Modelled from the spec: [verify(token)] of the Token Codec, missing
    from the sources: [Malformed] if the token cannot be parsed,
    [InvalidSignature] if the signature does not match, [Expired] if
    now > embedded expiry; the Revocation Store is not consulted. *)
Definition verify (now : Z) (t : Token) : string + CodecError :=
  match t with
  | Unparsable _ => inr Malformed
  | Signed p sg =>
      if bool_decide (sg = sign key p) then
        if bool_decide (now > expiry p)%Z then inr Expired else inl (subject p)
      else inr InvalidSignature
  end.

(** Modelled from the spec: [revoke(tokenId, expiry)] of the Revocation
    Store, missing from the sources: the identifier (the full token) is
    recorded with its expiry; revoking twice is a no-op. *)
Definition revoke (tokenId : Token) (exp : Z) (store : gmap Token Z) : gmap Token Z :=
  match store !! tokenId with
  | Some _ => store
  | None => <[tokenId := exp]> store
  end.

(** Modelled from the spec: [isRevoked(tokenId)], the membership check. *)
Definition isRevoked (tokenId : Token) (store : gmap Token Z) : bool :=
  bool_decide (is_Some (store !! tokenId)).

(** Modelled from the spec: [cleanup(now)] removes every entry whose
    recorded expiry is at most now. *)
Definition cleanup (now : Z) (store : gmap Token Z) : gmap Token Z :=
  filter (fun kv => (now < kv.2)%Z) store.

(** Modelled from the spec: [authenticate(token)] of the Auth Service,
    missing from the sources: verify through the codec, then check
    [isRevoked]; either failure surfaces as [Unauthenticated]. *)
Definition authenticate (store : gmap Token Z) (now : Z) (t : Token)
  : string + AuthError :=
  match verify now t with
  | inl sub => if isRevoked t store then inr Unauthenticated else inl sub
  | inr _ => inr Unauthenticated
  end.

End Codec.

End Backend.

(** ** The tab and the server together: logging out through the context *)

Module Browser.
Import Js Server React.

Section WithSdk.
Context {B : Type} {sdk : Sdk B}.

(** A browser tab with its provider, and the Next.js server whose
    responses write the tab's cookies. *)
Record Browser := mkBrowser { tab : Client; server : World B }.

(** [fetch("/api/auth/logout", { method: "POST" })]: off line the promise
    rejects and nothing reaches the server; on line the route handler runs
    and its response comes back (a handler that throws is answered by the
    framework with a 500 that carries no JSON). *)
Definition fetchLogout (online : bool) (w : World B)
  : FetchOutcome Routes.LogoutResponse * World B :=
  if online then
    match Routes.POST w with
    | (Ok r, w') => (Responded (Routes.lo_status r) (Some r), w')
    | (Throw _, w') => (Responded 500 None, w')
    end
  else (Rejected, w).

(** The [logout] of the auth context, with its request. *)
Definition logout (online : bool) (b : Browser) : Browser :=
  if busy (tab b) then b
  else
    let '(outcome, w') := fetchLogout online (server b) in
    mkBrowser (AuthContext.logout outcome (tab b)) w'.

End WithSdk.

Arguments Browser B : clear implicits.

End Browser.

(** ** Sample environments

    Small concrete backends and inputs on which the properties below are
    exercised. *)

Module Samples.
Import Js Zod Server.

(** A backend that accepts every login with one fixed token, accepts every
    registration, and counts the requests it served. *)
Definition acceptingSdk : Sdk nat := {|
  loginAccessToken := fun _ n =>
    (Ok (mkLoginResponse (Some (mkTokenData "token-1" "bearer"))), S n);
  registerUser := fun _ n => (Ok tt, S n);
  apiLogout := fun _ n => (Ok tt, S n)
|}.

(** A backend that is down: every request rejects. *)
Definition failingSdk : Sdk nat := {|
  loginAccessToken := fun _ n => (Throw (ErrorObj "fetch failed"), n);
  registerUser := fun _ n => (Throw (ErrorObj "fetch failed"), n);
  apiLogout := fun _ n => (Throw (ErrorObj "fetch failed"), n)
|}.

(** A permissive stand-in for Zod's e-mail pattern. *)
Definition simpleEmail (s : string) : bool := includes s "@".

Definition emptyWorld : World nat := mkWorld ∅ true "production" 0 [] [].

Definition sessionCookie (token : string) : Cookie :=
  mkCookie token true true lax 604800 "/".

Definition loggedInWorld : World nat :=
  mkWorld {["auth-token" := sessionCookie "token-1"]} true "production" 0 [] [].

Definition loginForm (email password : string) : gmap string FormValue :=
  <["email" := FString email]> (<["password" := FString password]> ∅).

Definition registerForm (username email password confirmPassword : string)
  : gmap string FormValue :=
  <["username" := FString username]>
    (<["email" := FString email]>
       (<["password" := FString password]>
          (<["confirmPassword" := FString confirmPassword]> ∅))).

(** A signed-in tab of the second provider revision on /profile, after
    its interval fired twice: the first check of the effect (0) and two
    periodic checks (1 and 2) are in flight. *)
Definition twoChecksInFlight : Session.State :=
  Session.run Session.providerV2 [Session.Tick; Session.Tick]
              (Session.mount Session.providerV2 true "/profile").

(** The same for the auth context. *)
Definition twoChecksInFlightCtx : Session.State :=
  Session.run Session.authContext [Session.Tick; Session.Tick]
              (Session.mount Session.authContext true "/profile").

Definition periodicCheck (n : nat) : Session.Check :=
  Session.mkCheck n true (React.mkClosure true "/profile").

(** A stand-in for the signature scheme (any function of key and payload
    will do for the properties stated here). *)
Definition toySign (key : string) (p : Backend.Payload) : Z :=
  (Z.of_nat (String.length key + String.length (Backend.subject p))
   + 31 * Backend.expiry p + Backend.issuedAt p)%Z.

(** A signed-in tab on a page that needs authentication. *)
Definition profileTab : React.Client :=
  React.mkClient true false None "/profile" [] [].

End Samples.


(** ** Names for what the statements about the actions refer to *)

Module ActionTerms.
Import Js Zod Server.

(** The login schema of a revision. *)
Definition loginSchemaOf (revision : bool) : Schema :=
  if revision then Schemas.loginSchema else ActionsV1.loginSchema.

(** The registration schema of a revision. *)
Definition registerSchemaOf (revision : bool) : Schema :=
  if revision then Schemas.registerSchema else ActionsV1.registerSchema.

Section WithBackend.
Context {B : Type}.

(** The world after the registration request left for the backend. *)
Definition afterRegisterCall (body : RegisterBody) (b' : B) (w : World B) : World B :=
  mkWorld (jar w) (requestScope w) (nodeEnv w) b'
          (calls w ++ [CallRegister body])%list (console w).

(** The message the [catch] block of [register] gives to a thrown value. *)
Definition registerFailure (e : Thrown) : string :=
  if instanceofError e then
    if includes (Js.message e) "email" && includes (Js.message e) "already"
    then "该邮箱已被注册"
    else if includes (Js.message e) "username" && includes (Js.message e) "already"
    then "该用户名已被使用"
    else "注册失败: " ++ Js.message e
  else "注册时发生未知错误".

End WithBackend.

End ActionTerms.

(** ** actions/auth.ts, second revision: the token for API requests *)

Module TokenAccess.
Import Js Server.
Local Open Scope server_scope.

Section WithBackend.
Context {B : Type}.

(** [getAuthToken()]: [(await cookies()).get("auth-token")?.value || null] *)
Definition getAuthToken : M B (option string) :=
  try_catch
    (do* cookies in
     let* token := cookie_get "auth-token" in
     ret (match token with
          | Some t => if truthy t then Some t else None
          | None => None
          end))
    (fun _ => do* console_error "获取认证Token失败:" in ret None).

End WithBackend.

End TokenAccess.

(** ** The logout route handler in its first revision *)

Module RoutesV1.
Import Js Server.
Local Open Scope server_scope.

Section WithSdk.
Context {B : Type} {sdk : Sdk B}.

(** [POST]: the backend call is not guarded on its own, so what it throws
    reaches the outer [catch] before the cookie is touched. *)
Definition POST : M B Routes.LogoutResponse :=
  try_catch
    (do* cookies in
     let* token := cookie_get "auth-token" in
     do* (match token with
          | Some t =>
              if truthy t
              then call (CallLogout ("Bearer " ++ t)) (apiLogout ("Bearer " ++ t))
              else ret tt
          | None => ret tt
          end) in
     do* cookie_delete "auth-token" in
     ret (Routes.mkLogoutResponse 200 true None None))
    (fun _ =>
       do* console_error "登出失败:" in
       ret (Routes.mkLogoutResponse 500 false None (Some "登出失败"))).

End WithSdk.

End RoutesV1.

(** ** The [AuthStore] class of contexts/auth.context.tsx *)

Module AuthStore.

(** A store: its listeners in the order the [Set] iterates them, its
    state, and the listener calls made so far (oldest first).  A listener
    is known by a number. *)
Record Store := mkStore {
  listeners : list nat;
  state : bool;
  notified : list nat
}.

(** [new AuthStore(initialState)] *)
Definition create (initialState : bool) : Store := mkStore [] initialState [].

(** [this.listeners.add(listener)] *)
Definition subscribe (listener : nat) (s : Store) : Store :=
  if existsb (Nat.eqb listener) (listeners s) then s
  else mkStore (listeners s ++ [listener]) (state s) (notified s).

(** The function [subscribe] returns: [this.listeners.delete(listener)] *)
Definition unsubscribe (listener : nat) (s : Store) : Store :=
  mkStore (List.filter (fun l => negb (Nat.eqb l listener)) (listeners s))
          (state s) (notified s).

Definition getState (s : Store) : bool := state s.

(** [setState(newState)] *)
Definition setState (newState : bool) (s : Store) : Store :=
  if negb (Bool.eqb (state s) newState)
  then mkStore (listeners s) newState (notified s ++ listeners s)
  else s.

Inductive Op :=
| Subscribe (listener : nat)
| Unsubscribe (listener : nat)
| SetState (newState : bool).

Definition apply (o : Op) (s : Store) : Store :=
  match o with
  | Subscribe l => subscribe l s
  | Unsubscribe l => unsubscribe l s
  | SetState v => setState v s
  end.

(** The calls made on a store, oldest first. *)
Definition run (ops : list Op) (s : Store) : Store :=
  fold_left (fun acc o => apply o acc) ops s.

(** Whether [listener] is subscribed after [ops], read off the calls alone:
    its last subscription was not followed by a call of the function that
    subscription returned. *)
Definition subscribedAfter (listener : nat) (ops : list Op) : bool :=
  fold_left
    (fun b o =>
       match o with
       | Subscribe l => if Nat.eqb l listener then true else b
       | Unsubscribe l => if Nat.eqb l listener then false else b
       | SetState _ => b
       end)
    ops false.

End AuthStore.

(** ** Navigation under a mounted provider *)

Module Navigation.
Import React Session.

(** While the flag is Unauthenticated, a change of pathname runs the guard
    on the new pathname: /login is pushed exactly off the allow-list; a
    navigation to the pathname the provider is already on does nothing. *)
Definition GuardsNavigation {Answer} (P : Provider Answer)
           (routes : list string) (nested : bool) : Prop :=
  forall (s : State) (path : string),
    deps s = current (client s) -> isAuthenticated (client s) = false ->
    (path = pathname (client s) -> step P (Navigate path) s = s) /\
    (path <> pathname (client s) ->
     ~ onAllowList routes nested path ->
     pushed (client (step P (Navigate path) s))
     = (pushed (client s) ++ ["/login"])%list) /\
    (path <> pathname (client s) ->
     onAllowList routes nested path ->
     pushed (client (step P (Navigate path) s)) = pushed (client s)).

End Navigation.

(** ** The fragment of Zod the user schema adds: optional, literal, union *)

Module ZodFields.
Import Zod.

Inductive FieldSchema :=
| zString (checks : list StringCheck)
| zOptional (inner : FieldSchema)
| zLiteral (value : string)
| zUnion (first second : FieldSchema).

(** The double quote of [JSON.stringify]. *)
Definition quote : string := String (ascii_of_nat 34) EmptyString.

Definition invalidLiteral (key value : string) : Issue :=
  mkIssue [key] ("Invalid literal value, expected " ++ quote ++ value ++ quote).

Section Parse.
Variable emailRegex : string -> bool.

(** [_parse] of the four kinds.  [ZodOptional] lets [undefined] through
    and hands everything else, [null] included, to its inner type;
    [ZodLiteral] aborts on any other value; [ZodUnion] returns the first
    valid option without issues, else the first dirty option with its
    issues, else aborts with [invalid_union]. *)
Fixpoint parseField (f : FieldSchema) (key : string) (v : FormValue)
  : ParseStatus * list Issue :=
  match f with
  | zString checks =>
      let '(st, issues, _) := parseString emailRegex checks key v in (st, issues)
  | zOptional inner =>
      match v with
      | FUndefined => (valid, [])
      | _ => parseField inner key v
      end
  | zLiteral value =>
      match v with
      | FString s =>
          if String.eqb s value then (valid, [])
          else (aborted, [invalidLiteral key value])
      | _ => (aborted, [invalidLiteral key value])
      end
  | zUnion a b =>
      let '(sa, ia) := parseField a key v in
      let '(sb, ib) := parseField b key v in
      match sa, sb with
      | valid, _ => (valid, [])
      | _, valid => (valid, [])
      | dirty, _ => (dirty, ia)
      | _, dirty => (dirty, ib)
      | aborted, aborted => (aborted, [mkIssue [key] "Invalid input"])
      end
  end.

(** [ZodObject._parse] over such fields. *)
Fixpoint parseFields (shape : list (string * FieldSchema))
         (data : gmap string FormValue) : ParseStatus * list Issue :=
  match shape with
  | [] => (valid, [])
  | (key, f) :: rest =>
      let '(st1, is1) := parseField f key (default FUndefined (data !! key)) in
      let '(st2, is2) := parseFields rest data in
      (merge st1 st2, (is1 ++ is2)%list)
  end.

(** [validateFormData(schema, data)] of lib/validation.ts on such a
    schema: [None] on success, else the formatted message. *)
Definition validate (shape : list (string * FieldSchema))
           (data : gmap string FormValue) : option string :=
  match parseFields shape data with
  | (valid, _) => None
  | (_, issues) => Some (Validation.formatZodError issues)
  end.

End Parse.

(** [x.optional().or(z.literal(""))] *)
Definition optionalOrEmpty (checks : list StringCheck) : FieldSchema :=
  zUnion (zOptional (zString checks)) (zLiteral "").

(** [userUpdateSchema] of schemas/user.ts *)
Definition userUpdateSchema : list (string * FieldSchema) :=
  [ ("username", optionalOrEmpty [min 3 "用户名至少需要3个字符"]);
    ("full_name", optionalOrEmpty []);
    ("email", zString [email "请输入有效的电子邮件地址"]);
    ("password", optionalOrEmpty [min 8 "密码至少需要8个字符"]) ].

End ZodFields.

(** ** The user actions (actions/user.ts) *)

Module UserActions.
Import Js Zod Server.
Local Open Scope server_scope.

(** What the pages and the permission check read of a user. *)
Record User := mkUser {
  id : string;
  username : option string;
  email : string;
  role : option string;
  is_superuser : bool
}.

Record Profile := mkProfile {
  bio : FormValue;
  phone_number : FormValue;
  address : FormValue;
  avatar_url : FormValue
}.

Record UpdateBody := mkUpdateBody {
  up_username : FormValue;
  up_full_name : FormValue;
  up_email : FormValue;
  up_password : FormValue;
  up_profile : Profile
}.

(** The user endpoints of the generated SDK; the result is
    [response.data], which is [undefined] on an error answer. *)
Class UserSdk (B : Type) := {
  readUserMe : string -> B -> Result (option User) * B;
  readUser : string -> string -> B -> Result (option User) * B;
  updateUserMe : string -> UpdateBody -> B -> Result (option User) * B
}.

Inductive Status := idle | error | success.

(** [UserUpdateActionState] *)
Record UserUpdateActionState := mkUpdateState {
  status : Status;
  message : option string
}.

Definition createUserErrorState (msg : string) : UserUpdateActionState :=
  mkUpdateState error (Some msg).

Definition createUserSuccessState : UserUpdateActionState :=
  mkUpdateState success None.

(** The role a caller asks for. *)
Inductive RequiredRole := admin | user | guest.

(** [value as string || null] *)
Definition orNull (v : FormValue) : FormValue :=
  match v with
  | FString s => if truthy s then v else FNull
  | FFile => FFile
  | FNull | FUndefined => FNull
  end.

(** [password ? password : undefined] *)
Definition orUndefined (v : FormValue) : FormValue :=
  match v with
  | FString s => if truthy s then v else FUndefined
  | FFile => FFile
  | FNull | FUndefined => FUndefined
  end.

(** [user.role === name] *)
Definition roleIs (u : User) (name : string) : bool :=
  match role u with
  | Some r => String.eqb r name
  | None => false
  end.

Section WithSdk.
Context {B : Type} {usdk : UserSdk B}.
Variable emailRegex : string -> bool.

(** An awaited call of a user endpoint: the backend moves. *)
Definition callUser {A} (f : B -> Result A * B) : M B A :=
  fun w =>
    let '(r, b') := f (backend w) in
    (r, mkWorld (jar w) (requestScope w) (nodeEnv w) b' (calls w) (console w)).

(** [getCurrentUser()] *)
Definition getCurrentUser : M B (option User) :=
  try_catch
    (do* cookies in
     let* token := cookie_get "auth-token" in
     match token with
     | Some t =>
         if truthy t then callUser (readUserMe ("Bearer " ++ t)) else ret None
     | None => ret None
     end)
    (fun _ => do* console_error "获取当前用户信息失败:" in ret None).

(** [getUserById(userId)] *)
Definition getUserById (userId : string) : M B (option User) :=
  try_catch
    (do* cookies in
     let* token := cookie_get "auth-token" in
     match token with
     | Some t =>
         if truthy t then callUser (readUser ("Bearer " ++ t) userId) else ret None
     | None => ret None
     end)
    (fun _ =>
       do* console_error ("获取用户ID(" ++ userId ++ ")信息失败:") in ret None).

(** [checkUserPermission(requiredRole)] *)
Definition checkUserPermission (requiredRole : RequiredRole) : M B bool :=
  try_catch
    (let* u := getCurrentUser in
     match u with
     | None => ret false
     | Some u =>
         if is_superuser u then ret true
         else match requiredRole with
              | admin => ret (roleIs u "admin")
              | user => ret (roleIs u "admin" || roleIs u "user")
              | guest => ret true
              end
     end)
    (fun _ => do* console_error "检查用户权限失败:" in ret false).

(** [{ username, full_name: fullName, email, password }] *)
Definition updateData (username fullName email password : FormValue)
  : gmap string FormValue :=
  <["username" := username]>
    (<["full_name" := fullName]>
       (<["email" := email]>
          (<["password" := password]> ∅))).

(** [updateCurrentUser(_prevState, formData)] *)
Definition updateCurrentUser (formData : gmap string FormValue)
  : M B UserUpdateActionState :=
  try_catch
    (let username := Actions.formGet formData "username" in
     let fullName := Actions.formGet formData "full_name" in
     let email := Actions.formGet formData "email" in
     let password := orNull (Actions.formGet formData "password") in
     let bio := orNull (Actions.formGet formData "bio") in
     let phoneNumber := orNull (Actions.formGet formData "phone_number") in
     let address := orNull (Actions.formGet formData "address") in
     let avatarUrl := orNull (Actions.formGet formData "avatar_url") in
     match ZodFields.validate emailRegex ZodFields.userUpdateSchema
             (updateData username fullName email password) with
     | Some msg => ret (createUserErrorState msg)
     | None =>
         do* cookies in
         let* token := cookie_get "auth-token" in
         match token with
         | Some t =>
             if truthy t then
               let body :=
                 mkUpdateBody username fullName email (orUndefined password)
                              (mkProfile bio phoneNumber address avatarUrl) in
               let* response := callUser (updateUserMe ("Bearer " ++ t) body) in
               match response with
               | Some _ => ret createUserSuccessState
               | None => ret (createUserErrorState "更新失败，服务器没有返回数据")
               end
             else ret (createUserErrorState "未授权，请重新登录")
         | None => ret (createUserErrorState "未授权，请重新登录")
         end
     end)
    (fun e =>
       do* console_error "更新用户信息失败:" in
       if instanceofError e
       then ret (createUserErrorState ("更新失败: " ++ Js.message e))
       else ret (createUserErrorState "更新时发生未知错误")).

End WithSdk.

End UserActions.

(** ** app/users/[userId]/page.tsx: who gets to see a user *)

Module Pages.
Import Js Server UserActions.
Local Open Scope server_scope.

(** What the page renders. *)
Inductive View :=
| NoPermission            (* "您没有权限查看此用户信息" *)
| NotFound                (* "用户不存在或已被删除" *)
| Detail (shown : User) (canEdit : bool).

Section WithSdk.
Context {B : Type} {usdk : UserSdk B}.

(** [UserDetailPage({ params })] *)
Definition UserDetailPage (userId : string) : M B View :=
  let* isAuthenticated := Actions.checkAuthStatus in
  if negb isAuthenticated then redirect "/login"
  else
    let* hasPermission := checkUserPermission admin in
    let* refused :=
      (if negb hasPermission then
         let* currentUser := getCurrentUser in
         ret (match currentUser with
              | Some cu => negb (String.eqb (id cu) userId)
              | None => true
              end)
       else ret false) in
    if refused then ret NoPermission
    else
      let* shown := getUserById userId in
      match shown with
      | None => ret NotFound
      | Some u => ret (Detail u hasPermission)
      end.

End WithSdk.

End Pages.

(** ** The login form: what a finished [login] does to the provider *)

Module LoginForm.
Import React Session.

(** The body of the effect when [state.success] holds:
    [setAuth(true); router.push("/")]. *)
Definition effectBody {Answer} (P : Provider Answer) (s : State) : State :=
  mkState (push "/" (setAuth P true (client s))) (deps s) (inflight s) (next s).

(** The provider (and with it the form, a consumer of its context) renders
    again when the flag it owns has moved. *)
Definition rendersAgain (before after : Client) : bool :=
  negb (Bool.eqb (isAuthenticated before) (isAuthenticated after)).

(** The effect on [[state.success, router, setAuth]] once [login] has
    answered with [state].  It runs when [state.success] has turned true.
    If that moved the flag, provider and form render again: the form's
    effect comes first and runs once more when [setAuth] is a new function
    on that render ([stable = false]), then the provider's own effects
    follow. *)
Definition onState {Answer} (P : Provider Answer) (stable : bool)
           (state : Validation.AuthActionState) (s : State) : State :=
  if Validation.success state then
    let s1 := effectBody P s in
    if rendersAgain (client s) (client s1) then
      settle P (if stable then s1 else effectBody P s1)
    else s1
  else s.

(** components/login-form.tsx under the first revision of
    auth-provider.tsx, whose [setAuth] is declared in the component body
    and so is a new function on every render. *)
Definition underProviderV1 : Validation.AuthActionState -> State -> State :=
  onState providerV1 false.

(** components/login-form.tsx under the second revision, whose [setAuth]
    is wrapped in [useCallback] with no dependencies. *)
Definition underProviderV2 : Validation.AuthActionState -> State -> State :=
  onState providerV2 true.

(** components/auth/login-form.tsx under contexts/auth.context.tsx, whose
    [setAuth] is wrapped in [useCallback] likewise. *)
Definition underAuthContext : Validation.AuthActionState -> State -> State :=
  onState authContext true.

End LoginForm.

(** ** More sample environments *)

Module Fixtures.
Import Js Zod Server.

(** A backend that rejects every registration as a duplicate of both the
    e-mail and the user name. *)
Definition duplicateSdk : Sdk nat := {|
  loginAccessToken := fun _ n => (Ok (mkLoginResponse None), S n);
  registerUser := fun _ n =>
    (Throw (ErrorObj "username or email already registered"), S n);
  apiLogout := fun _ n => (Ok tt, S n)
|}.

(** A signed-in tab opened on /profile: the interval fires and starts the
    periodic check number 1, the user moves on to [path], and then that
    check ends with [gone]. *)
Definition leavesProfile {Answer} (P : Session.Provider Answer)
           (path : string) (gone : Answer) : Session.State :=
  Session.run P
    [Session.Tick; Session.Navigate path; Session.Resolve 1 gone]
    (Session.mount P true "/profile").

Definition adminUser : UserActions.User :=
  UserActions.mkUser "1" (Some "root") "root@example.com" (Some "admin") false.

Definition plainUser : UserActions.User :=
  UserActions.mkUser "2" (Some "ann") "ann@example.com" (Some "user") false.

(** A backend that knows one user per token. *)
Definition userSdk : UserActions.UserSdk nat := {|
  UserActions.readUserMe := fun auth n =>
    (Ok (if String.eqb auth "Bearer token-1" then Some plainUser
         else if String.eqb auth "Bearer token-0" then Some adminUser
         else None), S n);
  UserActions.readUser := fun _ _ n => (Ok (Some plainUser), S n);
  UserActions.updateUserMe := fun _ _ n => (Ok (Some plainUser), S n)
|}.

Definition updateForm (username email password : string)
  : gmap string FormValue :=
  <["username" := FString username]>
    (<["full_name" := FString ""]>
       (<["email" := FString email]>
          (<["password" := FString password]> ∅))).

End Fixtures.

(** * Properties *)

(** ** The model on concrete inputs *)

Example isPublicRoute_nested_samples :
  map AuthContext.isPublicRoute
      ["/"; "/login"; "/login/reset"; "/register/"; "//x"; "/profile"; "/loginx"; ""]
  = [true; true; true; true; true; false; false; false].
Proof. reflexivity. Qed.

Example isPublicRoute_exact_samples :
  map AuthProviderV1.isPublicRoute ["/"; "/login"; "/login/reset"; "/register"]
  = [false; true; false; true].
Proof. reflexivity. Qed.

Example login_rejects_short_password :
  ActionsV1.login (sdk := Samples.acceptingSdk) Samples.simpleEmail
    (Samples.loginForm "ann@example.com" "abc") Samples.emptyWorld
  = (Js.Ok (Validation.mkState (Some "密码长度至少为6个字符") false),
     Samples.emptyWorld).
Proof. vm_compute. reflexivity. Qed.

Example login_reports_backend_failure :
  fst (ActionsV2.login (sdk := Samples.failingSdk) Samples.simpleEmail
         (Samples.loginForm "ann@example.com" "secret1") Samples.emptyWorld)
  = Js.Ok (Validation.mkState (Some "登录失败: fetch failed") false).
Proof. vm_compute. reflexivity. Qed.

Example register_reports_every_field_in_order :
  map Zod.message
      (Revisions.fieldIssues Samples.simpleEmail true
         (Samples.registerForm "an n" "annx" "abc" ""))
  = ["用户名只能包含字母、数字和下划线"; "请输入有效的邮箱地址";
     "密码长度至少为6个字符"; "请确认密码"].
Proof. vm_compute. reflexivity. Qed.

Example register_missing_fields_abort :
  fst (ActionsV2.register (sdk := Samples.acceptingSdk) Samples.simpleEmail
         ∅ Samples.emptyWorld)
  = Js.Ok (Validation.mkState (Some "Expected string, received null") false).
Proof. vm_compute. reflexivity. Qed.

Example logout_action_with_backend_down :
  Actions.logout (sdk := Samples.failingSdk) Samples.loggedInWorld
  = (Js.Throw (Js.NextRedirect "/login"),
     Server.mkWorld ∅ true "production" 0
                    [Server.CallLogout "Bearer token-1"] ["API登出失败:"]).
Proof. vm_compute. reflexivity. Qed.

Example checks_in_flight_after_two_ticks :
  map Session.seq (Session.inflight Samples.twoChecksInFlight) = [0; 1; 2].
Proof. reflexivity. Qed.

(** ** Login: the cookie and the failing paths *)

Section LoginFacts.
Import Js Zod Server Validation Actions Revisions.
Context {B : Type} {sdk : Sdk B}.
Variable emailRegex : string -> bool.

(** Every path of the guarded request, spelled out. *)
Lemma loginRequest_guarded (email password : FormValue) (w : World B) :
  try_catch (loginRequest email password) loginCatch w =
  let body := mkLoginBody email password in
  match loginAccessToken body (backend w) with
  | (Ok resp, b') =>
      match data resp with
      | Some d =>
          if requestScope w
          then (Ok (mkState None true),
                setJar (<["auth-token" :=
                            authCookie (access_token d)
                                       (String.eqb (nodeEnv w) "production")]> (jar w))
                       (afterLoginCall body b' w))
          else loginCatch (ErrorObj "cookies was called outside a request scope")
                          (afterLoginCall body b' w)
      | None =>
          (Ok (mkState (Some "登录失败，服务器没有返回Token") false),
           afterLoginCall body b' w)
      end
  | (Throw e, b') => loginCatch e (afterLoginCall body b' w)
  end.
Proof.
  unfold try_catch, loginRequest, bind, call, afterLoginCall. cbn zeta.
  destruct (loginAccessToken _ (backend w)) as [[resp | e] b']; [|reflexivity].
  destruct (data resp) as [d|]; [|reflexivity].
  unfold cookies; cbn. destruct (requestScope w); reflexivity.
Qed.

(** The [catch] block answers with an error state and leaves the jar. *)
Lemma loginCatch_spec (e : Thrown) (w : World B) :
  exists msg w', loginCatch e w = (Ok (mkState (Some msg) false), w')
                 /\ jar w' = jar w /\ calls w' = calls w.
Proof.
  unfold loginCatch, bind, console_error, ret.
  destruct (instanceofError e); eauto.
Qed.

Lemma login_outcome (revision : bool) (fd : gmap string FormValue) (w : World B) :
  let body := mkLoginBody (formGet fd "email") (formGet fd "password") in
  exists st w',
    loginOf emailRegex revision fd w = (Ok st, w') /\
    ((exists msg, st = mkState (Some msg) false /\ jar w' = jar w) \/
     (exists d b',
        st = mkState None true /\
        requestScope w = true /\
        fst (loginAccessToken body (backend w)) = Ok (mkLoginResponse (Some d)) /\
        snd (loginAccessToken body (backend w)) = b' /\
        jar w' = <["auth-token" :=
                     authCookie (access_token d)
                                (String.eqb (nodeEnv w) "production")]> (jar w))).
Proof.
  intros body.
  assert (Hreq : exists st w',
             try_catch (loginRequest (formGet fd "email") (formGet fd "password"))
                       loginCatch w = (Ok st, w') /\
             ((exists msg, st = mkState (Some msg) false /\ jar w' = jar w) \/
              (exists d b',
                 st = mkState None true /\
                 requestScope w = true /\
                 fst (loginAccessToken body (backend w))
                 = Ok (mkLoginResponse (Some d)) /\
                 snd (loginAccessToken body (backend w)) = b' /\
                 jar w' = <["auth-token" :=
                              authCookie (access_token d)
                                         (String.eqb (nodeEnv w) "production")]>
                            (jar w)))).
  { rewrite loginRequest_guarded. cbn zeta. fold body.
    destruct (loginAccessToken body (backend w)) as [[[[d|]] | e] b'] eqn:Hcall.
    - destruct (requestScope w) eqn:Hscope.
      + do 2 eexists. split; [reflexivity|]. right. exists d, b'. cbn.
        repeat split; reflexivity.
      + destruct (loginCatch_spec
                    (ErrorObj "cookies was called outside a request scope")
                    (afterLoginCall body b' w)) as (msg & w' & -> & Hjar & _).
        do 2 eexists. split; [reflexivity|]. left. exists msg. split; [reflexivity|].
        rewrite Hjar. reflexivity.
    - do 2 eexists. split; [reflexivity|]. left. eexists. split; reflexivity.
    - destruct (loginCatch_spec e (afterLoginCall body b' w))
        as (msg & w' & -> & Hjar & _).
      do 2 eexists. split; [reflexivity|]. left. exists msg. split; [reflexivity|].
      rewrite Hjar. reflexivity. }
  destruct revision; cbn [loginOf].
  - unfold ActionsV2.login, validateFormData.
    destruct (safeParse emailRegex Schemas.loginSchema _) as [out | issues]; cbn.
    + exact Hreq.
    + do 2 eexists. split; [reflexivity|]. left. eexists. split; reflexivity.
  - unfold ActionsV1.login.
    destruct (safeParse emailRegex ActionsV1.loginSchema _) as [out | issues]; cbn.
    + exact Hreq.
    + do 2 eexists. split; [reflexivity|]. left. eexists. split; reflexivity.
Qed.

(** C6: for every successful login, in either revision of the action, the
    token the backend returned is stored under [auth-token] in a cookie
    with exactly these attributes: HttpOnly set, Secure exactly when
    NODE_ENV is "production", SameSite=Lax, path "/", max-age 604800 s
    (7 days).  And such logins exist, in either revision: whenever the form
    passes the revision's schema and the backend answers the request with
    token data while the cookie store can be reached, the login is
    successful and the jar is the old one with that cookie set. *)
Theorem login_success_cookie_attributes
        (revision : bool) (fd : gmap string FormValue) (w : World B) :
  let email := formGet fd "email" in
  let password := formGet fd "password" in
  let stored d :=
    {| value := access_token d;
       httpOnly := true;
       secure := String.eqb (nodeEnv w) "production";
       sameSite := lax;
       maxAge := 604800;
       path := "/" |} in
  (forall st w',
      loginOf emailRegex revision fd w = (Ok st, w') ->
      success st = true ->
      exists d,
        fst (loginAccessToken (mkLoginBody email password) (backend w))
        = Ok (mkLoginResponse (Some d)) /\
        jar w' !! "auth-token" = Some (stored d)) /\
  (forall out d,
      safeParse emailRegex (ActionTerms.loginSchemaOf revision)
        (<["email" := email]> (<["password" := password]> ∅)) = inl out ->
      requestScope w = true ->
      fst (loginAccessToken (mkLoginBody email password) (backend w))
      = Ok (mkLoginResponse (Some d)) ->
      exists w',
        loginOf emailRegex revision fd w = (Ok (mkState None true), w') /\
        jar w' = <["auth-token" := stored d]> (jar w)).
Proof.
  intros email password stored. split.
  - intros st w' Hrun Hok.
    destruct (login_outcome revision fd w) as (st0 & w0 & Hrun0 & Hcases).
    rewrite Hrun in Hrun0. injection Hrun0 as <- <-.
    destruct Hcases as [(msg & -> & _) | (d & b' & -> & _ & Hcall & _ & Hjar)].
    + discriminate Hok.
    + exists d. split; [exact Hcall|].
      rewrite Hjar, lookup_insert_eq. reflexivity.
  - intros out d Hvalid Hscope Hcall.
    assert (Hreq : exists w',
               try_catch (loginRequest email password) loginCatch w
               = (Ok (mkState None true), w') /\
               jar w' = <["auth-token" := stored d]> (jar w)).
    { rewrite loginRequest_guarded. cbn zeta.
      destruct (loginAccessToken (mkLoginBody email password) (backend w))
        as [r b'].
      cbn in Hcall. subst r. cbn [data]. rewrite Hscope.
      eexists. split; reflexivity. }
    destruct revision; cbn [loginOf ActionTerms.loginSchemaOf] in *.
    + unfold ActionsV2.login, validateFormData. fold email password.
      rewrite Hvalid. exact Hreq.
    + unfold ActionsV1.login. fold email password.
      rewrite Hvalid. exact Hreq.
Qed.

(** C10: [login] always returns a state, and whenever that state is an
    error state (validation failure, a rejected or throwing API call, a
    response without data, or no access to the cookie store) the cookie jar
    is left as it was; the jar is written only on the path where the API
    answered with token data, and then exactly by setting [auth-token]. *)
Theorem login_error_leaves_cookie_jar
        (revision : bool) (fd : gmap string FormValue) (w : World B) :
  exists st w',
    loginOf emailRegex revision fd w = (Ok st, w') /\
    (success st = false \/ is_Some (error st) -> jar w' = jar w) /\
    (success st = true ->
     error st = None /\
     exists d,
       fst (loginAccessToken
              (mkLoginBody (formGet fd "email") (formGet fd "password"))
              (backend w)) = Ok (mkLoginResponse (Some d)) /\
       jar w' = <["auth-token" :=
                    authCookie (access_token d)
                               (String.eqb (nodeEnv w) "production")]> (jar w)).
Proof.
  destruct (login_outcome revision fd w) as (st & w' & Hrun & Hcases).
  exists st, w'. split; [exact Hrun|].
  destruct Hcases as [(msg & -> & Hjar) | (d & b' & -> & _ & Hcall & _ & Hjar)].
  - split; [intros _; exact Hjar | intros Hok; discriminate Hok].
  - split.
    + intros [Hko | [x Hx]]; discriminate.
    + intros _. split; [reflexivity|]. exists d. split; assumption.
Qed.

End LoginFacts.

(** The first revision of [login], run on a well-formed form against the
    accepting backend: the login succeeds, and the jar it leaves holds the
    token in a cookie with the attributes above. *)
Lemma login_success_cookie_attributes_witness :
  (exists w',
      Revisions.loginOf (sdk := Samples.acceptingSdk) Samples.simpleEmail false
        (Samples.loginForm "ann@example.com" "secret1") Samples.emptyWorld
      = (Js.Ok (Validation.mkState None true), w') /\
      Server.jar w'
      = <["auth-token" :=
            {| Server.value := "token-1";
               Server.httpOnly := true;
               Server.secure := true;
               Server.sameSite := Server.lax;
               Server.maxAge := 604800;
               Server.path := "/" |}]> (Server.jar Samples.emptyWorld)) /\
  (exists d,
      fst (Server.loginAccessToken
             (Sdk := Samples.acceptingSdk)
             (Server.mkLoginBody (Zod.FString "ann@example.com")
                                 (Zod.FString "secret1"))
             (Server.backend Samples.emptyWorld))
      = Js.Ok (Server.mkLoginResponse (Some d)) /\
      Server.jar
        (snd (Revisions.loginOf (sdk := Samples.acceptingSdk) Samples.simpleEmail false
                (Samples.loginForm "ann@example.com" "secret1") Samples.emptyWorld))
        !! "auth-token" =
        Some {| Server.value := Server.access_token d;
                Server.httpOnly := true;
                Server.secure := true;
                Server.sameSite := Server.lax;
                Server.maxAge := 604800;
                Server.path := "/" |}).
Proof.
  split.
  - apply (proj2 (login_success_cookie_attributes
                    (sdk := Samples.acceptingSdk) Samples.simpleEmail false
                    (Samples.loginForm "ann@example.com" "secret1")
                    Samples.emptyWorld)
                 (<["email" := "ann@example.com"]> (<["password" := "secret1"]> ∅))
                 (Server.mkTokenData "token-1" "bearer")).
    + vm_compute. reflexivity.
    + reflexivity.
    + reflexivity.
  - apply (proj1 (login_success_cookie_attributes
                    (sdk := Samples.acceptingSdk) Samples.simpleEmail false
                    (Samples.loginForm "ann@example.com" "secret1")
                    Samples.emptyWorld)
                 (Validation.mkState None true)).
    + vm_compute. reflexivity.
    + reflexivity.
Defined.

(** ** Registration: what a password mismatch leads to *)

Section ZodFacts.
Import Zod.
Variable emailRegex : string -> bool.

Lemma parseString_status (checks : list StringCheck) (key : string) (v : FormValue) :
  match parseString emailRegex checks key v with
  | (aborted, issues, out) => issues <> [] /\ out = None
  | (_, _, out) => exists s, v = FString s /\ out = Some s
  end.
Proof.
  destruct v as [s| | |]; cbn; try (split; [discriminate | reflexivity]).
  destruct (omap _ checks); eauto.
Qed.

Lemma merge_not_aborted (a b : ParseStatus) :
  merge a b <> aborted -> a <> aborted /\ b <> aborted.
Proof. destruct a, b; cbn; intros H; split; congruence. Qed.

Lemma merge_aborted (a b : ParseStatus) :
  merge a b = aborted -> a = aborted \/ b = aborted.
Proof. destruct a, b; cbn; intros H; auto; discriminate. Qed.

(** An object parse that did not abort saw a string under every key of
    the shape and hands it on unchanged. *)
Lemma parseObject_lookup (sh : Shape) (data : gmap string FormValue) (key : string) :
  In key (map fst sh) ->
  (parseObject emailRegex sh data).1.1 <> aborted ->
  exists s, data !! key = Some (FString s)
            /\ (parseObject emailRegex sh data).2 !! key = Some s.
Proof.
  induction sh as [|[k checks] rest IH]; cbn [map fst In parseObject]; [tauto|].
  intros Hin.
  pose proof (parseString_status checks k (default FUndefined (data !! k))) as Hs.
  destruct (parseString emailRegex checks k _) as [[st1 is1] out1].
  destruct (parseObject emailRegex rest data) as [[st2 is2] out2].
  cbn [fst snd] in *. intros Hst.
  apply merge_not_aborted in Hst as [Hst1 Hst2].
  assert (Hk : exists s, default FUndefined (data !! k) = FString s /\ out1 = Some s)
    by (destruct st1; [exact Hs | exact Hs | congruence]).
  destruct Hk as (s & Hv & ->).
  destruct (decide (k = key)) as [<- | Hne].
  - exists s. rewrite lookup_insert_eq. split; [|reflexivity].
    destruct (data !! k) as [v|]; cbn in Hv; congruence.
  - destruct Hin as [Heq | Hin]; [congruence|].
    destruct (IH Hin Hst2) as (s' & Hd & Ho).
    exists s'. rewrite lookup_insert_ne by exact Hne. split; assumption.
Qed.

(** An aborted object parse reports at least one issue. *)
Lemma parseObject_aborted_issues (sh : Shape) (data : gmap string FormValue) :
  (parseObject emailRegex sh data).1.1 = aborted ->
  (parseObject emailRegex sh data).1.2 <> [].
Proof.
  induction sh as [|[k checks] rest IH]; cbn [parseObject]; [discriminate|].
  pose proof (parseString_status checks k (default FUndefined (data !! k))) as Hs.
  destruct (parseString emailRegex checks k _) as [[st1 is1] out1].
  destruct (parseObject emailRegex rest data) as [[st2 is2] out2].
  cbn [fst snd] in *. intros Hst.
  apply merge_aborted in Hst as [-> | ->].
  - destruct Hs as [Hne _]. destruct is1; [congruence | discriminate].
  - specialize (IH eq_refl). destruct is1, is2; cbn; congruence.
Qed.

(** [safeParse] of a schema whose refinement compares [password] with
    [confirmPassword], on data where the two differ: it fails, and the
    issues are those of the fields followed by the refinement's. *)
Lemma safeParse_mismatch (sh : Shape) (issue : Issue) (data : gmap string FormValue) :
  In "password" (map fst sh) ->
  In "confirmPassword" (map fst sh) ->
  data !! "password" <> data !! "confirmPassword" ->
  exists issues,
    safeParse emailRegex (mkSchema sh (Some (Schemas.passwordsMatch, issue))) data
    = inr issues /\
    firstMessage issues
    = firstMessage ((parseObject emailRegex sh data).1.2 ++ [issue])%list.
Proof.
  intros Hp Hc Hdiff. unfold safeParse, parseSchema. cbn [shape refinement].
  pose proof (parseObject_lookup sh data "password" Hp) as Lp.
  pose proof (parseObject_lookup sh data "confirmPassword" Hc) as Lc.
  pose proof (parseObject_aborted_issues sh data) as La.
  destruct (parseObject emailRegex sh data) as [[st issues] out].
  cbn [fst snd] in *.
  assert (Hfalse : st <> aborted -> Schemas.passwordsMatch out = false).
  { intros Hst.
    destruct (Lp Hst) as (s1 & Hd1 & Ho1). destruct (Lc Hst) as (s2 & Hd2 & Ho2).
    unfold Schemas.passwordsMatch. rewrite Ho1, Ho2. cbn.
    apply String.eqb_neq. intros ->. apply Hdiff. congruence. }
  destruct st.
  - rewrite Hfalse by discriminate. eauto.
  - rewrite Hfalse by discriminate. eauto.
  - exists issues. split; [reflexivity|].
    specialize (La eq_refl). destruct issues; [congruence | reflexivity].
Qed.

End ZodFacts.

Section RegisterFacts.
Import Js Zod Server Validation Actions Revisions.
Context {B : Type} {sdk : Sdk B}.
Variable emailRegex : string -> bool.

Lemma registerData_password (u e p c : FormValue) :
  registerData u e p c !! "password" = Some p.
Proof.
  unfold registerData.
  rewrite !lookup_insert_ne by done. apply lookup_insert_eq.
Qed.

Lemma registerData_confirmPassword (u e p c : FormValue) :
  registerData u e p c !! "confirmPassword" = Some c.
Proof.
  unfold registerData.
  rewrite !lookup_insert_ne by done. apply lookup_insert_eq.
Qed.

(** C7, as the code has it: when the password and its confirmation differ,
    [register] (either revision) returns an error state without touching
    the world, so no registration request is sent; the message is the
    first of the field issues followed by the mismatch issue, hence the
    password-mismatch message exactly when no field check fails. *)
Theorem register_mismatch_rejected
        (revision : bool) (fd : gmap string FormValue) (w : World B) :
  formGet fd "password" <> formGet fd "confirmPassword" ->
  exists msg,
    registerOf emailRegex revision fd w = (Ok (mkState (Some msg) false), w) /\
    msg = firstMessage
            (fieldIssues emailRegex revision fd ++ [Schemas.mismatchIssue])%list /\
    (fieldIssues emailRegex revision fd = [] -> msg = "两次输入的密码不一致").
Proof.
  intros Hdiff.
  assert (Hd : forall u e,
             registerData u e (formGet fd "password") (formGet fd "confirmPassword")
               !! "password"
             <> registerData u e (formGet fd "password") (formGet fd "confirmPassword")
                  !! "confirmPassword").
  { intros u e. rewrite registerData_password, registerData_confirmPassword.
    congruence. }
  eexists. split; [|split; [reflexivity|]].
  - destruct revision; cbn [registerOf].
    + unfold ActionsV2.register, validateFormData, try_catch, Schemas.registerSchema.
      edestruct (safeParse_mismatch emailRegex) as (issues & -> & Hmsg);
        [| | apply Hd |]; [cbn; tauto | cbn; tauto |].
      cbn. unfold formatZodError, fieldIssues, createErrorState. rewrite Hmsg.
      reflexivity.
    + unfold ActionsV1.register, try_catch, ActionsV1.registerSchema.
      edestruct (safeParse_mismatch emailRegex) as (issues & -> & Hmsg);
        [| | apply Hd |]; [cbn; tauto | cbn; tauto |].
      cbn. unfold fieldIssues. rewrite Hmsg. reflexivity.
  - intros ->. reflexivity.
Qed.

End RegisterFacts.

(** A form whose fields all pass their checks and whose confirmation
    differs from the password. *)
Lemma register_mismatch_rejected_witness :
  Actions.formGet (Samples.registerForm "ann" "ann@example.com" "secret1" "secret2")
                  "password"
  <> Actions.formGet (Samples.registerForm "ann" "ann@example.com" "secret1" "secret2")
                     "confirmPassword"
  /\ exists msg,
      Revisions.registerOf (sdk := Samples.acceptingSdk) Samples.simpleEmail true
        (Samples.registerForm "ann" "ann@example.com" "secret1" "secret2")
        Samples.emptyWorld
      = (Js.Ok (Validation.mkState (Some msg) false), Samples.emptyWorld) /\
      msg = Zod.firstMessage
              (Revisions.fieldIssues Samples.simpleEmail true
                 (Samples.registerForm "ann" "ann@example.com" "secret1" "secret2")
               ++ [Schemas.mismatchIssue])%list /\
      (Revisions.fieldIssues Samples.simpleEmail true
         (Samples.registerForm "ann" "ann@example.com" "secret1" "secret2") = [] ->
       msg = "两次输入的密码不一致").
Proof.
  split.
  - vm_compute. discriminate.
  - apply (register_mismatch_rejected (sdk := Samples.acceptingSdk)).
    vm_compute. discriminate.
Defined.

(** C7, as stated, fails: with a two-letter user name and differing
    passwords both revisions of [register] answer with the user-name
    message, not with the password-mismatch message. *)
Lemma register_mismatch_other_message :
  Actions.formGet (Samples.registerForm "ab" "ann@example.com" "secret1" "secret2")
                  "password"
  <> Actions.formGet (Samples.registerForm "ab" "ann@example.com" "secret1" "secret2")
                     "confirmPassword"
  /\ (forall revision,
        Revisions.registerOf (sdk := Samples.acceptingSdk) Samples.simpleEmail revision
          (Samples.registerForm "ab" "ann@example.com" "secret1" "secret2")
          Samples.emptyWorld
        = (Js.Ok (Validation.mkState (Some "用户名长度至少为3个字符") false),
           Samples.emptyWorld))
  /\ "用户名长度至少为3个字符" <> "两次输入的密码不一致".
Proof.
  split; [vm_compute; discriminate|].
  split; [intros [|]; vm_compute; reflexivity | discriminate].
Qed.

(** ** Logout: the route handler, the server action, the context *)

Section LogoutFacts.
Import Js Server.
Context {B : Type} {sdk : Sdk B}.

(** One run of the handler inside a request: whatever the backend does
    with the logout call, the answer is the 200 and the cookie is gone;
    without a cookie the backend is not even called. *)
Lemma POST_in_request (w : World B) :
  requestScope w = true ->
  exists w1,
    Routes.POST w = (Ok Routes.logoutSucceeded, w1) /\
    jar w1 = delete "auth-token" (jar w) /\
    requestScope w1 = true /\
    (truthyOpt (value <$> jar w !! "auth-token") = false ->
     calls w1 = calls w /\ backend w1 = backend w).
Proof.
  intros Hscope.
  unfold Routes.POST, try_catch, bind, cookies, cookie_get. rewrite Hscope.
  destruct (jar w !! "auth-token") as [c|]; cbn.
  - destruct (truthy (value c)) eqn:Ht; cbn.
    + unfold call. destruct (apiLogout _ (backend w)) as [[[]|e] b']; cbn;
        (eexists; split; [reflexivity|]; cbn; repeat split; try assumption;
         intros; discriminate).
    + eexists; split; [reflexivity|]; cbn. repeat split; assumption.
  - eexists; split; [reflexivity|]; cbn. repeat split; assumption.
Qed.

(** The handler never throws. *)
Lemma POST_total (w : World B) : exists r w', Routes.POST w = (Ok r, w').
Proof.
  unfold Routes.POST, try_catch, bind, cookies, cookie_get.
  destruct (requestScope w); cbn; [|eauto].
  destruct (jar w !! "auth-token") as [c|]; cbn; [|eauto].
  destruct (truthy (value c)); cbn; [|eauto].
  unfold call. destruct (apiLogout _ (backend w)) as [[[]|e] b']; cbn; eauto.
Qed.

(** The server action inside a request: the cookie is removed and the
    action ends in the redirect, whatever the backend call did. *)
Lemma logout_action_in_request (w : World B) :
  requestScope w = true ->
  exists w1,
    Actions.logout w = (Throw (NextRedirect "/login"), w1) /\
    jar w1 = delete "auth-token" (jar w).
Proof.
  intros Hscope.
  unfold Actions.logout, try_finally, try_catch, bind, cookies, cookie_get.
  rewrite Hscope.
  destruct (jar w !! "auth-token") as [c|]; cbn.
  - destruct (truthy (value c)); cbn.
    + unfold call. destruct (apiLogout _ (backend w)) as [[[]|e] b']; cbn;
        rewrite ?Hscope; cbn; eauto.
    + rewrite Hscope. cbn. eauto.
  - rewrite Hscope. cbn. eauto.
Qed.

(** The context's [logout] when the request came back OK. *)
Lemma context_logout_acknowledged {R} (c : React.Client) (status : nat)
      (json : option R) :
  React.busy c = false ->
  React.statusOk status = true ->
  React.visibleAuth (AuthContext.logout (React.Responded status json) c) = false /\
  React.isAuthenticated (AuthContext.logout (React.Responded status json) c) = false /\
  React.pushed (AuthContext.logout (React.Responded status json) c)
  = (React.pushed c ++ ["/login"])%list.
Proof.
  intros Hbusy Hok. unfold AuthContext.logout. rewrite Hbusy, Hok.
  unfold AuthContext.setAuth, AuthContext.setState, React.visibleAuth.
  destruct c as [[|] bz op pn ps er]; cbn; auto.
Qed.

(** The context's [logout] when the request failed: the flag is put back
    to [true] and the router is left alone. *)
Lemma context_logout_failed {R} (c : React.Client) (outcome : React.FetchOutcome R) :
  React.busy c = false ->
  React.fetchFailed outcome = true ->
  React.visibleAuth (AuthContext.logout outcome c) = true /\
  React.isAuthenticated (AuthContext.logout outcome c) = true /\
  React.pushed (AuthContext.logout outcome c) = React.pushed c.
Proof.
  intros Hbusy Hfail. unfold AuthContext.logout. rewrite Hbusy.
  unfold AuthContext.setAuth, AuthContext.setState, React.visibleAuth.
  destruct outcome as [|status json]; cbn in Hfail.
  - destruct c as [[|] bz op pn ps er]; cbn; auto.
  - apply negb_true_iff in Hfail. rewrite Hfail.
    destruct json, c as [[|] bz op pn ps er]; cbn; auto.
Qed.

(** C5: inside a request, [POST /api/auth/logout] answers 200 with
    [success: true] whatever the backend does with the token (accepts it,
    rejects it as revoked or expired, or is unreachable), and removes the
    cookie; a second call, which finds no cookie, answers the same without
    contacting the backend.  The handler never throws. *)
Theorem logout_route_idempotent (w : World B) :
  (exists r w', Routes.POST w = (Ok r, w')) /\
  (requestScope w = true ->
   exists w1 w2,
     Routes.POST w = (Ok Routes.logoutSucceeded, w1) /\
     jar w1 !! "auth-token" = None /\
     Routes.POST w1 = (Ok Routes.logoutSucceeded, w2) /\
     jar w2 = jar w1 /\ calls w2 = calls w1 /\ backend w2 = backend w1).
Proof.
  split; [apply POST_total|]. intros Hscope.
  destruct (POST_in_request w Hscope) as (w1 & Hrun1 & Hjar1 & Hscope1 & _).
  destruct (POST_in_request w1 Hscope1) as (w2 & Hrun2 & Hjar2 & _ & Hquiet).
  assert (Hgone : jar w1 !! "auth-token" = None)
    by (rewrite Hjar1; apply lookup_delete_eq).
  exists w1, w2. repeat split; try assumption.
  - rewrite Hjar2. apply delete_id. exact Hgone.
  - apply Hquiet. rewrite Hgone. reflexivity.
  - apply Hquiet. rewrite Hgone. reflexivity.
Qed.

(** C1, as the code has it: the server action removes the cookie and
    redirects to /login whatever the backend call did; the context's
    [logout] ends Unauthenticated with a navigation to /login when its
    request comes back OK, and puts the flag back to Authenticated, without
    navigating, when the request rejects or comes back not OK; with the
    route handler reached, the tab ends with the cookie removed, the flag
    Unauthenticated and the navigation, whatever the backend call did. *)
Theorem logout_ends_signed_out_when_acknowledged :
  (forall w : World B,
      requestScope w = true ->
      exists w1,
        Actions.logout w = (Throw (NextRedirect "/login"), w1) /\
        jar w1 !! "auth-token" = None) /\
  (forall (c : React.Client) (status : nat) (json : option Routes.LogoutResponse),
      React.busy c = false ->
      React.statusOk status = true ->
      React.visibleAuth (AuthContext.logout (React.Responded status json) c) = false /\
      React.isAuthenticated (AuthContext.logout (React.Responded status json) c) = false /\
      React.pushed (AuthContext.logout (React.Responded status json) c)
      = (React.pushed c ++ ["/login"])%list) /\
  (forall (c : React.Client) (outcome : React.FetchOutcome Routes.LogoutResponse),
      React.busy c = false ->
      React.fetchFailed outcome = true ->
      React.visibleAuth (AuthContext.logout outcome c) = true /\
      React.isAuthenticated (AuthContext.logout outcome c) = true /\
      React.pushed (AuthContext.logout outcome c) = React.pushed c) /\
  (forall b : Browser.Browser B,
      React.busy (Browser.tab b) = false ->
      requestScope (Browser.server b) = true ->
      jar (Browser.server (Browser.logout true b)) !! "auth-token" = None /\
      React.visibleAuth (Browser.tab (Browser.logout true b)) = false /\
      React.pushed (Browser.tab (Browser.logout true b))
      = (React.pushed (Browser.tab b) ++ ["/login"])%list).
Proof.
  split; [|split; [|split]].
  - intros w Hscope.
    destruct (logout_action_in_request w Hscope) as (w1 & Hrun & Hjar).
    exists w1. split; [exact Hrun|]. rewrite Hjar. apply lookup_delete_eq.
  - intros c status json. apply context_logout_acknowledged.
  - intros c outcome. apply context_logout_failed.
  - intros [c w] Hbusy Hscope. cbn in Hbusy, Hscope.
    destruct (POST_in_request w Hscope) as (w1 & Hrun & Hjar & _).
    unfold Browser.logout, Browser.fetchLogout. cbn [Browser.tab Browser.server].
    rewrite Hbusy, Hrun. cbn [Browser.tab Browser.server].
    split; [rewrite Hjar; apply lookup_delete_eq|].
    destruct (context_logout_acknowledged
                c (Routes.lo_status Routes.logoutSucceeded)
                (Some Routes.logoutSucceeded) Hbusy eq_refl) as (Hv & _ & Hp).
    split; assumption.
Qed.

End LogoutFacts.

(** A signed-in request whose backend is down: the handler still answers
    200, twice. *)
Lemma logout_route_idempotent_witness :
  Server.requestScope Samples.loggedInWorld = true /\
  exists w1 w2,
    Routes.POST (sdk := Samples.failingSdk) Samples.loggedInWorld
    = (Js.Ok Routes.logoutSucceeded, w1) /\
    Server.jar w1 !! "auth-token" = None /\
    Routes.POST (sdk := Samples.failingSdk) w1 = (Js.Ok Routes.logoutSucceeded, w2) /\
    Server.jar w2 = Server.jar w1 /\
    Server.calls w2 = Server.calls w1 /\
    Server.backend w2 = Server.backend w1.
Proof.
  split; [reflexivity|].
  apply (proj2 (logout_route_idempotent (sdk := Samples.failingSdk)
                  Samples.loggedInWorld)).
  reflexivity.
Defined.

(** A signed-in tab logging out while the backend is down but the route
    handler is reached. *)
Lemma logout_ends_signed_out_when_acknowledged_witness :
  React.busy Samples.profileTab = false /\
  Server.requestScope Samples.loggedInWorld = true /\
  Server.jar
    (Browser.server
       (Browser.logout (sdk := Samples.failingSdk) true
          (Browser.mkBrowser Samples.profileTab Samples.loggedInWorld)))
    !! "auth-token" = None /\
  React.visibleAuth
    (Browser.tab
       (Browser.logout (sdk := Samples.failingSdk) true
          (Browser.mkBrowser Samples.profileTab Samples.loggedInWorld))) = false /\
  React.pushed
    (Browser.tab
       (Browser.logout (sdk := Samples.failingSdk) true
          (Browser.mkBrowser Samples.profileTab Samples.loggedInWorld)))
  = ["/login"].
Proof.
  split; [reflexivity|]. split; [reflexivity|].
  apply (proj2 (proj2 (proj2
           (logout_ends_signed_out_when_acknowledged (sdk := Samples.failingSdk))))
           (Browser.mkBrowser Samples.profileTab Samples.loggedInWorld));
    reflexivity.
Defined.

(** C1, as stated, fails: when the logout request of a signed-in tab
    rejects (the network is down), or comes back with a 500, the context
    ends with the flag Authenticated, no navigation, and the cookie still
    in the jar. *)
Lemma logout_network_failure_stays_signed_in :
  (React.visibleAuth
     (Browser.tab
        (Browser.logout (sdk := Samples.acceptingSdk) false
           (Browser.mkBrowser Samples.profileTab Samples.loggedInWorld))) = true /\
   React.pushed
     (Browser.tab
        (Browser.logout (sdk := Samples.acceptingSdk) false
           (Browser.mkBrowser Samples.profileTab Samples.loggedInWorld))) = [] /\
   Server.jar
     (Browser.server
        (Browser.logout (sdk := Samples.acceptingSdk) false
           (Browser.mkBrowser Samples.profileTab Samples.loggedInWorld)))
     !! "auth-token" = Some (Samples.sessionCookie "token-1")) /\
  (React.visibleAuth
     (AuthContext.logout (R := Routes.LogoutResponse)
        (React.Responded 500 None) Samples.profileTab) = true /\
   React.pushed
     (AuthContext.logout (R := Routes.LogoutResponse)
        (React.Responded 500 None) Samples.profileTab) = []).
Proof. vm_compute. repeat split; reflexivity. Qed.

(** ** Status: what the boolean reflects *)

Section StatusFacts.
Import Js Server.
Context {B : Type}.

(** C2, as the code has it: the status route and the [checkAuthStatus]
    action answer [true] exactly when the cookie store is accessible and
    holds an [auth-token] cookie with a non-empty value; neither sends a
    request to the backend nor changes the world, so the validity of the
    token on the server has no part in the answer. *)
Theorem status_reflects_cookie_presence (w : World B) :
  (exists r,
      Routes.GET w = (Ok r, if requestScope w then w
                            else snd (console_error "认证状态检查失败:" w)) /\
      Routes.authenticated r
      = requestScope w && truthyOpt (value <$> jar w !! "auth-token")) /\
  Actions.checkAuthStatus w
  = (Ok (requestScope w && truthyOpt (value <$> jar w !! "auth-token")),
     if requestScope w then w
     else snd (console_error "检查认证状态失败:" w)) /\
  calls (snd (Routes.GET w)) = calls w /\
  backend (snd (Routes.GET w)) = backend w /\
  calls (snd (Actions.checkAuthStatus w)) = calls w /\
  backend (snd (Actions.checkAuthStatus w)) = backend w.
Proof.
  unfold Routes.GET, Actions.checkAuthStatus, try_catch, bind, cookies, cookie_get.
  destruct (requestScope w); cbn; repeat split; eexists; split; reflexivity.
Qed.

End StatusFacts.

(** C2, as stated, fails: with a cookie whose value no codec accepts, the
    backend's [authenticate] answers Unauthenticated for every key, store
    and time, and yet the status route and the action answer [true]. *)
Lemma status_true_for_unverifiable_token :
  (forall sign key store now,
      Backend.authenticate sign key store now (Backend.Unparsable "not-a-token")
      = inr Backend.Unauthenticated) /\
  fst (Routes.GET
         (Server.mkWorld {["auth-token" := Samples.sessionCookie "not-a-token"]}
                         true "production" 0 [] []))
  = Js.Ok (Routes.mkStatusResponse 200 true None) /\
  fst (Actions.checkAuthStatus
         (Server.mkWorld {["auth-token" := Samples.sessionCookie "not-a-token"]}
                         true "production" 0 [] []))
  = Js.Ok true.
Proof.
  split; [intros; reflexivity|].
  split; vm_compute; reflexivity.
Qed.

(** ** Route guarding *)

Section GuardFacts.
Import Js React Session.

Lemma prefix_app (p s : string) :
  String.prefix p s = true <-> exists rest, s = p ++ rest.
Proof.
  revert s. induction p as [|a p IH]; intros s; cbn.
  - destruct s; split; eauto.
  - destruct s as [|b s]; cbn.
    + split; [discriminate | intros [rest H]; discriminate].
    + destruct (ascii_dec a b) as [<- | Hne].
      * rewrite IH. split; intros [rest H]; exists rest.
        -- rewrite H. reflexivity.
        -- change (String a s = String a (p ++ rest)) in H. congruence.
      * split; [discriminate|]. intros [rest H].
        change (String b s = String a (p ++ rest)) in H. congruence.
Qed.

Lemma append_assoc3 (a b c : string) : (a ++ b) ++ c = a ++ b ++ c.
Proof.
  induction a as [|x a IH]; [reflexivity|].
  change (String x ((a ++ b) ++ c) = String x (a ++ b ++ c)). congruence.
Qed.

(** Matching by equality or under [route/] is membership in the nested
    reading of the allow-list. *)
Lemma nested_match_allow_list (routes : list string) (path : string) :
  some (fun route => String.eqb path route || startsWith path (route ++ "/")) routes
  = true
  <-> onAllowList routes true path.
Proof.
  unfold some, onAllowList. rewrite existsb_exists.
  split; intros (route & Hin & H); exists route; (split; [exact Hin|]).
  - apply orb_true_iff in H as [H | H].
    + left. apply String.eqb_eq. exact H.
    + right. split; [reflexivity|].
      apply prefix_app in H as [rest ->]. exists rest. apply append_assoc3.
  - apply orb_true_iff. destruct H as [-> | (_ & rest & ->)].
    + left. apply String.eqb_refl.
    + right. apply prefix_app. exists rest. symmetry. apply append_assoc3.
Qed.

(** [publicRoutes.includes(pathname)] is membership in the exact reading. *)
Lemma exact_match_allow_list (routes : list string) (path : string) :
  arrayIncludes routes path = true <-> onAllowList routes false path.
Proof.
  unfold arrayIncludes, onAllowList. rewrite existsb_exists.
  split; intros (route & Hin & H); exists route; (split; [exact Hin|]).
  - left. apply String.eqb_eq. exact H.
  - destruct H as [-> | (Hn & _)]; [apply String.eqb_refl | discriminate].
Qed.

Lemma startCheck_client {A} (P : Provider A) (b : bool) (s : State) :
  client (startCheck P b s) = client s.
Proof. unfold startCheck. destruct (statusEffect P); reflexivity. Qed.

Lemma runEffects_client {A} (P : Provider A) (s : State) :
  client (runEffects P s) = guard P (client s).
Proof. unfold runEffects. cbn. rewrite startCheck_client. reflexivity. Qed.

Lemma closure_eqb_flag (d : Closure) (c : Client) :
  c_isAuthenticated d <> isAuthenticated c -> closure_eqb d (current c) = false.
Proof.
  unfold closure_eqb, current. cbn.
  destruct (c_isAuthenticated d), (isAuthenticated c); cbn; congruence.
Qed.

(** A provider whose guard is the source's effect over a matcher that
    agrees with the allow-list guards the routes off that list. *)
Lemma guards_routes_intro {A} (P : Provider A) (routes : list string)
      (nested : bool) (isPublic : string -> bool) :
  (forall path, isPublic path = true <-> onAllowList routes nested path) ->
  (forall c, guard P c
             = if negb (isAuthenticated c) && negb (isPublic (pathname c))
               then push "/login" c else c) ->
  (forall c, isAuthenticated c = true ->
             isAuthenticated (setAuth P false c) = false
             /\ pathname (setAuth P false c) = pathname c
             /\ pushed (setAuth P false c) = pushed c) ->
  GuardsRoutes P routes nested.
Proof.
  intros Hmatch Hguard Hset.
  assert (Hoff : forall c, isAuthenticated c = false ->
                           ~ onAllowList routes nested (pathname c) ->
                           guard P c = push "/login" c).
  { intros c Hflag Hout. rewrite Hguard, Hflag.
    destruct (isPublic (pathname c)) eqn:Hp; [|reflexivity].
    apply Hmatch in Hp. contradiction. }
  assert (Hon : forall c, onAllowList routes nested (pathname c) -> guard P c = c).
  { intros c Hin. rewrite Hguard. apply Hmatch in Hin. rewrite Hin.
    rewrite andb_false_r. reflexivity. }
  assert (Hauth : forall c, isAuthenticated c = true -> guard P c = c).
  { intros c Hflag. rewrite Hguard, Hflag. reflexivity. }
  assert (Hturn : forall s,
             deps s = current (client s) -> isAuthenticated (client s) = true ->
             client (step P (SetAuth false) s)
             = guard P (setAuth P false (client s))).
  { intros s Hdeps Hflag. cbn [step]. unfold settle. cbn [deps client].
    destruct (Hset (client s) Hflag) as (Hf & _ & _).
    rewrite closure_eqb_flag
      by (rewrite Hdeps; cbn; rewrite Hf, Hflag; discriminate).
    apply runEffects_client. }
  split; [exact Hoff|]. split; [exact Hon|]. split; [exact Hauth|]. split.
  - intros path. unfold mount. rewrite runEffects_client. cbn [client].
    split; intros Hpath.
    + rewrite Hoff; [reflexivity | reflexivity | exact Hpath].
    + rewrite Hon; [reflexivity | exact Hpath].
  - intros s Hdeps Hflag. rewrite (Hturn s Hdeps Hflag).
    destruct (Hset (client s) Hflag) as (Hf & Hp & Hpush).
    split; intros Hpath.
    + rewrite Hoff; [| exact Hf | rewrite Hp; exact Hpath].
      cbn. rewrite Hpush. reflexivity.
    + rewrite Hon; [exact Hpush | rewrite Hp; exact Hpath].
Qed.

Lemma closure_eqb_true_flag (d : Closure) (c : Client) :
  closure_eqb d (current c) = true -> isAuthenticated c = c_isAuthenticated d.
Proof.
  unfold closure_eqb, current. cbn. intros H.
  apply andb_true_iff in H as [H _]. apply Bool.eqb_prop in H. congruence.
Qed.

Lemma redirects_when_cleared_intro {A} (P : Provider A) (routes : list string)
      (nested : bool) (isPublic : string -> bool) :
  (forall path, isPublic path = true <-> onAllowList routes nested path) ->
  (forall c, guard P c
             = if negb (isAuthenticated c) && negb (isPublic (pathname c))
               then push "/login" c else c) ->
  (forall v, frames (setAuth P v)) ->
  (forall onInitial onInterval,
      statusEffect P = Some (onInitial, onInterval) ->
      forall cl a, frames (onInitial cl a) /\ frames (onInterval cl a)) ->
  RedirectsWhenCleared P routes nested.
Proof.
  intros Hmatch Hguard Hset Hhooks s e Hdeps Hflag.
  assert (Hflagguard : forall c, isAuthenticated (guard P c) = isAuthenticated c).
  { intros c. rewrite Hguard. destruct (_ && _); reflexivity. }
  assert (Hpathguard : forall c, pathname (guard P c) = pathname c).
  { intros c. rewrite Hguard. destruct (_ && _); reflexivity. }
  assert (Hmain : forall (h : Client -> Client) fl nx,
             frames h ->
             isAuthenticated
               (client (settle P (mkState (h (client s)) (deps s) fl nx))) = false ->
             ~ onAllowList routes nested
                 (pathname (client (settle P (mkState (h (client s)) (deps s) fl nx)))) ->
             exists extra,
               pushed (client (settle P (mkState (h (client s)) (deps s) fl nx)))
               = (pushed (client s) ++ extra ++ ["/login"])%list).
  { intros h fl nx Hframe. unfold settle. cbn [deps client].
    destruct (closure_eqb (deps s) (current (h (client s)))) eqn:Heq.
    - cbn [client]. intros Hcleared _.
      apply closure_eqb_true_flag in Heq.
      rewrite Hdeps in Heq. cbn in Heq. congruence.
    - rewrite runEffects_client. cbn [client].
      rewrite Hflagguard, Hpathguard. intros Hcleared Hoff.
      destruct (Hframe (client s)) as (_ & extra & Hpush).
      exists extra. rewrite Hguard, Hcleared.
      destruct (isPublic (pathname (h (client s)))) eqn:Hp.
      + apply Hmatch in Hp. contradiction.
      + cbn. rewrite Hpush, <- app_assoc. reflexivity. }
  destruct e as [|n a|v|path]; cbn [step].
  - rewrite startCheck_client. congruence.
  - destruct (findCheck n (inflight s)) as [k|]; [|congruence].
    destruct (statusEffect P) as [[onInitial onInterval]|] eqn:Hstatus; [|congruence].
    destruct (Hhooks onInitial onInterval eq_refl (closure k) a) as [Hi Ht].
    apply (Hmain (fun c => (if periodic k then onInterval else onInitial)
                             (closure k) a c)).
    destruct (periodic k); assumption.
  - apply (Hmain (setAuth P v)). apply Hset.
  - intros Hcleared _. exfalso. revert Hcleared. unfold settle. cbn [deps client].
    destruct (closure_eqb _ _); [|rewrite runEffects_client, Hflagguard];
      cbn; congruence.
Qed.

(** A provider whose status callbacks are the source's, over the same
    matcher, reconciles as [ReconcilesRoutes] says. *)
Lemma reconciles_routes_intro {A} (P : Provider A) (routes : list string)
      (nested : bool) (isPublic : string -> bool) (gone : A)
      (onInitial onInterval : Closure -> A -> Client -> Client) :
  statusEffect P = Some (onInitial, onInterval) ->
  (forall path, isPublic path = true <-> onAllowList routes nested path) ->
  (forall c, guard P c
             = if negb (isAuthenticated c) && negb (isPublic (pathname c))
               then push "/login" c else c) ->
  (forall cl c, c_isAuthenticated cl = true -> isAuthenticated c = true ->
                onInitial cl gone c = setIsAuthenticated false c) ->
  (forall cl c, c_isAuthenticated cl = true -> isAuthenticated c = true ->
                onInterval cl gone c
                = if negb (isPublic (c_pathname cl))
                  then push "/login" (setIsAuthenticated false c)
                  else setIsAuthenticated false c) ->
  ReconcilesRoutes P routes nested gone.
Proof.
  intros Hstatus Hmatch Hguard Hfirst Hcb s n k Hdeps Hflag Hfind Hcl.
  assert (Hstep : client (step P (Resolve n gone) s)
                  = guard P ((if periodic k then onInterval else onInitial)
                               (current (client s)) gone (client s))).
  { cbn [step]. rewrite Hfind, Hstatus, Hcl, Hdeps.
    unfold settle. cbn [deps client].
    rewrite closure_eqb_flag.
    - apply runEffects_client.
    - destruct (periodic k).
      + rewrite Hcb by (cbn; assumption). cbn [current c_isAuthenticated].
        rewrite Hflag. destruct (negb (isPublic _)); cbn; discriminate.
      + rewrite Hfirst by (cbn; assumption). cbn [current c_isAuthenticated].
        rewrite Hflag. cbn. discriminate. }
  rewrite Hstep.
  destruct (periodic k).
  - rewrite Hcb by (cbn; assumption). cbn [current c_pathname].
    rewrite !Hguard.
    destruct (isPublic (pathname (client s))) eqn:Hp; cbn; rewrite Hp; cbn.
    + split; [reflexivity|]. split; [|reflexivity].
      intros Hout. apply Hmatch in Hp. contradiction.
    + split; [reflexivity|]. split.
      * intros _. rewrite <- app_assoc. reflexivity.
      * intros Hin. apply Hmatch in Hin. congruence.
  - rewrite Hfirst by (cbn; assumption).
    rewrite !Hguard. cbn.
    destruct (isPublic (pathname (client s))) eqn:Hp; cbn.
    + split; [reflexivity|]. split; [|reflexivity].
      intros Hout. apply Hmatch in Hp. contradiction.
    + split; [reflexivity|]. split; [reflexivity|].
      intros Hin. apply Hmatch in Hin. congruence.
Qed.

Lemma frames_id : frames (fun c => c).
Proof. intros c. split; [reflexivity|]. exists []. symmetry. apply app_nil_r. Qed.

Lemma frames_setIsAuthenticated (v : bool) : frames (setIsAuthenticated v).
Proof. intros c. split; [reflexivity|]. exists []. symmetry. apply app_nil_r. Qed.

Lemma frames_push_after (url : string) (h : Client -> Client) :
  frames h -> frames (fun c => push url (h c)).
Proof.
  intros Hh c. destruct (Hh c) as (Hp & extra & He). cbn. split; [exact Hp|].
  exists (extra ++ [url])%list. rewrite He, <- app_assoc. reflexivity.
Qed.

Lemma frames_console_error (label : string) : frames (console_error label).
Proof. intros c. split; [reflexivity|]. exists []. symmetry. apply app_nil_r. Qed.

Lemma frames_setState (v : bool) : frames (AuthContext.setState v).
Proof.
  intros c. unfold AuthContext.setState.
  destruct (negb _); [apply frames_setIsAuthenticated | apply frames_id].
Qed.

Lemma frames_hooksV2 (cl : Closure) (a : FetchOutcome bool) :
  frames (AuthProviderV2.checkInitialStatus cl a)
  /\ frames (AuthProviderV2.intervalCallback cl a).
Proof.
  unfold AuthProviderV2.checkInitialStatus, AuthProviderV2.intervalCallback.
  destruct a as [|status [v|]]; try destruct (statusOk status);
    try destruct (negb (Bool.eqb v (c_isAuthenticated cl)));
    try destruct (negb v);
    try destruct (negb (AuthProviderV2.isPublicRoute (c_pathname cl)));
    split;
    first [ apply frames_id | apply frames_console_error
          | apply frames_setIsAuthenticated
          | apply (frames_push_after "/login" (setIsAuthenticated v));
            apply frames_setIsAuthenticated ].
Qed.

Lemma frames_hooksCtx (cl : Closure) (a : Js.Result bool) :
  frames (AuthContext.initialCheck cl a)
  /\ frames (AuthContext.intervalCallback cl a).
Proof.
  unfold AuthContext.initialCheck, AuthContext.intervalCallback, AuthContext.setAuth.
  destruct a as [v|e];
    try destruct (negb (Bool.eqb v (c_isAuthenticated cl)));
    try destruct (negb v);
    try destruct (negb (AuthContext.isPublicRoute (c_pathname cl)));
    split;
    first [ apply frames_id | apply frames_console_error
          | apply frames_setState
          | apply (frames_push_after "/login" (AuthContext.setState v));
            apply frames_setState ].
Qed.

(** What does follow the allow-list.  Each revision of the provider guards
    with a fixed list (/login and /register, matched exactly, in the first
    revision of auth-provider.tsx; /login, /register and /, matched exactly
    or as the parent of a nested path, in its second revision and in
    auth.context.tsx).  On every pathname off the list the provider pushes
    /login when it is rendered or mounted Unauthenticated and whenever the
    flag turns Unauthenticated ([setAuth], a status check resolving); on
    every pathname of the list the guard pushes nothing, and neither does
    [setAuth] nor a status check started on that pathname. *)
Theorem route_guard_follows_allow_list :
  (GuardsRoutes providerV1 ["/login"; "/register"] false /\
   GuardsRoutes providerV2 ["/login"; "/register"; "/"] true /\
   GuardsRoutes authContext ["/login"; "/register"; "/"] true) /\
  (RedirectsWhenCleared providerV1 ["/login"; "/register"] false /\
   RedirectsWhenCleared providerV2 ["/login"; "/register"; "/"] true /\
   RedirectsWhenCleared authContext ["/login"; "/register"; "/"] true) /\
  (ReconcilesRoutes providerV2 ["/login"; "/register"; "/"] true
                    (Responded 200 (Some false)) /\
   ReconcilesRoutes authContext ["/login"; "/register"; "/"] true (Ok false)).
Proof.
  split; [split; [|split] | split; [split; [|split] | split]].
  - apply (guards_routes_intro _ _ _ AuthProviderV1.isPublicRoute).
    + intros path. apply exact_match_allow_list.
    + reflexivity.
    + intros c _. cbn. auto.
  - apply (guards_routes_intro _ _ _ AuthProviderV2.isPublicRoute).
    + intros path. apply nested_match_allow_list.
    + reflexivity.
    + intros c _. cbn. auto.
  - apply (guards_routes_intro _ _ _ AuthContext.isPublicRoute).
    + intros path. apply nested_match_allow_list.
    + reflexivity.
    + intros c Hflag. cbn. unfold AuthContext.setAuth, AuthContext.setState.
      rewrite Hflag. cbn. auto.
  - apply (redirects_when_cleared_intro _ _ _ AuthProviderV1.isPublicRoute).
    + intros path. apply exact_match_allow_list.
    + reflexivity.
    + intros v. apply frames_setIsAuthenticated.
    + intros onInitial onInterval Hnone. discriminate Hnone.
  - apply (redirects_when_cleared_intro _ _ _ AuthProviderV2.isPublicRoute).
    + intros path. apply nested_match_allow_list.
    + reflexivity.
    + intros v. apply frames_setIsAuthenticated.
    + intros onInitial onInterval Hsome cl a. injection Hsome as <- <-.
      apply frames_hooksV2.
  - apply (redirects_when_cleared_intro _ _ _ AuthContext.isPublicRoute).
    + intros path. apply nested_match_allow_list.
    + reflexivity.
    + intros v. apply frames_setState.
    + intros onInitial onInterval Hsome cl a. injection Hsome as <- <-.
      apply frames_hooksCtx.
  - apply (reconciles_routes_intro _ _ _ AuthProviderV2.isPublicRoute _
             AuthProviderV2.checkInitialStatus AuthProviderV2.intervalCallback).
    + reflexivity.
    + intros path. apply nested_match_allow_list.
    + reflexivity.
    + intros cl c Hcl _. cbn. rewrite Hcl. reflexivity.
    + intros cl c Hcl _. cbn. rewrite Hcl. reflexivity.
  - apply (reconciles_routes_intro _ _ _ AuthContext.isPublicRoute _
             AuthContext.initialCheck AuthContext.intervalCallback).
    + reflexivity.
    + intros path. apply nested_match_allow_list.
    + reflexivity.
    + intros cl c Hcl Hflag. cbn. rewrite Hcl. cbn.
      unfold AuthContext.setAuth, AuthContext.setState. rewrite Hflag. reflexivity.
    + intros cl c Hcl Hflag. cbn. rewrite Hcl. cbn.
      unfold AuthContext.setAuth, AuthContext.setState. rewrite Hflag. reflexivity.
Qed.

(** C3: the redirect does not always follow the allow-list.  In the second
    revision of auth-provider.tsx and in auth.context.tsx the interval
    callback tests the pathname of the render that started it, not the
    pathname the tab is on.  A signed-in tab on /profile whose periodic
    check is still in flight when the user moves to /register, or to /,
    both on the allow-list, pushes /login from there when the check answers
    "not authenticated": the flag is cleared and /login is the one push. *)
Theorem stale_periodic_check_redirects_on_allow_list :
  let routes := ["/login"; "/register"; "/"] in
  let v2 path :=
    client (Fixtures.leavesProfile providerV2 path (Responded 200 (Some false))) in
  let ctx path := client (Fixtures.leavesProfile authContext path (Ok false)) in
  (onAllowList routes true "/register" /\ onAllowList routes true "/") /\
  (pathname (v2 "/register") = "/register" /\
   isAuthenticated (v2 "/register") = false /\
   pushed (v2 "/register") = ["/login"]) /\
  (pathname (v2 "/") = "/" /\
   isAuthenticated (v2 "/") = false /\
   pushed (v2 "/") = ["/login"]) /\
  (pathname (ctx "/register") = "/register" /\
   isAuthenticated (ctx "/register") = false /\
   pushed (ctx "/register") = ["/login"]) /\
  (pathname (ctx "/") = "/" /\
   isAuthenticated (ctx "/") = false /\
   pushed (ctx "/") = ["/login"]).
Proof.
  intros routes v2 ctx. split.
  - split.
    + exists "/register". split; [cbn; auto | left; reflexivity].
    + exists "/". split; [cbn; auto | left; reflexivity].
  - repeat split; vm_compute; reflexivity.
Qed.

End GuardFacts.

(** ** Reconciliation: responses that arrive out of order *)

Section ReconcileFacts.
Import Js React Session.

Lemma startCheck_inflight {A} (P : Provider A) (b : bool) (s : State) (k : Check) :
  In k (inflight s) -> In k (inflight (startCheck P b s)).
Proof.
  unfold startCheck. destruct (statusEffect P); cbn; [|auto].
  intros H. apply in_or_app. left. exact H.
Qed.

(** Tearing the effects down and setting them up again cancels nothing. *)
Lemma settle_inflight {A} (P : Provider A) (s : State) (k : Check) :
  In k (inflight s) -> In k (inflight (settle P s)).
Proof.
  unfold settle. destruct (closure_eqb _ _); [auto|].
  unfold runEffects. cbn [inflight]. intros H.
  apply startCheck_inflight. exact H.
Qed.

Lemma nothing_cancelled {A} (P : Provider A) (s : State) (e : Event A) (k : Check) :
  In k (inflight s) ->
  (forall a, e <> Resolve (seq k) a) ->
  In k (inflight (step P e s)).
Proof.
  intros Hin Hother. destruct e as [|n a|v|path]; cbn [step].
  - apply startCheck_inflight. exact Hin.
  - destruct (findCheck n (inflight s)) as [k'|]; [|exact Hin].
    destruct (statusEffect P) as [[onInitial onInterval]|]; [|exact Hin].
    apply settle_inflight. cbn [inflight]. unfold dropCheck.
    apply filter_In. split; [exact Hin|].
    apply negb_true_iff, Nat.eqb_neq. intros Heq. apply (Hother a). congruence.
  - apply settle_inflight. exact Hin.
  - apply settle_inflight. exact Hin.
Qed.

Lemma settle_flag {A} (P : Provider A) (s : State) :
  (forall c, isAuthenticated (guard P c) = isAuthenticated c) ->
  isAuthenticated (client (settle P s)) = isAuthenticated (client s).
Proof.
  intros Hguard. unfold settle. destruct (closure_eqb _ _); [reflexivity|].
  rewrite runEffects_client. apply Hguard.
Qed.

Lemma guardV2_flag (c : Client) :
  isAuthenticated (AuthProviderV2.guardEffect c) = isAuthenticated c.
Proof. unfold AuthProviderV2.guardEffect. destruct (_ && _); reflexivity. Qed.

Lemma guardCtx_flag (c : Client) :
  isAuthenticated (AuthContext.guardEffect c) = isAuthenticated c.
Proof. unfold AuthContext.guardEffect. destruct (_ && _); reflexivity. Qed.

(** The flag after either callback of the second provider revision. *)
Lemma callbackV2_flag (per : bool) (cl : Closure) (v : bool) (c : Client) :
  isAuthenticated
    ((if per then AuthProviderV2.intervalCallback
      else AuthProviderV2.checkInitialStatus) cl (Responded 200 (Some v)) c)
  = if Bool.eqb v (c_isAuthenticated cl) then isAuthenticated c else v.
Proof.
  destruct per; cbn; destruct (Bool.eqb v (c_isAuthenticated cl)); cbn;
    try reflexivity.
  destruct v; [reflexivity|]. cbn.
  match goal with |- context [if ?b then push _ _ else _] => destruct b end;
    reflexivity.
Qed.

(** The flag after either callback of the auth context. *)
Lemma callbackCtx_flag (per : bool) (cl : Closure) (v : bool) (c : Client) :
  isAuthenticated
    ((if per then AuthContext.intervalCallback
      else AuthContext.initialCheck) cl (Ok v) c)
  = if Bool.eqb v (c_isAuthenticated cl) then isAuthenticated c else v.
Proof.
  unfold AuthContext.intervalCallback, AuthContext.initialCheck,
    AuthContext.setAuth, AuthContext.setState.
  destruct per, v, (c_isAuthenticated cl), c as [[|] bz op pn ps er]; cbn;
    try reflexivity;
    match goal with |- context [if ?b then push _ _ else _] => destruct b end;
    reflexivity.
Qed.

(** C4, as the code has it: neither provider discards or cancels a status
    check.  A check in flight stays in flight through every event but its
    own resolution (the interval firing, another check resolving, the
    effects being torn down and set up again), and when it resolves,
    whatever its age, its answer is compared with the flag of the render
    that started it: if they differ the flag becomes the answer, if not
    the flag is left as it is. *)
Theorem status_responses_apply_on_arrival :
  AppliesOnArrival providerV2 (fun v => Responded 200 (Some v)) /\
  AppliesOnArrival authContext Ok.
Proof.
  split; (split; [intros s e k; apply nothing_cancelled|]).
  - split; intros s n k v Hfind Hv; cbn [step]; rewrite Hfind; cbn [statusEffect providerV2];
      rewrite (settle_flag providerV2) by apply guardV2_flag;
      cbn [client]; rewrite callbackV2_flag.
    + destruct v, (c_isAuthenticated (closure k)); cbn; congruence.
    + rewrite Hv, eqb_reflx. reflexivity.
  - split; intros s n k v Hfind Hv; cbn [step]; rewrite Hfind; cbn [statusEffect authContext];
      rewrite (settle_flag authContext) by apply guardCtx_flag;
      cbn [client]; rewrite callbackCtx_flag.
    + destruct v, (c_isAuthenticated (closure k)); cbn; congruence.
    + rewrite Hv, eqb_reflx. reflexivity.
Qed.

End ReconcileFacts.

(** The older of two periodic checks resolving after the newer one, with
    the answer "not authenticated": the flag becomes [false]. *)
Lemma status_responses_apply_on_arrival_witness :
  Session.findCheck 1
    (Session.inflight
       (Session.step Session.providerV2
          (Session.Resolve 2 (React.Responded 200 (Some true)))
          Samples.twoChecksInFlight))
  = Some (Samples.periodicCheck 1) /\
  false <> React.c_isAuthenticated (Session.closure (Samples.periodicCheck 1)) /\
  React.isAuthenticated
    (Session.client
       (Session.step Session.providerV2
          (Session.Resolve 1 (React.Responded 200 (Some false)))
          (Session.step Session.providerV2
             (Session.Resolve 2 (React.Responded 200 (Some true)))
             Samples.twoChecksInFlight)))
  = false.
Proof.
  split; [reflexivity|]. split; [discriminate|].
  apply (proj1 (proj2 (proj1 status_responses_apply_on_arrival))
           _ 1 (Samples.periodicCheck 1) false).
  - reflexivity.
  - discriminate.
Defined.

(** C4, as stated, fails for both providers that poll: with two periodic
    checks in flight on /profile, the later one answering "authenticated"
    and then the earlier one answering "not authenticated", the stale
    answer clears the flag. *)
Lemma stale_status_response_overrides :
  ~ Session.DiscardsStale Session.providerV2 /\
  ~ Session.DiscardsStale Session.authContext.
Proof.
  split; intros H.
  - specialize (H Samples.twoChecksInFlight
                  (Samples.periodicCheck 1) (Samples.periodicCheck 2)
                  (React.Responded 200 (Some false))
                  (React.Responded 200 (Some true))).
    assert (Hgoal : false = true); [|discriminate Hgoal].
    apply H.
    + exists true, "/profile", [Session.Tick; Session.Tick]. reflexivity.
    + cbn. auto.
    + cbn. auto.
    + cbn. lia.
  - specialize (H Samples.twoChecksInFlightCtx
                  (Samples.periodicCheck 1) (Samples.periodicCheck 2)
                  (Js.Ok false) (Js.Ok true)).
    assert (Hgoal : false = true); [|discriminate Hgoal].
    apply H.
    + exists true, "/profile", [Session.Tick; Session.Tick]. reflexivity.
    + cbn. auto.
    + cbn. auto.
    + cbn. lia.
Qed.

(** ** The backend token core *)

Section BackendFacts.
Import Backend.
Variable sign : string -> Payload -> Z.
Variable key : string.

(** C8: a token issued for a subject with a time to live verifies, under
    the same key and at any time up to its expiry (in particular at the
    time of issue when the time to live is not negative), to that same
    subject. *)
Theorem verify_after_issue (now now' : Z) (sub : string) (ttl : Z) :
  (now' <= now + ttl)%Z ->
  verify sign key now' (issue sign key now sub ttl) = inl sub.
Proof.
  intros Hfresh. unfold verify, issue. cbn.
  rewrite bool_decide_eq_true_2 by reflexivity.
  rewrite bool_decide_eq_false_2 by lia.
  reflexivity.
Qed.

Lemma isRevoked_revoke (t : Token) (exp : Z) (store : gmap Token Z) :
  isRevoked t (revoke t exp store) = true.
Proof.
  unfold isRevoked, revoke. apply bool_decide_eq_true_2.
  destruct (store !! t) as [e|] eqn:Hlook.
  - rewrite Hlook. eauto.
  - rewrite lookup_insert_eq. eauto.
Qed.

(** C9: once a token has been revoked, [authenticate] on it fails with
    Unauthenticated, whatever the store held before and whatever the time;
    this also holds for a token that was issued and has not expired, for
    which [verify] alone still succeeds. *)
Theorem authenticate_after_revoke
        (store : gmap Token Z) (now : Z) (t : Token) (exp : Z) :
  authenticate sign key (revoke t exp store) now t = inr Unauthenticated /\
  (forall issued sub ttl,
      t = issue sign key issued sub ttl ->
      (now <= issued + ttl)%Z ->
      verify sign key now t = inl sub).
Proof.
  split.
  - unfold authenticate. destruct (verify sign key now t); [|reflexivity].
    rewrite isRevoked_revoke. reflexivity.
  - intros issued sub ttl -> Hfresh. unfold verify, issue. cbn.
    rewrite bool_decide_eq_true_2 by reflexivity.
    rewrite bool_decide_eq_false_2 by lia.
    reflexivity.
Qed.

End BackendFacts.

(** A one-hour token for user 42, verified ten seconds after issue. *)
Lemma verify_after_issue_witness :
  (1010 <= 1000 + 3600)%Z /\
  Backend.verify Samples.toySign "secret" 1010
    (Backend.issue Samples.toySign "secret" 1000 "42" 3600)
  = inl "42".
Proof.
  split; [lia|].
  apply (verify_after_issue Samples.toySign "secret" 1000 1010 "42" 3600). lia.
Defined.

(** The same token, revoked at logout and presented again. *)
Lemma authenticate_after_revoke_witness :
  Backend.authenticate Samples.toySign "secret"
    (Backend.revoke (Backend.issue Samples.toySign "secret" 1000 "42" 3600) 4600 ∅)
    1010 (Backend.issue Samples.toySign "secret" 1000 "42" 3600)
  = inr Backend.Unauthenticated /\
  Backend.verify Samples.toySign "secret" 1010
    (Backend.issue Samples.toySign "secret" 1000 "42" 3600)
  = inl "42".
Proof.
  destruct (authenticate_after_revoke Samples.toySign "secret" ∅ 1010
              (Backend.issue Samples.toySign "secret" 1000 "42" 3600) 4600)
    as [Hauth Hverify].
  split; [exact Hauth|].
  apply (Hverify 1000%Z "42" 3600%Z); [reflexivity | lia].
Defined.

(** * Further properties of the code *)

(** ** What the schemas accept *)

Section SchemaFacts.
Import Zod.
Variable emailRegex : string -> bool.

Lemma omap_nil_iff {A C} (f : A -> option C) (l : list A) :
  omap f l = [] <-> List.Forall (fun x => f x = None) l.
Proof.
  induction l as [|x l IH]; cbn.
  - split; [constructor | reflexivity].
  - rewrite List.Forall_cons_iff, <- IH. destruct (f x); cbn.
    + split; [discriminate | intros [H _]; discriminate].
    + tauto.
Qed.

(** A string field is valid exactly on a string that passes every check. *)
Lemma parseString_valid_iff (checks : list StringCheck) (key : string) (v : FormValue) :
  (parseString emailRegex checks key v).1.1 = valid
  <-> exists s, v = FString s
                /\ List.Forall (fun c => runCheck emailRegex s c = None) checks.
Proof.
  destruct v as [s| | |]; cbn;
    try (split; [discriminate | intros (s & H & _); discriminate]).
  assert (Hfmap : List.Forall (fun c => runCheck emailRegex s c = None) checks
                  <-> List.Forall
                        (fun c => mkIssue [key] <$> runCheck emailRegex s c = None)
                        checks).
  { apply Forall_iff. intros c. destruct (runCheck emailRegex s c); cbn.
    - split; discriminate.
    - tauto. }
  split.
  - intros H. exists s. split; [reflexivity|]. apply Hfmap.
    apply (omap_nil_iff (fun c => mkIssue [key] <$> runCheck emailRegex s c)).
    destruct (omap _ checks); [reflexivity | discriminate].
  - intros (s' & Heq & H). injection Heq as <-. apply Hfmap in H.
    apply (omap_nil_iff (fun c => mkIssue [key] <$> runCheck emailRegex s c)) in H.
    rewrite H. reflexivity.
Qed.

Lemma merge_valid (a b : ParseStatus) :
  merge a b = valid <-> a = valid /\ b = valid.
Proof. destruct a, b; cbn; split; try tauto; try discriminate; intros [? ?]; discriminate. Qed.

(** An object is valid exactly when every field of its shape is. *)
Lemma parseObject_valid_iff (sh : Shape) (data : gmap string FormValue) :
  (parseObject emailRegex sh data).1.1 = valid
  <-> List.Forall
        (fun kc => exists s,
             data !! kc.1 = Some (FString s)
             /\ List.Forall (fun c => runCheck emailRegex s c = None) kc.2)
        sh.
Proof.
  induction sh as [|[k checks] rest IH]; cbn [parseObject].
  - split; [constructor | reflexivity].
  - pose proof (parseString_valid_iff checks k (default FUndefined (data !! k))) as Hs.
    destruct (parseString emailRegex checks k _) as [[st1 is1] out1].
    destruct (parseObject emailRegex rest data) as [[st2 is2] out2].
    cbn [fst snd] in *.
    rewrite merge_valid, List.Forall_cons_iff, Hs, IH. cbn [fst snd].
    split; intros [(s & Hv & Hc) Hrest]; (split; [|exact Hrest]); exists s;
      (split; [|exact Hc]).
    + destruct (data !! k) as [v|]; cbn in Hv; congruence.
    + rewrite Hv. reflexivity.
Qed.

(** [safeParse] succeeds exactly on a valid object that passes the
    refinement, if there is one. *)
Lemma safeParse_inl_iff (sch : Schema) (data : gmap string FormValue) :
  (exists out, safeParse emailRegex sch data = inl out)
  <-> (parseObject emailRegex (shape sch) data).1.1 = valid
      /\ match refinement sch with
         | Some (pred, _) => pred (parseObject emailRegex (shape sch) data).2 = true
         | None => True
         end.
Proof.
  unfold safeParse, parseSchema.
  destruct (parseObject emailRegex (shape sch) data) as [[st issues] out].
  cbn [fst snd].
  destruct (refinement sch) as [[pred issue]|]; destruct st;
    try destruct (pred out);
    (split;
     [ intros [o H];
       first [ discriminate H
             | split; first [reflexivity | exact I] ]
     | intros [H1 H2];
       first [ discriminate H1 | discriminate H2 | eauto ] ]).
Qed.

Lemma min_passes (s : string) (n : nat) (msg : string) :
  runCheck emailRegex s (min n msg) = None <-> n <= String.length s.
Proof.
  unfold runCheck. destruct (String.length s <? n)%nat eqn:H.
  - apply Nat.ltb_lt in H. split; [discriminate | lia].
  - apply Nat.ltb_ge in H. tauto.
Qed.

Lemma max_passes (s : string) (n : nat) (msg : string) :
  runCheck emailRegex s (max n msg) = None <-> String.length s <= n.
Proof.
  unfold runCheck. destruct (n <? String.length s)%nat eqn:H.
  - apply Nat.ltb_lt in H. split; [discriminate | lia].
  - apply Nat.ltb_ge in H. tauto.
Qed.

Lemma email_passes (s msg : string) :
  runCheck emailRegex s (email msg) = None <-> emailRegex s = true.
Proof. cbn. destruct (emailRegex s); split; congruence. Qed.

Lemma regex_passes (re : string -> bool) (s msg : string) :
  runCheck emailRegex s (regex re msg) = None <-> re s = true.
Proof. cbn. destruct (re s); split; congruence. Qed.

(** [safeParse] success in terms of the fields alone, checks spelled out. *)
Ltac spell_schema :=
  rewrite safeParse_inl_iff; cbn [shape refinement];
  rewrite parseObject_valid_iff;
  repeat rewrite List.Forall_cons_iff; rewrite List.Forall_nil_iff;
  cbn [fst snd];
  repeat setoid_rewrite List.Forall_cons_iff;
  repeat setoid_rewrite List.Forall_nil_iff;
  repeat setoid_rewrite min_passes;
  repeat setoid_rewrite max_passes;
  repeat setoid_rewrite email_passes;
  repeat setoid_rewrite regex_passes.

(** The login schemas accept exactly: in the first revision a string
    e-mail that matches the pattern and a string password of at least 6
    characters; in schemas/auth.ts the password must in addition be at most
    100 characters long (its [min(1)] on the e-mail asks for a non-empty
    string). *)
Theorem login_schemas_accept (email password : FormValue) :
  ((exists out,
       safeParse emailRegex ActionsV1.loginSchema
         (<["email" := email]> (<["password" := password]> ∅)) = inl out)
   <-> exists e p,
         email = FString e /\ password = FString p /\
         emailRegex e = true /\ 6 <= String.length p) /\
  ((exists out,
       safeParse emailRegex Schemas.loginSchema
         (<["email" := email]> (<["password" := password]> ∅)) = inl out)
   <-> exists e p,
         email = FString e /\ password = FString p /\
         emailRegex e = true /\ 1 <= String.length e /\
         6 <= String.length p /\ String.length p <= 100).
Proof.
  split.
  - unfold ActionsV1.loginSchema. spell_schema.
    rewrite lookup_insert_eq, lookup_insert_ne by done. rewrite lookup_insert_eq.
    split.
    + intros [[(e & [= ->] & He & _) [(p & [= ->] & Hp & _) _]] _]. eauto 10.
    + intros (e & p & -> & -> & He & Hp). split; [|exact I].
      split; [eauto|]. split; [eauto | exact I].
  - unfold Schemas.loginSchema. spell_schema.
    rewrite lookup_insert_eq, lookup_insert_ne by done. rewrite lookup_insert_eq.
    split.
    + intros [[(e & [= ->] & He & He1 & _) [(p & [= ->] & Hp & Hp1 & _) _]] _].
      eauto 10.
    + intros (e & p & -> & -> & He & He1 & Hp & Hp1). split; [|exact I].
      split; [eauto 10|]. split; [eauto 10 | exact I].
Qed.

(** Validity of an object, checks spelled out. *)
Ltac spell_valid :=
  rewrite parseObject_valid_iff;
  repeat rewrite List.Forall_cons_iff; rewrite List.Forall_nil_iff;
  cbn [fst snd];
  repeat setoid_rewrite List.Forall_cons_iff;
  repeat setoid_rewrite List.Forall_nil_iff;
  repeat setoid_rewrite min_passes;
  repeat setoid_rewrite max_passes;
  repeat setoid_rewrite email_passes;
  repeat setoid_rewrite regex_passes.

Lemma registerData_lookups (u e p c : FormValue) :
  Actions.registerData u e p c !! "username" = Some u
  /\ Actions.registerData u e p c !! "email" = Some e
  /\ Actions.registerData u e p c !! "password" = Some p
  /\ Actions.registerData u e p c !! "confirmPassword" = Some c.
Proof.
  unfold Actions.registerData. split; [|split; [|split]].
  - apply lookup_insert_eq.
  - rewrite lookup_insert_ne by done. apply lookup_insert_eq.
  - rewrite !lookup_insert_ne by done. apply lookup_insert_eq.
  - rewrite !lookup_insert_ne by done. apply lookup_insert_eq.
Qed.

(** On a valid registration object the refinement holds exactly when the
    confirmation is the password. *)
Lemma passwordsMatch_valid (sh : Shape) (u e : FormValue) (p c : string) :
  In "password" (map fst sh) -> In "confirmPassword" (map fst sh) ->
  (parseObject emailRegex sh
     (Actions.registerData u e (FString p) (FString c))).1.1 = valid ->
  Schemas.passwordsMatch
    (parseObject emailRegex sh
       (Actions.registerData u e (FString p) (FString c))).2 = true
  <-> c = p.
Proof.
  intros Hp Hc Hv.
  destruct (registerData_lookups u e (FString p) (FString c)) as (_ & _ & Lp & Lc).
  destruct (parseObject_lookup emailRegex sh
              (Actions.registerData u e (FString p) (FString c)) "password" Hp)
    as (s1 & Hd1 & Ho1); [rewrite Hv; discriminate|].
  destruct (parseObject_lookup emailRegex sh
              (Actions.registerData u e (FString p) (FString c))
              "confirmPassword" Hc)
    as (s2 & Hd2 & Ho2); [rewrite Hv; discriminate|].
  unfold Schemas.passwordsMatch. rewrite Ho1, Ho2. cbn.
  rewrite Lp in Hd1. rewrite Lc in Hd2.
  injection Hd1 as <-. injection Hd2 as <-.
  rewrite String.eqb_eq. split; congruence.
Qed.

(** The registration schemas accept exactly: a string user name of at
    least 3 characters (in schemas/auth.ts also at most 50, all of them
    letters, digits or underscores), a string e-mail that matches the
    pattern (in schemas/auth.ts also non-empty), a string password of at
    least 6 characters (in schemas/auth.ts also at most 100), and a
    confirmation that is the very same string. *)
Theorem register_schemas_accept (username email password confirmPassword : FormValue) :
  ((exists out,
       safeParse emailRegex ActionsV1.registerSchema
         (Actions.registerData username email password confirmPassword) = inl out)
   <-> exists u e p,
         username = FString u /\ email = FString e /\
         password = FString p /\ confirmPassword = FString p /\
         3 <= String.length u /\ emailRegex e = true /\ 6 <= String.length p) /\
  ((exists out,
       safeParse emailRegex Schemas.registerSchema
         (Actions.registerData username email password confirmPassword) = inl out)
   <-> exists u e p,
         username = FString u /\ email = FString e /\
         password = FString p /\ confirmPassword = FString p /\
         3 <= String.length u /\ String.length u <= 50 /\ wordRegex u = true /\
         emailRegex e = true /\ 1 <= String.length e /\
         6 <= String.length p /\ String.length p <= 100).
Proof.
  destruct (registerData_lookups username email password confirmPassword)
    as (Lu & Le & Lp & Lc).
  split.
  - rewrite safeParse_inl_iff. unfold ActionsV1.registerSchema. cbn [shape refinement].
    split.
    + intros [Hv Hm]. pose proof Hv as Hv'. revert Hv'. spell_valid.
      rewrite Lu, Le, Lp, Lc.
      intros [(u & [= ->] & Hu & _) [(e & [= ->] & He & _)
                [(p & [= ->] & Hp & _) [(c & [= ->] & _) _]]]].
      apply passwordsMatch_valid in Hm; [| cbn; tauto | cbn; tauto | exact Hv].
      subst c. exists u, e, p. tauto.
    + intros (u & e & p & -> & -> & -> & -> & Hu & He & Hp).
      assert (Hv : (parseObject emailRegex
                      [("username", [min 3 "用户名长度至少为3个字符"]);
                       ("email", [email "请输入有效的邮箱地址"]);
                       ("password", [min 6 "密码长度至少为6个字符"]);
                       ("confirmPassword", [])]
                      (Actions.registerData (FString u) (FString e)
                                            (FString p) (FString p))).1.1 = valid).
      { spell_valid. rewrite Lu, Le, Lp, Lc.
        repeat split; try exact I; eexists; (split; [reflexivity|]); tauto. }
      split; [exact Hv|].
      apply passwordsMatch_valid; [cbn; tauto | cbn; tauto | exact Hv | reflexivity].
  - rewrite safeParse_inl_iff. unfold Schemas.registerSchema. cbn [shape refinement].
    split.
    + intros [Hv Hm]. pose proof Hv as Hv'. revert Hv'. spell_valid.
      rewrite Lu, Le, Lp, Lc.
      intros [(u & [= ->] & Hu & Hu1 & Hu2 & _) [(e & [= ->] & He & He1 & _)
                [(p & [= ->] & Hp & Hp1 & _) [(c & [= ->] & _) _]]]].
      apply passwordsMatch_valid in Hm; [| cbn; tauto | cbn; tauto | exact Hv].
      subst c. exists u, e, p. tauto.
    + intros (u & e & p & -> & -> & -> & -> & Hu & Hu1 & Hu2 & He & He1 & Hp & Hp1).
      assert (Hv : (parseObject emailRegex
                      [("username", [min 3 "用户名长度至少为3个字符";
                                     max 50 "用户名长度不能超过50个字符";
                                     regex wordRegex "用户名只能包含字母、数字和下划线"]);
                       ("email", [email "请输入有效的邮箱地址"; min 1 "邮箱不能为空"]);
                       ("password", [min 6 "密码长度至少为6个字符";
                                     max 100 "密码长度不能超过100个字符"]);
                       ("confirmPassword", [min 1 "请确认密码"])]
                      (Actions.registerData (FString u) (FString e)
                                            (FString p) (FString p))).1.1 = valid).
      { spell_valid. rewrite Lu, Le, Lp, Lc.
        assert (1 <= String.length p) by lia.
        repeat split; try exact I; eexists; (split; [reflexivity|]); tauto. }
      split; [exact Hv|].
      apply passwordsMatch_valid; [cbn; tauto | cbn; tauto | exact Hv | reflexivity].
Qed.

End SchemaFacts.

(** ** Login and register: when the backend is contacted *)

Section ActionFacts.
Import Js Zod Server Validation Actions Revisions ActionTerms.
Context {B : Type} {sdk : Sdk B}.
Variable emailRegex : string -> bool.

Lemma loginOf_unfold (revision : bool) (fd : gmap string FormValue) (w : World B) :
  loginOf emailRegex revision fd w
  = match safeParse emailRegex (loginSchemaOf revision)
            (<["email" := formGet fd "email"]>
               (<["password" := formGet fd "password"]> ∅)) with
    | inl _ =>
        try_catch (loginRequest (formGet fd "email") (formGet fd "password"))
                  loginCatch w
    | inr issues => (Ok (mkState (Some (firstMessage issues)) false), w)
    end.
Proof.
  destruct revision; cbn [loginOf loginSchemaOf].
  - unfold ActionsV2.login, validateFormData, try_catch.
    destruct (safeParse emailRegex Schemas.loginSchema _); reflexivity.
  - unfold ActionsV1.login, try_catch.
    destruct (safeParse emailRegex ActionsV1.loginSchema _); reflexivity.
Qed.

(** [login] contacts the backend exactly when the form passes the schema,
    and then exactly once, with the e-mail of the form as [username]; a
    form that fails the schema is answered with its first issue and the
    world is left as it was. *)
Theorem login_contacts_backend_iff_valid
        (revision : bool) (fd : gmap string FormValue) (w : World B) :
  ((exists out,
       safeParse emailRegex (loginSchemaOf revision)
         (<["email" := formGet fd "email"]>
            (<["password" := formGet fd "password"]> ∅)) = inl out) ->
   calls (snd (loginOf emailRegex revision fd w))
   = (calls w
      ++ [CallLogin (mkLoginBody (formGet fd "email") (formGet fd "password"))])%list) /\
  (forall issues,
      safeParse emailRegex (loginSchemaOf revision)
        (<["email" := formGet fd "email"]>
           (<["password" := formGet fd "password"]> ∅)) = inr issues ->
      loginOf emailRegex revision fd w
      = (Ok (mkState (Some (firstMessage issues)) false), w)).
Proof.
  rewrite loginOf_unfold. split.
  - intros [out ->]. rewrite loginRequest_guarded. cbn zeta.
    destruct (loginAccessToken _ (backend w)) as [[[[d|]] | e] b'].
    + destruct (requestScope w); [reflexivity|].
      destruct (loginCatch_spec
                  (ErrorObj "cookies was called outside a request scope")
                  (afterLoginCall
                     (mkLoginBody (formGet fd "email") (formGet fd "password")) b' w))
        as (msg & w' & -> & _ & Hcalls).
      exact Hcalls.
    + reflexivity.
    + destruct (loginCatch_spec e
                  (afterLoginCall
                     (mkLoginBody (formGet fd "email") (formGet fd "password")) b' w))
        as (msg & w' & -> & _ & Hcalls).
      exact Hcalls.
  - intros issues ->. reflexivity.
Qed.

Lemma registerOf_unfold (revision : bool) (fd : gmap string FormValue) (w : World B) :
  registerOf emailRegex revision fd w
  = match safeParse emailRegex (registerSchemaOf revision)
            (registerData (formGet fd "username") (formGet fd "email")
                          (formGet fd "password") (formGet fd "confirmPassword")) with
    | inl _ =>
        try_catch (registerRequest (formGet fd "username") (formGet fd "email")
                                   (formGet fd "password"))
                  registerCatch w
    | inr issues => (Ok (mkState (Some (firstMessage issues)) false), w)
    end.
Proof.
  destruct revision; cbn [registerOf registerSchemaOf].
  - unfold ActionsV2.register, validateFormData, try_catch.
    destruct (safeParse emailRegex Schemas.registerSchema _); reflexivity.
  - unfold ActionsV1.register, try_catch.
    destruct (safeParse emailRegex ActionsV1.registerSchema _); reflexivity.
Qed.

Lemma registerRequest_guarded (username email password : FormValue) (w : World B) :
  try_catch (registerRequest username email password) registerCatch w
  = let body := mkRegisterBody email username password in
    match registerUser body (backend w) with
    | (Ok _, b') => (Ok (mkState None true), afterRegisterCall body b' w)
    | (Throw e, b') =>
        (Ok (mkState (Some (registerFailure e)) false),
         snd (console_error "注册失败:" (afterRegisterCall body b' w)))
    end.
Proof.
  unfold try_catch, registerRequest, bind, call, afterRegisterCall. cbn zeta.
  destruct (registerUser _ (backend w)) as [[[]|e] b']; [reflexivity|].
  unfold registerCatch, registerFailure, bind, console_error, ret. cbn.
  destruct (instanceofError e); [|reflexivity].
  destruct (includes (Js.message e) "email" && includes (Js.message e) "already");
    [reflexivity|].
  destruct (includes (Js.message e) "username" && includes (Js.message e) "already");
    reflexivity.
Qed.

(** [register] always returns a state and never touches the cookie jar (a
    registration does not sign the user in); it succeeds exactly when the
    form passes the schema and the backend call resolves; and it contacts
    the backend exactly when the form passes the schema, once, with the
    e-mail, user name and password of the form and without the
    confirmation. *)
Theorem register_outcome
        (revision : bool) (fd : gmap string FormValue) (w : World B) :
  exists st w',
    registerOf emailRegex revision fd w = (Ok st, w') /\
    jar w' = jar w /\
    (success st = true
     <-> (exists out,
             safeParse emailRegex (registerSchemaOf revision)
               (registerData (formGet fd "username") (formGet fd "email")
                             (formGet fd "password") (formGet fd "confirmPassword"))
             = inl out)
         /\ exists b',
             registerUser (mkRegisterBody (formGet fd "email") (formGet fd "username")
                                          (formGet fd "password")) (backend w)
             = (Ok tt, b')) /\
    ((exists out,
         safeParse emailRegex (registerSchemaOf revision)
           (registerData (formGet fd "username") (formGet fd "email")
                         (formGet fd "password") (formGet fd "confirmPassword"))
         = inl out) ->
     calls w'
     = (calls w
        ++ [CallRegister (mkRegisterBody (formGet fd "email") (formGet fd "username")
                                         (formGet fd "password"))])%list) /\
    ((forall out,
         safeParse emailRegex (registerSchemaOf revision)
           (registerData (formGet fd "username") (formGet fd "email")
                         (formGet fd "password") (formGet fd "confirmPassword"))
         <> inl out) ->
     w' = w).
Proof.
  rewrite registerOf_unfold.
  destruct (safeParse emailRegex (registerSchemaOf revision) _) as [out | issues].
  - rewrite registerRequest_guarded. cbn zeta.
    destruct (registerUser _ (backend w)) as [[[]|e] b'] eqn:Hcall.
    + do 2 eexists. split; [reflexivity|]. split; [reflexivity|].
      split; [split; [eauto | reflexivity]|].
      split; [reflexivity|]. intros Hno. destruct (Hno out eq_refl).
    + do 2 eexists. split; [reflexivity|]. split; [reflexivity|].
      split; [split; [discriminate | intros [_ [b2 Hb]]; discriminate]|].
      split; [reflexivity|]. intros Hno. destruct (Hno out eq_refl).
  - do 2 eexists. split; [reflexivity|]. split; [reflexivity|].
    split; [split; [discriminate | intros [[o Ho] _]; discriminate]|].
    split; [intros [o Ho]; discriminate | reflexivity].
Qed.

(** When the backend rejects a registration with an [Error] whose message
    contains both "email" and "already", [register] reports the e-mail as
    taken, also when the message names the user name as well. *)
Theorem register_reports_email_taken_first
        (revision : bool) (fd : gmap string FormValue) (w : World B)
        (out : gmap string string) (m : string) (b' : B) :
  safeParse emailRegex (registerSchemaOf revision)
    (registerData (formGet fd "username") (formGet fd "email")
                  (formGet fd "password") (formGet fd "confirmPassword")) = inl out ->
  registerUser (mkRegisterBody (formGet fd "email") (formGet fd "username")
                               (formGet fd "password")) (backend w)
  = (Throw (ErrorObj m), b') ->
  includes m "email" = true ->
  includes m "already" = true ->
  fst (registerOf emailRegex revision fd w)
  = Ok (mkState (Some "该邮箱已被注册") false).
Proof.
  intros Hparse Hcall Hemail Halready.
  rewrite registerOf_unfold, Hparse, registerRequest_guarded. cbn zeta.
  rewrite Hcall. cbn. unfold registerFailure. cbn. rewrite Hemail, Halready.
  reflexivity.
Qed.

End ActionFacts.

(** A well-formed registration against a backend that answers "username
    or email already registered". *)
Lemma register_reports_email_taken_first_witness :
  fst (Revisions.registerOf (sdk := Fixtures.duplicateSdk) Samples.simpleEmail true
         (Samples.registerForm "ann" "ann@example.com" "secret1" "secret1")
         Samples.emptyWorld)
  = Js.Ok (Validation.mkState (Some "该邮箱已被注册") false).
Proof.
  eapply (register_reports_email_taken_first
            (sdk := Fixtures.duplicateSdk) Samples.simpleEmail true
            (Samples.registerForm "ann" "ann@example.com" "secret1" "secret1")
            Samples.emptyWorld _ "username or email already registered" 1).
  - vm_compute. reflexivity.
  - reflexivity.
  - reflexivity.
  - reflexivity.
Defined.

(** ** The server-side logout paths and the token accessors *)

Section ServerLogoutFacts.
Import Js Server.
Context {B : Type} {sdk : Sdk B}.

(** The [logout] action calls the backend exactly when the cookie holds a
    non-empty token, once, with that token as bearer; where the cookie
    store cannot be reached it does not redirect but throws what the
    store threw, and changes neither the jar nor the backend. *)
Theorem logout_action_backend_calls (w : World B) :
  (requestScope w = true ->
   calls (snd (Actions.logout w))
   = (calls w
      ++ match value <$> jar w !! "auth-token" with
         | Some t => if truthy t then [CallLogout ("Bearer " ++ t)] else []
         | None => []
         end)%list) /\
  (requestScope w = false ->
   exists e w',
     Actions.logout w = (Throw e, w') /\
     fst (cookies w) = Throw e /\
     (forall url, e <> NextRedirect url) /\
     jar w' = jar w /\ backend w' = backend w /\ calls w' = calls w).
Proof.
  split; intros Hscope;
    unfold Actions.logout, try_finally, try_catch, bind, cookies, cookie_get;
    rewrite Hscope; cbn.
  - destruct (jar w !! "auth-token") as [c|]; cbn.
    + destruct (truthy (value c)); cbn.
      * unfold call. destruct (apiLogout _ (backend w)) as [[[]|e] b']; cbn;
          rewrite ?Hscope; reflexivity.
      * rewrite Hscope. cbn. symmetry. apply app_nil_r.
    + rewrite Hscope. cbn. symmetry. apply app_nil_r.
  - rewrite Hscope. do 2 eexists. split; [reflexivity|].
    split; [reflexivity|]. split; [discriminate | auto].
Qed.

(** [getAuthToken] and [checkAuthStatus] agree: the status is [true]
    exactly when a token is returned; the token returned is never the
    empty string and is the value of the cookie; neither contacts the
    backend or changes the jar. *)
Theorem getAuthToken_agrees_with_status (w : World B) :
  exists tok,
    fst (TokenAccess.getAuthToken w) = Ok tok /\
    fst (Actions.checkAuthStatus w) = Ok (bool_decide (is_Some tok)) /\
    tok <> Some "" /\
    (forall t, tok = Some t ->
               requestScope w = true /\ value <$> jar w !! "auth-token" = Some t) /\
    jar (snd (TokenAccess.getAuthToken w)) = jar w /\
    calls (snd (TokenAccess.getAuthToken w)) = calls w /\
    backend (snd (TokenAccess.getAuthToken w)) = backend w.
Proof.
  unfold TokenAccess.getAuthToken, Actions.checkAuthStatus, try_catch, bind,
    cookies, cookie_get.
  destruct (requestScope w); cbn.
  - destruct (jar w !! "auth-token") as [c|]; cbn.
    + destruct (truthy (value c)) eqn:Ht; cbn.
      * eexists. split; [reflexivity|]. split; [reflexivity|].
        split; [|split; [|auto]].
        -- intros [= Hv]. rewrite Hv in Ht. discriminate.
        -- intros t [= <-]. auto.
      * eexists. split; [reflexivity|]. split; [reflexivity|].
        split; [discriminate|]. split; [discriminate | auto].
    + eexists. split; [reflexivity|]. split; [reflexivity|].
      split; [discriminate|]. split; [discriminate | auto].
  - eexists. split; [reflexivity|]. split; [reflexivity|].
    split; [discriminate|]. split; [discriminate | auto].
Qed.

(** The first revision of the logout route: if the backend call throws,
    the handler answers 500 and the cookie stays in the jar; in every
    other case inside a request it answers 200 and the cookie is gone. *)
Theorem logout_route_v1_keeps_cookie_on_backend_failure (w : World B) :
  requestScope w = true ->
  (forall t e b',
      value <$> jar w !! "auth-token" = Some t -> truthy t = true ->
      apiLogout ("Bearer " ++ t) (backend w) = (Throw e, b') ->
      fst (RoutesV1.POST w)
      = Ok (Routes.mkLogoutResponse 500 false None (Some "登出失败"))
      /\ jar (snd (RoutesV1.POST w)) = jar w) /\
  ((truthyOpt (value <$> jar w !! "auth-token") = false
    \/ exists t b',
        value <$> jar w !! "auth-token" = Some t
        /\ apiLogout ("Bearer " ++ t) (backend w) = (Ok tt, b')) ->
   fst (RoutesV1.POST w) = Ok (Routes.mkLogoutResponse 200 true None None)
   /\ jar (snd (RoutesV1.POST w)) = delete "auth-token" (jar w)).
Proof.
  intros Hscope.
  unfold RoutesV1.POST, try_catch, bind, cookies, cookie_get. rewrite Hscope. cbn.
  split.
  - intros t e b' Htok Ht Hcall.
    destruct (jar w !! "auth-token") as [c|]; cbn in *; [|discriminate].
    injection Htok as ->. rewrite Ht. unfold call. rewrite Hcall. cbn. auto.
  - intros [Hnone | (t & b' & Htok & Hcall)].
    + destruct (jar w !! "auth-token") as [c|]; cbn in *; [|auto].
      rewrite Hnone. cbn. auto.
    + destruct (jar w !! "auth-token") as [c|]; cbn in *; [|discriminate].
      injection Htok as ->. destruct (truthy t); cbn; [|auto].
      unfold call. rewrite Hcall. cbn. auto.
Qed.

End ServerLogoutFacts.

(** A signed-in request against a backend that is down. *)
Lemma logout_route_v1_keeps_cookie_on_backend_failure_witness :
  fst (RoutesV1.POST (sdk := Samples.failingSdk) Samples.loggedInWorld)
  = Js.Ok (Routes.mkLogoutResponse 500 false None (Some "登出失败"))
  /\ Server.jar (snd (RoutesV1.POST (sdk := Samples.failingSdk) Samples.loggedInWorld))
     = Server.jar Samples.loggedInWorld.
Proof.
  apply (proj1 (logout_route_v1_keeps_cookie_on_backend_failure
                  (sdk := Samples.failingSdk) Samples.loggedInWorld eq_refl)
               "token-1" (Js.ErrorObj "fetch failed") 0);
    reflexivity.
Defined.

(** ** The auth store: who is told about a change *)

Section AuthStoreFacts.
Import AuthStore.

Lemma existsb_eqb_In (x : nat) (l : list nat) :
  existsb (Nat.eqb x) l = true <-> In x l.
Proof.
  rewrite existsb_exists. split.
  - intros (y & Hin & Heq). apply Nat.eqb_eq in Heq. congruence.
  - intros Hin. exists x. split; [exact Hin | apply Nat.eqb_refl].
Qed.

Lemma apply_NoDup (o : Op) (s : Store) :
  List.NoDup (listeners s) -> List.NoDup (listeners (apply o s)).
Proof.
  intros Hnd. destruct o as [l|l|v]; cbn.
  - unfold subscribe. destruct (existsb (Nat.eqb l) (listeners s)) eqn:Hex;
      [exact Hnd|]. cbn.
    apply List.NoDup_app; [exact Hnd | repeat constructor; intros [] |].
    intros x Hx [<- | []].
    apply existsb_eqb_In in Hx. congruence.
  - apply List.NoDup_filter. exact Hnd.
  - unfold setState. destruct (negb _); exact Hnd.
Qed.

(** One call keeps the account of who is subscribed. *)
Lemma apply_tracks (o : Op) (s : Store) (l : nat) (b : bool) :
  (In l (listeners s) <-> b = true) ->
  In l (listeners (apply o s))
  <-> match o with
      | Subscribe l' => if Nat.eqb l' l then true else b
      | Unsubscribe l' => if Nat.eqb l' l then false else b
      | SetState _ => b
      end = true.
Proof.
  intros Hb. destruct o as [l'|l'|v]; cbn.
  - unfold subscribe.
    destruct (existsb (Nat.eqb l') (listeners s)) eqn:Hex; cbn.
    + destruct (Nat.eqb l' l) eqn:Heq; [|exact Hb].
      apply Nat.eqb_eq in Heq. subst l'. apply existsb_eqb_In in Hex. tauto.
    + rewrite in_app_iff. cbn.
      destruct (Nat.eqb l' l) eqn:Heq.
      * apply Nat.eqb_eq in Heq. tauto.
      * apply Nat.eqb_neq in Heq. rewrite Hb. tauto.
  - rewrite filter_In, negb_true_iff, Nat.eqb_neq.
    destruct (Nat.eqb l' l) eqn:Heq.
    + apply Nat.eqb_eq in Heq. split; [intros [_ H]; congruence | discriminate].
    + apply Nat.eqb_neq in Heq. rewrite Hb. split; [tauto | intros H; split; congruence].
  - unfold setState. destruct (negb _); exact Hb.
Qed.

Lemma run_invariant (ops : list Op) (s : Store) (l : nat) (b : bool) :
  List.NoDup (listeners s) ->
  (In l (listeners s) <-> b = true) ->
  List.NoDup (listeners (run ops s))
  /\ (In l (listeners (run ops s))
      <-> fold_left
            (fun b o =>
               match o with
               | Subscribe l' => if Nat.eqb l' l then true else b
               | Unsubscribe l' => if Nat.eqb l' l then false else b
               | SetState _ => b
               end)
            ops b = true).
Proof.
  revert s b. induction ops as [|o ops IH]; intros s b Hnd Hb; cbn.
  - split; assumption.
  - apply IH; [apply apply_NoDup; exact Hnd | apply apply_tracks; exact Hb].
Qed.

Lemma authstore_tracks_subscriptions_aux
      (initialState : bool) (ops : list Op) (listener : nat) :
  List.NoDup (listeners (run ops (create initialState)))
  /\ (In listener (listeners (run ops (create initialState)))
      <-> subscribedAfter listener ops = true).
Proof.
  apply run_invariant; cbn.
  - constructor.
  - split; [intros [] | discriminate].
Qed.

(** Through any sequence of [subscribe], unsubscribe and [setState] calls
    on a fresh store, the store holds each listener at most once, and holds
    exactly the listeners whose last subscription has not been undone. *)
Theorem authstore_tracks_subscriptions
        (initialState : bool) (ops : list Op) (listener : nat) :
  List.NoDup (listeners (run ops (create initialState)))
  /\ (In listener (listeners (run ops (create initialState)))
      <-> subscribedAfter listener ops = true).
Proof. apply authstore_tracks_subscriptions_aux. Qed.

(** On such a store, [setState] with a value other than the current one
    calls every subscribed listener exactly once and nobody else; with the
    current value it calls nobody; either way the state read back is the
    value set. *)
Theorem authstore_notifies_subscribers_once
        (initialState : bool) (ops : list Op) (newState : bool) (listener : nat) :
  count_occ Nat.eq_dec
    (notified (setState newState (run ops (create initialState)))) listener
  = count_occ Nat.eq_dec (notified (run ops (create initialState))) listener
    + (if negb (Bool.eqb (state (run ops (create initialState))) newState)
          && subscribedAfter listener ops
       then 1 else 0)
  /\ getState (setState newState (run ops (create initialState))) = newState.
Proof.
  destruct (authstore_tracks_subscriptions_aux initialState ops listener)
    as [Hnd Hin].
  unfold setState, getState.
  destruct (Bool.eqb (state (run ops (create initialState))) newState) eqn:Heq; cbn.
  - split; [lia | apply Bool.eqb_prop in Heq; exact Heq].
  - split; [|reflexivity].
    rewrite count_occ_app. f_equal.
    destruct (subscribedAfter listener ops) eqn:Hsub.
    + apply NoDup_count_occ'; [exact Hnd | apply Hin; reflexivity].
    + apply count_occ_not_In. intros H. apply Hin in H. discriminate.
Qed.

End AuthStoreFacts.

(** ** The provider revisions of components/auth-provider.tsx: logout *)

Section ProviderLogoutFacts.
Import React.

(** In both revisions of auth-provider.tsx a logout that is not refused
    ends with [loading] reset; it clears the flag and pushes /login when
    the response is OK, and otherwise leaves flag and router as they were
    (unlike the context, which sets the flag to [true]).  The second
    revision refuses a logout while one is in progress. *)
Theorem provider_logout_leaves_flag_on_failure
        {R} (outcome : FetchOutcome R) (c : Client) :
  (busy (AuthProviderV1.logout outcome c) = false /\
   isAuthenticated (AuthProviderV1.logout outcome c)
   = (if fetchFailed outcome then isAuthenticated c else false) /\
   pushed (AuthProviderV1.logout outcome c)
   = (if fetchFailed outcome then pushed c else pushed c ++ ["/login"])%list) /\
  (busy c = true -> AuthProviderV2.logout outcome c = c) /\
  (busy c = false ->
   busy (AuthProviderV2.logout outcome c) = false /\
   isAuthenticated (AuthProviderV2.logout outcome c)
   = (if fetchFailed outcome then isAuthenticated c else false) /\
   pushed (AuthProviderV2.logout outcome c)
   = (if fetchFailed outcome then pushed c else pushed c ++ ["/login"])%list).
Proof.
  split; [|split].
  - unfold AuthProviderV1.logout.
    destruct outcome as [|status json]; cbn; [auto|].
    destruct (statusOk status); cbn; auto.
  - intros Hbusy. unfold AuthProviderV2.logout. rewrite Hbusy. reflexivity.
  - intros Hbusy. unfold AuthProviderV2.logout. rewrite Hbusy.
    destruct outcome as [|status json]; cbn; [auto|].
    destruct (statusOk status); cbn; [auto|].
    destruct json; cbn; auto.
Qed.

End ProviderLogoutFacts.

(** ** Navigation while Unauthenticated *)

Section NavigationFacts.
Import Js React Session Navigation.

Lemma closure_eqb_refl (d : Closure) : closure_eqb d d = true.
Proof.
  unfold closure_eqb. rewrite eqb_reflx, String.eqb_refl. reflexivity.
Qed.

Lemma closure_eqb_path (d : Closure) (c : Client) :
  c_pathname d <> pathname c -> closure_eqb d (current c) = false.
Proof.
  intros Hne. unfold closure_eqb, current. cbn.
  apply andb_false_iff. right. apply String.eqb_neq. exact Hne.
Qed.

Lemma guards_navigation_intro {A} (P : Provider A) (routes : list string)
      (nested : bool) (isPublic : string -> bool) :
  (forall path, isPublic path = true <-> onAllowList routes nested path) ->
  (forall c, guard P c
             = if negb (isAuthenticated c) && negb (isPublic (pathname c))
               then push "/login" c else c) ->
  GuardsNavigation P routes nested.
Proof.
  intros Hmatch Hguard s path Hdeps Hflag.
  assert (Hmoved : path <> pathname (client s) ->
                   client (step P (Navigate path) s)
                   = guard P (setPathname path (client s))).
  { intros Hne. cbn [step]. unfold settle. cbn [deps client].
    rewrite closure_eqb_path by (rewrite Hdeps; cbn; congruence).
    apply runEffects_client. }
  split; [|split].
  - intros ->. cbn [step]. unfold settle. cbn [deps client].
    assert (Hsame : setPathname (pathname (client s)) (client s) = client s)
      by (destruct (client s); reflexivity).
    rewrite Hsame, Hdeps, closure_eqb_refl. destruct s; cbn in *. congruence.
  - intros Hne Hoff. rewrite (Hmoved Hne), Hguard. cbn. rewrite Hflag. cbn.
    destruct (isPublic path) eqn:Hp; [apply Hmatch in Hp; contradiction|].
    reflexivity.
  - intros Hne Hon. rewrite (Hmoved Hne), Hguard. cbn. rewrite Hflag. cbn.
    apply Hmatch in Hon. rewrite Hon. reflexivity.
Qed.

(** In every revision of the provider, a change of pathname while the flag
    is Unauthenticated pushes /login exactly when the new pathname is off
    the revision's allow-list. *)
Theorem navigation_is_guarded :
  GuardsNavigation providerV1 ["/login"; "/register"] false /\
  GuardsNavigation providerV2 ["/login"; "/register"; "/"] true /\
  GuardsNavigation authContext ["/login"; "/register"; "/"] true.
Proof.
  split; [|split].
  - apply (guards_navigation_intro _ _ _ AuthProviderV1.isPublicRoute).
    + intros path. apply exact_match_allow_list.
    + reflexivity.
  - apply (guards_navigation_intro _ _ _ AuthProviderV2.isPublicRoute).
    + intros path. apply nested_match_allow_list.
    + reflexivity.
  - apply (guards_navigation_intro _ _ _ AuthContext.isPublicRoute).
    + intros path. apply nested_match_allow_list.
    + reflexivity.
Qed.

End NavigationFacts.

(** ** Login, status, logout: the round trip on the server side *)

Section RoundTripFacts.
Import Js Zod Server Validation Actions Revisions ActionTerms.
Context {B : Type} {sdk : Sdk B}.
Variable emailRegex : string -> bool.

(** The world a successful login leaves. *)
Lemma login_success_world
      (revision : bool) (fd : gmap string FormValue) (w w' : World B)
      (st : AuthActionState) :
  loginOf emailRegex revision fd w = (Ok st, w') ->
  success st = true ->
  exists d b',
    requestScope w = true /\
    fst (loginAccessToken (mkLoginBody (formGet fd "email") (formGet fd "password"))
                          (backend w)) = Ok (mkLoginResponse (Some d)) /\
    w' = setJar (<["auth-token" :=
                     authCookie (access_token d)
                                (String.eqb (nodeEnv w) "production")]> (jar w))
                (afterLoginCall
                   (mkLoginBody (formGet fd "email") (formGet fd "password")) b' w).
Proof.
  rewrite loginOf_unfold.
  destruct (safeParse emailRegex _ _) as [out | issues].
  - rewrite loginRequest_guarded. cbn zeta.
    destruct (loginAccessToken _ (backend w)) as [[[[d|]] | e] b'].
    + destruct (requestScope w) eqn:Hscope.
      * intros [= <- <-] _. exists d, b'. auto.
      * destruct (loginCatch_spec
                    (ErrorObj "cookies was called outside a request scope")
                    (afterLoginCall
                       (mkLoginBody (formGet fd "email") (formGet fd "password")) b' w))
          as (msg & w0 & -> & _ & _).
        intros [= <- <-] Hok. discriminate Hok.
    + intros [= <- <-] Hok. discriminate Hok.
    + destruct (loginCatch_spec e
                  (afterLoginCall
                     (mkLoginBody (formGet fd "email") (formGet fd "password")) b' w))
        as (msg & w0 & -> & _ & _).
      intros [= <- <-] Hok. discriminate Hok.
  - intros [= <- <-] Hok. discriminate Hok.
Qed.

(** After a successful login the status action, the status route and
    [getAuthToken] all read the token back from the cookie: they report
    Authenticated exactly when the token the backend returned is not the
    empty string.  After the logout route has run on that world, all three
    report Unauthenticated. *)
Theorem login_status_logout_round_trip
        (revision : bool) (fd : gmap string FormValue) (w w' : World B)
        (st : AuthActionState) :
  loginOf emailRegex revision fd w = (Ok st, w') ->
  success st = true ->
  exists d,
    fst (loginAccessToken (mkLoginBody (formGet fd "email") (formGet fd "password"))
                          (backend w)) = Ok (mkLoginResponse (Some d)) /\
    fst (Actions.checkAuthStatus w') = Ok (truthy (access_token d)) /\
    fst (Routes.GET w')
    = Ok (Routes.mkStatusResponse 200 (truthy (access_token d)) None) /\
    fst (TokenAccess.getAuthToken w')
    = Ok (if truthy (access_token d) then Some (access_token d) else None) /\
    fst (Actions.checkAuthStatus (snd (Routes.POST w'))) = Ok false /\
    fst (Routes.GET (snd (Routes.POST w')))
    = Ok (Routes.mkStatusResponse 200 false None) /\
    fst (TokenAccess.getAuthToken (snd (Routes.POST w'))) = Ok None.
Proof.
  intros Hrun Hok.
  destruct (login_success_world revision fd w w' st Hrun Hok)
    as (d & b' & Hscope & Hcall & ->).
  exists d. split; [exact Hcall|].
  remember (setJar _ _) as w1 eqn:Hw1.
  assert (Hs1 : requestScope w1 = true) by (rewrite Hw1; exact Hscope).
  assert (Hj1 : jar w1 !! "auth-token"
                = Some (authCookie (access_token d)
                                   (String.eqb (nodeEnv w) "production"))).
  { rewrite Hw1. cbn. apply lookup_insert_eq. }
  destruct (POST_in_request w1 Hs1) as (w2 & Hpost & Hj2 & Hs2 & _).
  assert (Hgone : jar w2 !! "auth-token" = None)
    by (rewrite Hj2; apply lookup_delete_eq).
  rewrite Hpost. cbn [snd].
  unfold Actions.checkAuthStatus, Routes.GET, TokenAccess.getAuthToken,
    try_catch, bind, cookies, cookie_get.
  rewrite Hs1, Hs2, Hj1, Hgone. cbn. auto 10.
Qed.

End RoundTripFacts.

(** The login of a well-formed form against the accepting backend, then
    the status checks and the logout. *)
Lemma login_status_logout_round_trip_witness :
  exists d,
    fst (Server.loginAccessToken
           (Sdk := Samples.acceptingSdk)
           (Server.mkLoginBody
              (Actions.formGet (Samples.loginForm "ann@example.com" "secret1") "email")
              (Actions.formGet (Samples.loginForm "ann@example.com" "secret1") "password"))
           (Server.backend Samples.emptyWorld))
    = Js.Ok (Server.mkLoginResponse (Some d)) /\
    fst (Actions.checkAuthStatus
           (snd (Revisions.loginOf (sdk := Samples.acceptingSdk) Samples.simpleEmail true
                   (Samples.loginForm "ann@example.com" "secret1") Samples.emptyWorld)))
    = Js.Ok (Js.truthy (Server.access_token d)).
Proof.
  destruct (login_status_logout_round_trip
              (sdk := Samples.acceptingSdk) Samples.simpleEmail true
              (Samples.loginForm "ann@example.com" "secret1") Samples.emptyWorld
              (snd (Revisions.loginOf (sdk := Samples.acceptingSdk) Samples.simpleEmail
                      true (Samples.loginForm "ann@example.com" "secret1")
                      Samples.emptyWorld))
              (Validation.mkState None true))
    as (d & Hcall & Hstatus & _).
  - vm_compute. reflexivity.
  - reflexivity.
  - exists d. split; assumption.
Defined.

(** ** The user actions *)

Section UserFacts.
Import Js Zod Server UserActions.
Context {B : Type} {usdk : UserSdk B}.
Variable emailRegex : string -> bool.

(** Every path of [getCurrentUser], spelled out. *)
Lemma getCurrentUser_cases (w : World B) :
  getCurrentUser w
  = if requestScope w then
      match value <$> jar w !! "auth-token" with
      | Some t =>
          if truthy t then
            match readUserMe ("Bearer " ++ t) (backend w) with
            | (Ok u, b') =>
                (Ok u, mkWorld (jar w) (requestScope w) (nodeEnv w) b'
                               (calls w) (console w))
            | (Throw _, b') =>
                (Ok None,
                 snd (console_error "获取当前用户信息失败:"
                        (mkWorld (jar w) (requestScope w) (nodeEnv w) b'
                                 (calls w) (console w))))
            end
          else (Ok None, w)
      | None => (Ok None, w)
      end
    else (Ok None, snd (console_error "获取当前用户信息失败:" w)).
Proof.
  unfold getCurrentUser, try_catch, bind, cookies, cookie_get, callUser.
  destruct (requestScope w) eqn:Hscope; [|reflexivity]. cbn.
  destruct (jar w !! "auth-token") as [c|]; cbn; [|reflexivity].
  destruct (truthy (value c)); cbn; [|reflexivity].
  destruct (readUserMe _ (backend w)) as [[u|e] b']; rewrite ?Hscope; reflexivity.
Qed.

Lemma getCurrentUser_total (w : World B) :
  exists u w', getCurrentUser w = (Ok u, w').
Proof.
  rewrite getCurrentUser_cases.
  destruct (requestScope w); [|eauto].
  destruct (value <$> jar w !! "auth-token") as [t|]; [|eauto].
  destruct (truthy t); [|eauto].
  destruct (readUserMe _ (backend w)) as [[u|e] b']; eauto.
Qed.

(** [checkUserPermission] in terms of the user [getCurrentUser] finds. *)
Lemma checkUserPermission_cases (r : RequiredRole) (w : World B) :
  checkUserPermission r w
  = (Ok match fst (getCurrentUser w) with
        | Ok (Some u) =>
            if is_superuser u then true
            else match r with
                 | admin => roleIs u "admin"
                 | user => roleIs u "admin" || roleIs u "user"
                 | guest => true
                 end
        | _ => false
        end,
     snd (getCurrentUser w)).
Proof.
  unfold checkUserPermission, try_catch, bind.
  destruct (getCurrentUser_total w) as (u & w' & ->). cbn.
  destruct u as [u|]; [|reflexivity].
  destruct (is_superuser u); [reflexivity|]. destruct r; reflexivity.
Qed.

(** The permission check is a hierarchy: whoever passes for "admin"
    passes for "user", whoever passes for "user" passes for "guest", and
    "guest" is passed exactly by a request whose current user can be read;
    a superuser passes all three whatever the role; and the check does to
    the world what the one read of the current user does. *)
Theorem permission_check_is_a_hierarchy (w : World B) :
  (forall r, snd (checkUserPermission r w) = snd (getCurrentUser w)) /\
  (fst (checkUserPermission admin w) = Ok true ->
   fst (checkUserPermission user w) = Ok true) /\
  (fst (checkUserPermission user w) = Ok true ->
   fst (checkUserPermission guest w) = Ok true) /\
  (fst (checkUserPermission guest w) = Ok true
   <-> exists u, fst (getCurrentUser w) = Ok (Some u)) /\
  (forall u r,
      fst (getCurrentUser w) = Ok (Some u) -> is_superuser u = true ->
      fst (checkUserPermission r w) = Ok true).
Proof.
  assert (Hsuper : forall u r,
             fst (getCurrentUser w) = Ok (Some u) -> is_superuser u = true ->
             fst (checkUserPermission r w) = Ok true).
  { intros u r Hu Hs. rewrite checkUserPermission_cases. cbn [fst].
    rewrite Hu, Hs. reflexivity. }
  split; [intros r; rewrite checkUserPermission_cases; reflexivity|].
  split; [|split; [|split; [|exact Hsuper]]];
    rewrite !checkUserPermission_cases; cbn [fst];
    destruct (fst (getCurrentUser w)) as [[u|]|e];
    try destruct (is_superuser u);
    try discriminate; try reflexivity.
  - intros [= ->]. reflexivity.
  - split; eauto.
  - split; eauto.
  - split; [discriminate | intros [u H]; discriminate].
  - split; [discriminate | intros [u H]; discriminate].
Qed.

(** Without a non-empty token in the cookie the user actions answer
    without contacting the backend: the reads with no user, the permission
    check with a refusal for every role; and no user action ever throws. *)
Theorem user_actions_need_a_token (w : World B) :
  (truthyOpt (value <$> jar w !! "auth-token") = false ->
   (fst (getCurrentUser w) = Ok None /\ backend (snd (getCurrentUser w)) = backend w)
   /\ (forall userId,
          fst (getUserById userId w) = Ok None
          /\ backend (snd (getUserById userId w)) = backend w)
   /\ (forall r,
          fst (checkUserPermission r w) = Ok false
          /\ backend (snd (checkUserPermission r w)) = backend w)) /\
  (exists u w', getCurrentUser w = (Ok u, w')) /\
  (forall userId, exists u w', getUserById userId w = (Ok u, w')) /\
  (forall r, exists b w', checkUserPermission r w = (Ok b, w')).
Proof.
  split; [|split; [|split]].
  - intros Hnone.
    assert (Hcur : fst (getCurrentUser w) = Ok None
                   /\ backend (snd (getCurrentUser w)) = backend w).
    { rewrite getCurrentUser_cases. destruct (requestScope w); [|auto].
      destruct (value <$> jar w !! "auth-token") as [t|]; [|auto].
      cbn in Hnone. rewrite Hnone. auto. }
    split; [exact Hcur|]. split.
    + intros userId.
      unfold getUserById, try_catch, bind, cookies, cookie_get.
      destruct (requestScope w); [|auto]. cbn.
      destruct (jar w !! "auth-token") as [c|]; cbn in *; [|auto].
      rewrite Hnone. auto.
    + intros r. rewrite checkUserPermission_cases. cbn [fst snd].
      destruct Hcur as [-> ->]. auto.
  - apply getCurrentUser_total.
  - intros userId.
    unfold getUserById, try_catch, bind, cookies, cookie_get, callUser.
    destruct (requestScope w); [|eauto]. cbn.
    destruct (jar w !! "auth-token") as [c|]; cbn; [|eauto].
    destruct (truthy (value c)); cbn; [|eauto].
    destruct (readUser _ userId (backend w)) as [[u|e] b']; eauto.
  - intros r. rewrite checkUserPermission_cases. eauto.
Qed.

(** What [x.optional().or(z.literal(""))] makes of a string: valid if the
    string passes the checks or is empty, else dirty with the issues of
    the checks. *)
Lemma optionalOrEmpty_string (checks : list StringCheck) (key s : string) :
  ZodFields.parseField emailRegex (ZodFields.optionalOrEmpty checks) key (FString s)
  = match omap (fun c => mkIssue [key] <$> runCheck emailRegex s c) checks with
    | [] => (valid, [])
    | issues => if String.eqb s "" then (valid, []) else (dirty, issues)
    end.
Proof.
  unfold ZodFields.optionalOrEmpty. cbn.
  destruct (omap _ checks); destruct (String.eqb s ""); reflexivity.
Qed.

(** ... and of [null], which neither branch of the union takes. *)
Lemma optionalOrEmpty_null (checks : list StringCheck) (key : string) :
  ZodFields.parseField emailRegex (ZodFields.optionalOrEmpty checks) key FNull
  = (aborted, [mkIssue [key] "Invalid input"]).
Proof. reflexivity. Qed.

Lemma optionalOrEmpty_file (checks : list StringCheck) (key : string) :
  ZodFields.parseField emailRegex (ZodFields.optionalOrEmpty checks) key FFile
  = (aborted, [mkIssue [key] "Invalid input"]).
Proof. reflexivity. Qed.

Lemma updateData_lookups (u f e p : FormValue) :
  updateData u f e p !! "username" = Some u
  /\ updateData u f e p !! "full_name" = Some f
  /\ updateData u f e p !! "email" = Some e
  /\ updateData u f e p !! "password" = Some p.
Proof.
  unfold updateData. split; [|split; [|split]].
  - apply lookup_insert_eq.
  - rewrite lookup_insert_ne by done. apply lookup_insert_eq.
  - rewrite !lookup_insert_ne by done. apply lookup_insert_eq.
  - rewrite !lookup_insert_ne by done. apply lookup_insert_eq.
Qed.

(** The password field of the update schema on what the action hands it. *)
Lemma update_password_field (v : FormValue) :
  (forall s, v = FString s -> String.length s < 8) ->
  (ZodFields.parseField emailRegex
     (ZodFields.optionalOrEmpty [min 8 "密码至少需要8个字符"]) "password"
     (orNull v)).1 <> valid.
Proof.
  intros Hshort. destruct v as [s| | |]; cbn [orNull];
    try (rewrite optionalOrEmpty_null; discriminate);
    try (rewrite optionalOrEmpty_file; discriminate).
  destruct (truthy s) eqn:Ht; [|rewrite optionalOrEmpty_null; discriminate].
  rewrite optionalOrEmpty_string. cbn [omap list_omap].
  unfold runCheck. specialize (Hshort s eq_refl).
  apply Nat.ltb_lt in Hshort. rewrite Hshort. cbn.
  unfold truthy in Ht. apply negb_true_iff in Ht. rewrite Ht. discriminate.
Qed.

(** [updateCurrentUser] goes through only with a new password: unless the
    form carries a password string of at least 8 characters (an empty or
    missing one is turned into [null], which the schema does not take),
    the action answers with a validation error and leaves the world as it
    was, so no update reaches the backend. *)
Theorem update_requires_a_new_password (fd : gmap string FormValue) (w : World B) :
  (forall s, Actions.formGet fd "password" = FString s -> String.length s < 8) ->
  exists msg,
    updateCurrentUser emailRegex fd w = (Ok (createUserErrorState msg), w).
Proof.
  intros Hshort.
  unfold updateCurrentUser, try_catch, ZodFields.validate, ZodFields.userUpdateSchema.
  cbn [ZodFields.parseFields].
  destruct (updateData_lookups
              (Actions.formGet fd "username") (Actions.formGet fd "full_name")
              (Actions.formGet fd "email")
              (orNull (Actions.formGet fd "password"))) as (-> & -> & -> & ->).
  cbn [from_option]. unfold Datatypes.id.
  pose proof (update_password_field (Actions.formGet fd "password") Hshort) as Hpw.
  destruct (ZodFields.parseField emailRegex _ "username" _) as [s1 i1].
  destruct (ZodFields.parseField emailRegex _ "full_name" _) as [s2 i2].
  destruct (ZodFields.parseField emailRegex _ "email" _) as [s3 i3].
  destruct (ZodFields.parseField emailRegex _ "password" _) as [s4 i4].
  cbn [fst] in Hpw.
  destruct s1, s2, s3, s4; try congruence; cbn; eauto.
Qed.

(** In particular, a form with a fine user name (empty, or of at least 3
    characters), full name and e-mail and with an empty or missing
    password is answered with "Invalid input". *)
Theorem update_without_password_is_invalid_input
        (fd : gmap string FormValue) (w : World B) (u f e : string) :
  Actions.formGet fd "username" = FString u ->
  u = "" \/ 3 <= String.length u ->
  Actions.formGet fd "full_name" = FString f ->
  Actions.formGet fd "email" = FString e ->
  emailRegex e = true ->
  Actions.formGet fd "password" = FString ""
  \/ Actions.formGet fd "password" = FNull ->
  updateCurrentUser emailRegex fd w
  = (Ok (createUserErrorState "Invalid input"), w).
Proof.
  intros Hu Hlen Hf He Hmail Hpw.
  unfold updateCurrentUser, try_catch, ZodFields.validate, ZodFields.userUpdateSchema.
  cbn [ZodFields.parseFields].
  destruct (updateData_lookups
              (Actions.formGet fd "username") (Actions.formGet fd "full_name")
              (Actions.formGet fd "email")
              (orNull (Actions.formGet fd "password"))) as (-> & -> & -> & ->).
  cbn [from_option]. unfold Datatypes.id. rewrite Hu, Hf, He.
  assert (Hnull : orNull (Actions.formGet fd "password") = FNull)
    by (destruct Hpw as [-> | ->]; reflexivity).
  rewrite Hnull, !optionalOrEmpty_string, optionalOrEmpty_null.
  cbn [omap list_omap ZodFields.parseField parseString]. unfold runCheck.
  rewrite Hmail.
  destruct (String.length u <? 3)%nat eqn:Hlt; cbn.
  - destruct Hlen as [-> | Hlen]; [reflexivity|].
    apply Nat.ltb_lt in Hlt. lia.
  - reflexivity.
Qed.

End UserFacts.

(** A signed-in request whose form carries a five-letter password. *)
Lemma update_requires_a_new_password_witness :
  exists msg,
    UserActions.updateCurrentUser (usdk := Fixtures.userSdk) Samples.simpleEmail
      (Fixtures.updateForm "ann" "ann@example.com" "short") Samples.loggedInWorld
    = (Js.Ok (UserActions.createUserErrorState msg), Samples.loggedInWorld).
Proof.
  apply (update_requires_a_new_password (usdk := Fixtures.userSdk)).
  vm_compute. intros s [= <-]. vm_compute. lia.
Defined.

(** A profile update that changes nothing and gives no new password. *)
Lemma update_without_password_is_invalid_input_witness :
  UserActions.updateCurrentUser (usdk := Fixtures.userSdk) Samples.simpleEmail
    (Fixtures.updateForm "ann" "ann@example.com" "") Samples.loggedInWorld
  = (Js.Ok (UserActions.createUserErrorState "Invalid input"), Samples.loggedInWorld).
Proof.
  apply (update_without_password_is_invalid_input
           (usdk := Fixtures.userSdk) Samples.simpleEmail
           (Fixtures.updateForm "ann" "ann@example.com" "") Samples.loggedInWorld
           "ann" "" "ann@example.com").
  - reflexivity.
  - right. cbn. lia.
  - reflexivity.
  - reflexivity.
  - reflexivity.
  - left. reflexivity.
Defined.

(** ** The user page *)

Section PageFacts.
Import Js Server UserActions Pages.
Context {B : Type} {usdk : UserSdk B}.

Lemma checkAuthStatus_cases (w : World B) :
  Actions.checkAuthStatus w
  = (Ok (requestScope w && truthyOpt (value <$> jar w !! "auth-token")),
     if requestScope w then w else snd (console_error "检查认证状态失败:" w)).
Proof.
  unfold Actions.checkAuthStatus, try_catch, bind, cookies, cookie_get.
  destruct (requestScope w); reflexivity.
Qed.

(** The page shows a user only to a requester who passed the "admin"
    check or whose own id, as read after that check, is the id asked for;
    the edit button is shown only in the first case; and without a
    non-empty token the page redirects to /login without contacting the
    backend. *)
Theorem user_page_shows_own_or_admin (userId : string) (w : World B) :
  (forall u canEdit w',
      UserDetailPage userId w = (Ok (Detail u canEdit), w') ->
      fst (checkUserPermission admin w) = Ok canEdit /\
      (canEdit = true
       \/ exists cu,
           fst (getCurrentUser (snd (checkUserPermission admin w))) = Ok (Some cu)
           /\ id cu = userId)) /\
  (requestScope w && truthyOpt (value <$> jar w !! "auth-token") = false ->
   fst (UserDetailPage userId w) = Throw (NextRedirect "/login")
   /\ backend (snd (UserDetailPage userId w)) = backend w).
Proof.
  unfold UserDetailPage, bind. rewrite checkAuthStatus_cases.
  destruct (requestScope w && truthyOpt (value <$> jar w !! "auth-token")) eqn:Hauth;
    cbn [negb].
  - split; [|discriminate]. intros u canEdit w'.
    apply andb_true_iff in Hauth as [Hscope _]. rewrite Hscope.
    rewrite (checkUserPermission_cases admin w).
    set (w1 := snd (getCurrentUser w)).
    destruct (match fst (getCurrentUser w) with
              | Ok (Some u0) =>
                  if is_superuser u0 then true else roleIs u0 "admin"
              | _ => false
              end) eqn:Hperm; cbn.
    + destruct (getUserById userId w1) as [[[shown|]|e] w2]; cbn;
        intros [= <- <- <-] || intros [=]; auto.
    + destruct (getCurrentUser_total w1) as (cu & w2 & Hcu). rewrite Hcu. cbn.
      destruct cu as [cu|]; cbn; [|intros [=]].
      destruct (String.eqb (id cu) userId) eqn:Hid; cbn; [|intros [=]].
      destruct (getUserById userId w2) as [[[shown|]|e] w3]; cbn;
        intros [= <- <- <-] || intros [=].
      split; [reflexivity|]. right. exists cu. split; [reflexivity|].
      apply String.eqb_eq. exact Hid.
  - split; [intros u canEdit w' [=]|]. intros _.
    unfold redirect, throw. cbn. destruct (requestScope w); auto.
Qed.

End PageFacts.

(** ** The login form and the provider *)

Section LoginFormFacts.
Import React Session.

(** A finished login that failed leaves the provider as it was.  One that
    succeeded ends, in every revision of the provider and on whatever
    pathname, with the flag Authenticated and with no push but to "/" (the
    route guard does not interfere).  Under the second revision of
    auth-provider.tsx and under auth.context.tsx "/" is pushed once; under
    the first revision, whose [setAuth] is new on every render, it is
    pushed twice when the login moved the flag, and once when the flag was
    set already. *)
Theorem login_form_hands_over_to_provider
        (state : Validation.AuthActionState) (s : State) :
  (Validation.success state = false ->
   LoginForm.underProviderV1 state s = s
   /\ LoginForm.underProviderV2 state s = s
   /\ LoginForm.underAuthContext state s = s) /\
  (Validation.success state = true ->
   (isAuthenticated (client (LoginForm.underProviderV1 state s)) = true
    /\ pushed (client (LoginForm.underProviderV1 state s))
       = (pushed (client s)
          ++ (if isAuthenticated (client s) then ["/"] else ["/"; "/"]))%list)
   /\ (isAuthenticated (client (LoginForm.underProviderV2 state s)) = true
       /\ pushed (client (LoginForm.underProviderV2 state s))
          = (pushed (client s) ++ ["/"])%list)
   /\ (isAuthenticated (client (LoginForm.underAuthContext state s)) = true
       /\ pushed (client (LoginForm.underAuthContext state s))
          = (pushed (client s) ++ ["/"])%list)).
Proof.
  unfold LoginForm.underProviderV1, LoginForm.underProviderV2,
    LoginForm.underAuthContext, LoginForm.onState.
  split; intros Hok; rewrite Hok; [auto|].
  assert (Hsettle : forall {A} (P : Provider A) (t : State),
             (forall c, isAuthenticated c = true -> guard P c = c) ->
             isAuthenticated (client t) = true ->
             client (settle P t) = client t).
  { intros A P t Hguard Hflag. unfold settle.
    destruct (closure_eqb _ _); [reflexivity|].
    rewrite runEffects_client. apply Hguard. exact Hflag. }
  assert (HguardV1 : forall c, isAuthenticated c = true -> guard providerV1 c = c).
  { intros c Hc. unfold guard, providerV1, AuthProviderV1.guardEffect.
    rewrite Hc. reflexivity. }
  assert (HguardV2 : forall c, isAuthenticated c = true -> guard providerV2 c = c).
  { intros c Hc. unfold guard, providerV2, AuthProviderV2.guardEffect.
    rewrite Hc. reflexivity. }
  assert (HguardCtx : forall c, isAuthenticated c = true -> guard authContext c = c).
  { intros c Hc. unfold guard, authContext, AuthContext.guardEffect.
    rewrite Hc. reflexivity. }
  destruct s as [[flag bz op pn ps er] dp fl nx].
  unfold LoginForm.rendersAgain, LoginForm.effectBody.
  split; [|split].
  - destruct flag; cbn [client isAuthenticated pushed setAuth providerV1
                          setIsAuthenticated push Bool.eqb negb deps inflight next].
    + split; reflexivity.
    + rewrite Hsettle by (exact HguardV1 || reflexivity). cbn.
      split; [reflexivity|]. rewrite <- app_assoc. reflexivity.
  - destruct flag; cbn [client isAuthenticated pushed setAuth providerV2
                          AuthProviderV2.setAuth setIsAuthenticated push
                          Bool.eqb negb deps inflight next].
    + split; reflexivity.
    + rewrite Hsettle by (exact HguardV2 || reflexivity). cbn.
      split; reflexivity.
  - destruct flag; cbn [client isAuthenticated pushed setAuth authContext
                          AuthContext.setAuth AuthContext.setState
                          setIsAuthenticated push Bool.eqb negb deps inflight next].
    + split; reflexivity.
    + rewrite Hsettle by (exact HguardCtx || reflexivity). cbn.
      split; reflexivity.
Qed.

End LoginFormFacts.

(** ** Validation messages *)

Section ValidationFacts.
Import Zod Validation.
Variable emailRegex : string -> bool.

Lemma firstMessage_not_empty (issues : list Issue) : firstMessage issues <> "".
Proof.
  destruct issues as [|i rest]; cbn; [discriminate|].
  unfold Js.orElse, Js.truthy.
  destruct (String.eqb (message i) "") eqn:Heq; cbn; [discriminate|].
  apply String.eqb_neq. exact Heq.
Qed.

(** [validateFormData] succeeds exactly when [safeParse] does, and then
    hands on the parsed data without an error; when it fails it always
    carries a message, and the message is never the empty string (an issue
    without text is replaced by the stock message), so a failed validation
    always has something to show. *)
Theorem validation_failure_has_a_message
        (schema : Schema) (data : gmap string FormValue) :
  (v_success (validateFormData emailRegex schema data) = true
   <-> exists out, safeParse emailRegex schema data = inl out) /\
  (forall out,
      safeParse emailRegex schema data = inl out ->
      validateFormData emailRegex schema data = mkValidation true (Some out) None) /\
  (v_success (validateFormData emailRegex schema data) = false ->
   exists msg,
     v_error (validateFormData emailRegex schema data) = Some msg
     /\ msg <> ""
     /\ v_data (validateFormData emailRegex schema data) = None).
Proof.
  unfold validateFormData.
  destruct (safeParse emailRegex schema data) as [out | issues]; cbn.
  - split; [split; eauto|]. split; [intros o [= <-]; reflexivity | discriminate].
  - split; [split; [discriminate | intros [o H]; discriminate]|].
    split; [intros o H; discriminate|]. intros _.
    eexists. split; [reflexivity|]. split; [apply firstMessage_not_empty | reflexivity].
Qed.

End ValidationFacts.

(** A signed-in plain user asking for their own page. *)
Lemma user_page_shows_own_or_admin_witness :
  fst (UserActions.checkUserPermission (usdk := Fixtures.userSdk) UserActions.admin
         Samples.loggedInWorld) = Js.Ok false /\
  (false = true
   \/ exists cu,
       fst (UserActions.getCurrentUser (usdk := Fixtures.userSdk)
              (snd (UserActions.checkUserPermission (usdk := Fixtures.userSdk)
                      UserActions.admin Samples.loggedInWorld)))
       = Js.Ok (Some cu)
       /\ UserActions.id cu = "2").
Proof.
  apply (proj1 (user_page_shows_own_or_admin (usdk := Fixtures.userSdk) "2"
                  Samples.loggedInWorld)
               Fixtures.plainUser false
               (snd (Pages.UserDetailPage (usdk := Fixtures.userSdk) "2"
                       Samples.loggedInWorld))).
  vm_compute. reflexivity.
Defined.
